(** * Fileconversion: page-range parsing and conversion orchestration

    A shallow embedding of [src/app.py] (the HTTP front-end) and
    [src/pdf.py] (the conversion adapter and the interactive front-end),
    with the properties of the specification stated over it.

    Conventions of the embedding.
    - A Python [str] is a [string]; each [ascii] stands for the code point
      of the same number, so the model covers the code points below 256.
    - A Python [int] is a [Z]; [None] for an optional integer is [None].
    - An exception is a value of [exn]; a computation that may raise
      returns an [outcome].
    - [int(...)] follows the language's grammar for decimal literals,
      with the interpreter's default limit of 4300 digits: a longer
      literal raises [ValueError]. *)

From Stdlib Require Import String Ascii ZArith NArith List Bool Lia.
Import ListNotations.

Local Open Scope string_scope.
Local Open Scope Z_scope.

(* ===================================================================== *)
(** ** Exceptions and outcomes *)

(** The exception classes the two files can meet.  All of them derive
    from [Exception]; [OtherError] stands for any further subclass of
    [Exception] an external collaborator may raise. *)
Inductive exn : Type :=
| ValueError (msg : string)
| ImportError (msg : string)
| OSError (msg : string)
| EOFError
| AttributeError (msg : string)
| OtherError (cls msg : string).

Definition is_ValueError (e : exn) : bool :=
  match e with ValueError _ => true | _ => false end.

Inductive outcome (A : Type) : Type :=
| Returned (a : A)
| Raised (e : exn).
Arguments Returned {A} a.
Arguments Raised {A} e.

Definition obind {A B} (o : outcome A) (f : A -> outcome B) : outcome B :=
  match o with
  | Returned a => f a
  | Raised e => Raised e
  end.

(* ===================================================================== *)
(** ** The string methods the code uses *)

Module PyStr.

Definition code (c : ascii) : N := N_of_ascii c.

(** [str.isspace] on one character, below code point 256: the set
    [str.strip()] removes. *)
Definition isspace (c : ascii) : bool :=
  let n := code c in
  (((9 <=? n) && (n <=? 13)) || ((28 <=? n) && (n <=? 32))
   || (n =? 133) || (n =? 160))%N.

(** Truth value of a string: non-empty. *)
Definition truthy (s : string) : bool :=
  match s with EmptyString => false | String _ _ => true end.

Fixpoint lstrip (s : string) : string :=
  match s with
  | EmptyString => EmptyString
  | String c r => if isspace c then lstrip r else s
  end.

Fixpoint rstrip (s : string) : string :=
  match s with
  | EmptyString => EmptyString
  | String c r =>
      match rstrip r with
      | EmptyString => if isspace c then EmptyString else String c EmptyString
      | r' => String c r'
      end
  end.

(** [s.strip()] *)
Definition strip (s : string) : string := rstrip (lstrip s).

(** [ch in s] for a one-character needle. *)
Fixpoint contains (ch : ascii) (s : string) : bool :=
  match s with
  | EmptyString => false
  | String c r => if Ascii.eqb c ch then true else contains ch r
  end.

(** [s.split(ch)]: every occurrence of [ch] separates two parts. *)
Fixpoint split (ch : ascii) (s : string) : list string :=
  match s with
  | EmptyString => [EmptyString]
  | String c r =>
      if Ascii.eqb c ch then EmptyString :: split ch r
      else match split ch r with
           | [] => [String c EmptyString]
           | p :: ps => String c p :: ps
           end
  end.

(** [s.split(ch, 1)]: at most one split, at the first occurrence. *)
Fixpoint split1 (ch : ascii) (s : string) : list string :=
  match s with
  | EmptyString => [EmptyString]
  | String c r =>
      if Ascii.eqb c ch then [EmptyString; r]
      else match split1 ch r with
           | [] => [String c EmptyString]
           | p :: ps => String c p :: ps
           end
  end.

(** [a, b = parts]: unpacking into two names. *)
Definition unpack2 (parts : list string) : outcome (string * string) :=
  match parts with
  | [a; b] => Returned (a, b)
  | [] | [_] => Raised (ValueError "not enough values to unpack")
  | _ => Raised (ValueError "too many values to unpack")
  end.

(** [str.lower] on one character, below code point 256. *)
Definition lower_char (c : ascii) : ascii :=
  let n := code c in
  if (((65 <=? n) && (n <=? 90))
      || ((192 <=? n) && (n <=? 222) && negb (n =? 215)))%N
  then ascii_of_N (n + 32) else c.

Fixpoint lower (s : string) : string :=
  match s with
  | EmptyString => EmptyString
  | String c r => String (lower_char c) (lower r)
  end.

(** [s.endswith(suffix)] *)
Definition endswith (s suffix : string) : bool :=
  let n := String.length s in
  let m := String.length suffix in
  (m <=? n)%nat && String.eqb (substring (n - m) m s) suffix.

(** [x in [a, b, ...]] for strings. *)
Definition mem (x : string) (l : list string) : bool :=
  existsb (String.eqb x) l.

End PyStr.

(* ===================================================================== *)
(** ** [int(text)] *)

Module PyInt.

Definition is_digit (c : ascii) : bool :=
  let n := PyStr.code c in ((48 <=? n) && (n <=? 57))%N.

Definition digit_value (c : ascii) : Z := Z.of_N (PyStr.code c) - 48.

(** White space [int] skips around the literal: the ASCII white space of
    the C scanner, and the non-ASCII white space the constructor maps to
    a blank beforehand. *)
Definition int_space (c : ascii) : bool :=
  let n := PyStr.code c in
  (((9 <=? n) && (n <=? 13)) || (n =? 32) || (n =? 133) || (n =? 160))%N.

Fixpoint skip_space (s : string) : string :=
  match s with
  | EmptyString => EmptyString
  | String c r => if int_space c then skip_space r else s
  end.

(** The digit scanner: digits, single underscores between them.  It
    stops at the first character that is neither; [prev_us] tells
    whether the character before was an underscore. *)
Fixpoint scan (s : string) (prev_us : bool) (acc : Z) : option (Z * string) :=
  match s with
  | EmptyString => if prev_us then None else Some (acc, EmptyString)
  | String c r =>
      if is_digit c then scan r false (10 * acc + digit_value c)
      else if Ascii.eqb c "_" then
        if prev_us then None else scan r true acc
      else if prev_us then None else Some (acc, s)
  end.

(** The literal after the sign: it starts with a digit. *)
Definition magnitude (s : string) : option (Z * string) :=
  match s with
  | String c r => if is_digit c then scan r false (digit_value c) else None
  | EmptyString => None
  end.

Definition signed (s : string) : option (Z * string) :=
  match s with
  | String c r =>
      if Ascii.eqb c "+" then magnitude r
      else if Ascii.eqb c "-" then
        match magnitude r with
        | Some (v, rest) => Some (- v, rest)
        | None => None
        end
      else magnitude s
  | EmptyString => None
  end.

(** [sys.int_info.default_max_str_digits]: [int] refuses a literal of
    more decimal digits than that. *)
Definition max_str_digits : Z := 4300.

(** The number of digits of the literal at the head of [s]; an underscore
    between two digits is not counted, nor is the sign. *)
Fixpoint count_digits (s : string) : Z :=
  match s with
  | EmptyString => 0
  | String c r =>
      if is_digit c then 1 + count_digits r
      else if Ascii.eqb c "_" then count_digits r
      else 0
  end.

(** The text after one leading sign. *)
Definition after_sign (s : string) : string :=
  match s with
  | String c r => if Ascii.eqb c "+" || Ascii.eqb c "-" then r else s
  | EmptyString => s
  end.

(** [int(text)] for a string argument, base ten.  A literal that the
    grammar accepts is converted only when it has no more than
    [max_str_digits] digits; the interpreter raises [ValueError] on a
    longer one. *)
Definition int (text : string) : outcome Z :=
  match signed (skip_space text) with
  | Some (v, rest) =>
      match skip_space rest with
      | EmptyString =>
          if max_str_digits <? count_digits (after_sign (skip_space text))
          then Raised (ValueError
                 "Exceeds the limit (4300 digits) for integer string conversion")
          else Returned v
      | _ => Raised (ValueError "invalid literal for int() with base 10")
      end
  | None => Raised (ValueError "invalid literal for int() with base 10")
  end.

(** The decimal text of an integer, used to write down the inputs of a
    claim. *)
Definition digit_char (d : Z) : ascii := ascii_of_N (Z.to_N (48 + d)).

Fixpoint digits (fuel : nat) (n : Z) (acc : string) : string :=
  match fuel with
  | O => acc
  | S f =>
      let acc' := String (digit_char (n mod 10)) acc in
      if n / 10 =? 0 then acc' else digits f (n / 10) acc'
  end.

(** Enough fuel for every digit of [n]. *)
Definition fuel_for (n : Z) : nat := S (Z.to_nat (Z.log2 n)).

Definition str (n : Z) : string :=
  if n <? 0 then String "-" (digits (fuel_for (- n)) (- n) EmptyString)
  else digits (fuel_for n) n EmptyString.

End PyInt.

(* ===================================================================== *)
(** ** Local variables of the two range parsers

    Both parsers keep two locals, [start_page] and [end_page], assign them
    inside a [try] block and read them after it.  An exception leaves the
    assignments made before it in place, so the block is a computation
    over the locals that may raise. *)

Record locals : Type := mkLocals { start_page : Z; end_page : option Z }.

Definition Loc (A : Type) : Type := locals -> outcome A * locals.

Definition lret {A} (a : A) : Loc A := fun l => (Returned a, l).

Definition lbind {A B} (m : Loc A) (f : A -> Loc B) : Loc B :=
  fun l => match m l with
           | (Returned a, l') => f a l'
           | (Raised e, l') => (Raised e, l')
           end.

(** An expression that may raise, evaluated without touching the locals. *)
Definition eval {A} (o : outcome A) : Loc A := fun l => (o, l).

Definition set_start_page (v : Z) : Loc unit :=
  fun l => (Returned tt, mkLocals v (end_page l)).

Definition set_end_page (v : option Z) : Loc unit :=
  fun l => (Returned tt, mkLocals (start_page l) v).

Definition get_start_page : Loc Z := fun l => (Returned (start_page l), l).

Declare Scope loc_scope.
Delimit Scope loc_scope with loc.
Notation "x <- m ;; k" := (lbind m (fun x => k))
  (at level 61, m at next level, right associativity) : loc_scope.
Notation "m ;; k" := (lbind m (fun _ => k))
  (at level 61, right associativity) : loc_scope.
Notation "' pat <- m ;; k" := (lbind m (fun x => match x with pat => k end))
  (at level 61, pat pattern, m at next level, right associativity) : loc_scope.

(** The pair a parser hands to its caller. *)
Definition page_range_of (l : locals) : Z * option Z :=
  (start_page l, end_page l).

Definition whole_document : locals := mkLocals 0 None.

(* ===================================================================== *)
(** ** [parse_page_range] (app.py) *)

Module App.

(** The body of the [try] block. *)
Definition try_block (page_range : string) : Loc unit :=
  (let page_range := PyStr.strip page_range in
   if PyStr.contains "-" page_range then
     '(a, b) <- eval (PyStr.unpack2 (PyStr.split1 "-" page_range)) ;;
     ia <- eval (PyInt.int a) ;;
     set_start_page (Z.max (ia - 1) 0) ;;
     ib <- eval (PyInt.int b) ;;
     set_end_page (Some ib)
   else
     n <- eval (PyInt.int page_range) ;;
     set_start_page (Z.max (n - 1) 0) ;;
     s <- get_start_page ;;
     set_end_page (Some (s + 1)))%loc.

Definition parse_page_range (page_range : string) : outcome (Z * option Z) :=
  let l0 := whole_document in
  if negb (PyStr.truthy page_range) then Returned (page_range_of l0)
  else
    match try_block page_range l0 with
    | (Returned _, l) => Returned (page_range_of l)
    | (Raised _, _) =>
        (* except Exception: both locals are reset *)
        Returned (page_range_of whole_document)
    end.

End App.

(* ===================================================================== *)
(** ** The range parsing inside [_interactive_single_convert] (pdf.py) *)

Module Cli.

(** The body of the [try] block. *)
Definition range_block (page_range : string) : Loc unit :=
  (if PyStr.contains "-" page_range then
     '(start, end_) <- eval (PyStr.unpack2 (PyStr.split "-" page_range)) ;;
     istart <- eval (PyInt.int start) ;;
     set_start_page (istart - 1) ;;
     iend <- eval (PyInt.int end_) ;;
     set_end_page (Some iend)
   else
     n <- eval (PyInt.int page_range) ;;
     set_start_page (n - 1) ;;
     s <- get_start_page ;;
     set_end_page (Some (s + 1)))%loc.

(** From the line the operator types to the pair passed to
    [convert_single_file].  The handler of [ValueError] only prints a
    warning ("the page format is invalid, all pages will be
    converted"); it assigns nothing. *)
Definition interactive_page_range (line : string) : outcome (Z * option Z) :=
  let page_range := PyStr.strip line in
  let l0 := whole_document in
  if PyStr.truthy page_range then
    match range_block page_range l0 with
    | (Returned _, l) => Returned (page_range_of l)
    | (Raised e, l) =>
        if is_ValueError e then Returned (page_range_of l) else Raised e
    end
  else Returned (page_range_of l0).

End Cli.


(* ===================================================================== *)
(** ** Notions the statements use *)

(** A string of decimal digits, and the number it denotes after [acc]. *)
Fixpoint all_digits (s : string) : bool :=
  match s with
  | EmptyString => true
  | String c r => PyInt.is_digit c && all_digits r
  end.

Fixpoint value (acc : Z) (s : string) : Z :=
  match s with
  | EmptyString => acc
  | String c r => value (10 * acc + PyInt.digit_value c) r
  end.

(** The invariant of the data model: [start >= 0], and [start < end] when
    [end] is bounded. *)
Definition page_range_invariant (r : Z * option Z) : Prop :=
  0 <= fst r /\ match snd r with Some e => fst r < e | None => True end.

(* ===================================================================== *)
(** ** The external collaborators

    Everything outside the two files (the operating system, [tempfile],
    [zipfile], werkzeug's uploads, the terminal, pdf2docx and fitz) is an
    operation of [op]; what an operation answers, whether it raises and
    how it changes the world is given by a handler, and the theorems hold
    for every handler unless they name a contract.  Log lines and printed
    lines are output that cannot fail.  Reading the clock has no effect on
    the control flow and is left out. *)

(** An open converter, document or archive. *)
Definition handle : Type := nat.

(** An uploaded file (werkzeug's [FileStorage]); it is truthy when its
    file name is not empty. *)
Record FileStorage : Type := mkUpload { filename : string; stream : string }.

(** A value of a metadata dictionary: [None] or a string. *)
Inductive pyvalue : Type := PyNone | PyStr (s : string).

Inductive prompt : Type :=
| AskPdfPath            (* "please enter the path of the PDF file" *)
| AskDocxPath (default : string)
| AskPageRange          (* "page range (start-end, e.g. 1-5, empty: all)" *)
| AskOverwrite (name : string). (* "<name> exists, overwrite? (y/n/a=all/s=skip all)" *)

Inductive op : Type -> Type :=
(* os, os.path, pathlib *)
| OsPathExists (p : string) : op bool
| OsPathIsfile (p : string) : op bool
| OsPathGetsize (p : string) : op Z
| OsMakedirs (p : string) : op unit
| OsRemove (p : string) : op unit
| OsListdir (p : string) : op (list string)
| PathMkdir (p : string) : op unit
| PathGlob (dir pattern : string) : op (list string)
(* tempfile *)
| NamedTemporaryFile (suffix : string) : op string
| CloseTemporaryFile (name : string) : op unit
| TemporaryDirectory : op string
| CleanupTemporaryDirectory (td : string) : op unit
(* werkzeug, flask *)
| FileSave (f : FileStorage) (dst : string) : op unit
| SendPath (path download_name mimetype : string) : op unit
| SendBuffer (buffer : handle) (download_name mimetype : string) : op unit
(* zipfile, io *)
| BytesIO : op handle
| ZipFileOpen (buffer : handle) : op handle
| ZipWrite (zf : handle) (path arcname : string) : op unit
| ZipFileClose (zf : handle) : op unit
| BufferSeek (buffer : handle) (pos : Z) : op unit
(* pdf2docx *)
| ImportConverter : op unit
| Converter (pdf_path : string) : op handle
| ConverterConvert (cv : handle) (docx_path : string)
                   (start : Z) (end_ : option Z) : op unit
| ConverterClose (cv : handle) : op unit
(* fitz *)
| ImportFitz : op unit
| FitzOpen (pdf_path : string) : op handle
| DocPageCount (doc : handle) : op Z
| DocMetadataGet (doc : handle) (key default : string) : op pyvalue
| DocClose (doc : handle) : op unit
(* the terminal *)
| Input (p : prompt) : op string.

Inductive level : Type := INFO | WARNING | ERROR.

(** The lines the code logs, by their place in the code. *)
Inductive log_msg : Type :=
| PdfMissing (pdf_path : string)
| OutputDirCreated (output_dir : string)
| ConversionStarted (name : string)
| ConversionSucceeded (name : string)
| FileSizeReport (bytes : Z)
| ElapsedReport
| OutputNotCreated
| ConversionError (e : exn)
| InputDirMissing (input_dir : string)
| NoPdfFound (input_dir : string)
| FoundPdfFiles (n : nat)
| OutputDirReport (output_dir : string)
| ProcessingFile (i n : nat) (name : string)
| SkippedFile (name : string)
| SkippingAll
| ProgressReport (i n success : nat)
| BatchFinished
| BatchSuccessReport (success n : nat)
| BatchElapsedReport
| PdfInfoError (e : exn).

(** The lines the interactive front-end prints. *)
Inductive printed : Type :=
| FileNotFound (pdf_path : string)
| InvalidRangeAllPages   (* "page format invalid, all pages will be converted" *)
| ConversionDone (docx_path : string)
| ConversionFailedLine.

Inductive output : Type :=
| LogLine (lvl : level) (msg : log_msg)
| PrintLine (line : printed).

(** A program: a tree of calls to the collaborators.  The continuation
    of a call receives what the call did, a value or an exception. *)
Inductive prog (A : Type) : Type :=
| Ret (a : A)
| Raise (e : exn)
| Call (X : Type) (o : op X) (k : outcome X -> prog A)
| Emit (out : output) (k : prog A).
Arguments Ret {A} a.
Arguments Raise {A} e.
Arguments Call {A X} o k.
Arguments Emit {A} out k.

Definition lift {A} (o : outcome A) : prog A :=
  match o with
  | Returned a => Ret a
  | Raised e => Raise e
  end.

(** One call; its exception, if any, propagates. *)
Definition call {X} (o : op X) : prog X := Call o lift.

Definition log (lvl : level) (msg : log_msg) : prog unit :=
  Emit (LogLine lvl msg) (Ret tt).

Definition print (line : printed) : prog unit :=
  Emit (PrintLine line) (Ret tt).

Fixpoint bind {A B} (p : prog A) (f : A -> prog B) : prog B :=
  match p with
  | Ret a => f a
  | Raise e => Raise e
  | Call o k => Call o (fun r => bind (k r) f)
  | Emit out k => Emit out (bind k f)
  end.

(** [try: p  except Exception as e: h e] *)
Fixpoint try_except {A} (p : prog A) (h : exn -> prog A) : prog A :=
  match p with
  | Ret a => Ret a
  | Raise e => h e
  | Call o k => Call o (fun r => try_except (k r) h)
  | Emit out k => Emit out (try_except k h)
  end.

(** [try: p  finally: fin]; also the exit of a [with] block. *)
Fixpoint try_finally {A} (p : prog A) (fin : prog unit) : prog A :=
  match p with
  | Ret a => bind fin (fun _ => Ret a)
  | Raise e => bind fin (fun _ => Raise e)
  | Call o k => Call o (fun r => try_finally (k r) fin)
  | Emit out k => Emit out (try_finally k fin)
  end.

Declare Scope prog_scope.
Delimit Scope prog_scope with prog.
Notation "x <- m ;; k" := (bind m (fun x => k))
  (at level 61, m at next level, right associativity) : prog_scope.
Notation "m ;; k" := (bind m (fun _ => k))
  (at level 61, right associativity) : prog_scope.
Notation "' pat <- m ;; k" := (bind m (fun x => match x with pat => k end))
  (at level 61, pat pattern, m at next level, right associativity) : prog_scope.

(* ===================================================================== *)
(** ** Running a program *)

(** What a run leaves behind: the calls made with what they did, and the
    lines put out, in order. *)
Inductive event : Type :=
| Called (X : Type) (o : op X) (r : outcome X)
| Put (out : output).
Arguments Called {X} o r.

Definition handler (World : Type) : Type :=
  forall X : Type, op X -> World -> outcome X * World.

Record run_result (World A : Type) : Type := mkRun {
  trace : list event;
  result : outcome A;
  final : World
}.
Arguments mkRun {World A} trace result final.
Arguments trace {World A} r.
Arguments result {World A} r.
Arguments final {World A} r.

Definition after {World A} (ev : event) (r : run_result World A)
  : run_result World A :=
  mkRun (ev :: trace r) (result r) (final r).

Fixpoint run {World A} (h : handler World) (p : prog A) (w : World)
  : run_result World A :=
  match p with
  | Ret a => mkRun [] (Returned a) w
  | Raise e => mkRun [] (Raised e) w
  | Call o k =>
      let (r, w') := h _ o w in
      after (Called o r) (run h (k r) w')
  | Emit out k => after (Put out) (run h k w)
  end.

(** What one call answers in a world, and the world it leaves. *)
Definition answer {World X} (h : handler World) (o : op X) (w : World)
  : outcome X := fst (h X o w).

Definition world_after {World X} (h : handler World) (o : op X) (w : World)
  : World := snd (h X o w).

(* ===================================================================== *)
(** ** The pure functions of the platform

    Path arithmetic and name sanitising belong to the standard library
    and to werkzeug; the code only composes them. *)

Class Platform : Type := {
  os_path_dirname : string -> string;
  os_path_basename : string -> string;
  os_path_join : string -> string -> string;
  (** [os.path.splitext(p)[0]] *)
  os_path_splitext_root : string -> string;
  (** [Path(p).stem] and [Path(p).name] *)
  path_stem : string -> string;
  path_name : string -> string;
  (** [str(Path(a) / b)] *)
  path_join : string -> string -> string;
  secure_filename : string -> string;
  (** [f"{size / (1024 * 1024):.2f} MB"] *)
  format_megabytes : Z -> string
}.

(* ===================================================================== *)
(** ** pdf.py: the conversion adapter *)

Module Pdf.
Section WithPlatform.
Context `{Platform}.
Local Open Scope prog_scope.

Definition convert_single_file (pdf_path docx_path : string)
  (start_page : Z) (end_page : option Z) : prog bool :=
  try_except
    (call ImportConverter ;;
     pdf_exists <- call (OsPathExists pdf_path) ;;
     if negb pdf_exists then
       log ERROR (PdfMissing pdf_path) ;;
       Ret false
     else
       let output_dir := os_path_dirname docx_path in
       missing <- (if PyStr.truthy output_dir
                   then (ex <- call (OsPathExists output_dir) ;; Ret (negb ex))
                   else Ret false) ;;
       (if missing : bool
        then (call (OsMakedirs output_dir) ;;
              log INFO (OutputDirCreated output_dir))
        else Ret tt) ;;
       log INFO (ConversionStarted (os_path_basename pdf_path)) ;;
       cv <- call (Converter pdf_path) ;;
       call (ConverterConvert cv docx_path start_page end_page) ;;
       call (ConverterClose cv) ;;
       docx_exists <- call (OsPathExists docx_path) ;;
       if docx_exists : bool then
         size <- call (OsPathGetsize docx_path) ;;
         log INFO (ConversionSucceeded (os_path_basename docx_path)) ;;
         log INFO (FileSizeReport size) ;;
         log INFO ElapsedReport ;;
         Ret true
       else
         log ERROR OutputNotCreated ;;
         Ret false)
    (fun e =>
       log ERROR (ConversionError e) ;;
       Ret false).

(** The dictionary [get_pdf_info] builds. *)
Record info_dict : Type := mkInfo {
  pages : Z;
  title : pyvalue;
  author : pyvalue;
  subject : pyvalue;
  creator : pyvalue;
  file_size : string
}.

Definition get_pdf_info (pdf_path : string) : prog (option info_dict) :=
  try_except
    (call ImportConverter ;;
     call ImportFitz ;;
     doc <- call (FitzOpen pdf_path) ;;
     n <- call (DocPageCount doc) ;;
     t <- call (DocMetadataGet doc "title" "") ;;
     a <- call (DocMetadataGet doc "author" "") ;;
     s <- call (DocMetadataGet doc "subject" "") ;;
     c <- call (DocMetadataGet doc "creator" "") ;;
     size <- call (OsPathGetsize pdf_path) ;;
     let info := mkInfo n t a s c (format_megabytes size) in
     call (DocClose doc) ;;
     Ret (Some info))
    (fun e =>
       log ERROR (PdfInfoError e) ;;
       Ret None).

(** The body of the loop of [batch_convert], from the [i]-th file on.
    [continue] goes on with the rest, [break] leaves with the count. *)
Fixpoint batch_loop (output_dir : string) (total : nat)
  (pdf_files : list string) (i success_count : nat) : prog nat :=
  match pdf_files with
  | [] => Ret success_count
  | pdf_file :: rest =>
      let docx_file := path_join output_dir (path_stem pdf_file ++ ".docx") in
      log INFO (ProcessingFile i total (path_name pdf_file)) ;;
      docx_exists <- call (OsPathExists docx_file) ;;
      let convert :=
        ok <- convert_single_file pdf_file docx_file 0 None ;;
        let success_count := if ok : bool then S success_count else success_count in
        log INFO (ProgressReport i total success_count) ;;
        batch_loop output_dir total rest (S i) success_count in
      if docx_exists : bool then
        response <- call (Input (AskOverwrite (path_name docx_file))) ;;
        let response := PyStr.lower response in
        if PyStr.mem response ["n"; "no"] then
          log INFO (SkippedFile (path_name pdf_file)) ;;
          batch_loop output_dir total rest (S i) success_count
        else if PyStr.mem response ["s"; "skip"] then
          log INFO SkippingAll ;;
          Ret success_count
        else if PyStr.mem response ["a"; "all"] then
          convert
        else convert
      else convert
  end.

Definition batch_convert (input_dir : string) (output_dir : option string)
  (file_pattern : string) : prog (nat * nat) :=
  input_exists <- call (OsPathExists input_dir) ;;
  if negb input_exists then
    log ERROR (InputDirMissing input_dir) ;;
    Ret (0%nat, 0%nat)
  else
    let output_dir :=
      match output_dir with
      | None => input_dir ++ "_converted"
      | Some d => d
      end in
    call (PathMkdir output_dir) ;;
    pdf_files <- call (PathGlob input_dir file_pattern) ;;
    match pdf_files with
    | [] =>
        log WARNING (NoPdfFound input_dir) ;;
        Ret (0%nat, 0%nat)
    | _ =>
        log INFO (FoundPdfFiles (length pdf_files)) ;;
        log INFO (OutputDirReport output_dir) ;;
        success_count <- batch_loop output_dir (length pdf_files) pdf_files 1 0 ;;
        log INFO BatchFinished ;;
        log INFO (BatchSuccessReport success_count (length pdf_files)) ;;
        log INFO BatchElapsedReport ;;
        Ret (success_count, length pdf_files)
    end.

(** [s.strip(q)] for the double-quote character [q]. *)
Definition strip_quotes (s : string) : string :=
  let q := "034"%char in
  let fix l (s : string) : string :=
    match s with
    | String c r => if Ascii.eqb c q then l r else s
    | EmptyString => EmptyString
    end in
  let fix r (s : string) : string :=
    match s with
    | String c t =>
        match r t with
        | EmptyString => if Ascii.eqb c q then EmptyString else String c EmptyString
        | t' => String c t'
        end
    | EmptyString => EmptyString
    end in
  r (l s).

Definition _interactive_single_convert : prog unit :=
  line <- call (Input AskPdfPath) ;;
  let pdf_path := strip_quotes (PyStr.strip line) in
  pdf_exists <- call (OsPathExists pdf_path) ;;
  if negb pdf_exists then print (FileNotFound pdf_path)
  else
    let default_docx := os_path_splitext_root pdf_path ++ ".docx" in
    line <- call (Input (AskDocxPath default_docx)) ;;
    let docx_path := strip_quotes (PyStr.strip line) in
    let docx_path := if negb (PyStr.truthy docx_path) then default_docx else docx_path in
    line <- call (Input AskPageRange) ;;
    let page_range := PyStr.strip line in
    l <- (if PyStr.truthy page_range then
            match Cli.range_block page_range whole_document with
            | (Returned _, l) => Ret l
            | (Raised e, l) =>
                if is_ValueError e
                then (print InvalidRangeAllPages ;; Ret l)
                else Raise e
            end
          else Ret whole_document) ;;
    success <- convert_single_file pdf_path docx_path (start_page l) (end_page l) ;;
    if success : bool then print (ConversionDone docx_path)
    else print ConversionFailedLine.

End WithPlatform.
End Pdf.

(* ===================================================================== *)
(** ** app.py: the HTTP front-end *)

Module Http.
Section WithPlatform.
Context `{Platform}.
Local Open Scope prog_scope.

(** What a handler reads from the request: the upload in field [pdf], the
    uploads in field [pdfs], and the form field [range]. *)
Record request : Type := mkRequest {
  files_pdf : option FileStorage;
  files_pdfs : list FileStorage;
  form_range : option string
}.

(** The messages of the structured failures. *)
Inductive failure : Type :=
| UploadMissing        (* "please upload a PDF file (pdf)" *)
| InfoUnavailable      (* "getting the PDF information failed" *)
| ConversionFailed     (* "conversion failed" *)
| UploadsMissing       (* "please upload at least one PDF file (pdfs)" *)
| NothingConverted.    (* "no file was converted" *)

Inductive json : Type :=
| Failure (msg : failure)          (* {"ok": False, "msg": msg} *)
| Data (data : Pdf.info_dict).      (* {"ok": True, "data": data} *)

Inductive attachment : Type :=
| FromPath (path : string)
| FromBuffer (buffer : handle).

Inductive response : Type :=
| Jsonify (status : Z) (body : json)
| SendFile (src : attachment) (download_name mimetype : string).

(** [request.form.get('range', '')] *)
Definition form_get_range (r : request) : string :=
  match form_range r with
  | Some s => s
  | None => ""
  end.

(** Truth value of [request.files.get('pdf')]. *)
Definition upload_truthy (f : option FileStorage) : bool :=
  match f with
  | Some f => PyStr.truthy (filename f)
  | None => false
  end.

Definition docx_mimetype : string :=
  "application/vnd.openxmlformats-officedocument.wordprocessingml.document".

Definition pdf_info (r : request) : prog response :=
  match files_pdf r with
  | Some file =>
      if negb (PyStr.truthy (filename file))
      then Ret (Jsonify 400 (Failure UploadMissing))
      else
        tmp_pdf_path <-
          (tmp <- call (NamedTemporaryFile ".pdf") ;;
           try_finally
             (call (FileSave file tmp) ;; Ret tmp)
             (call (CloseTemporaryFile tmp))) ;;
        try_finally
          (info <- Pdf.get_pdf_info tmp_pdf_path ;;
           match info with
           | None => Ret (Jsonify 500 (Failure InfoUnavailable))
           | Some i => Ret (Jsonify 200 (Data i))
           end)
          (try_except (call (OsRemove tmp_pdf_path)) (fun _ => Ret tt))
  | None => Ret (Jsonify 400 (Failure UploadMissing))
  end.

(** [with tempfile.TemporaryDirectory() as td: body td] *)
Definition with_TemporaryDirectory {A} (body : string -> prog A) : prog A :=
  td <- call TemporaryDirectory ;;
  try_finally (body td) (call (CleanupTemporaryDirectory td)).

(** [secure_filename(name) or 'input.pdf'] *)
Definition safe_or_default (name : string) : string :=
  let safe_name := secure_filename name in
  if PyStr.truthy safe_name then safe_name else "input.pdf".

Definition convert_single (r : request) : prog response :=
  let page_range := form_get_range r in
  match files_pdf r with
  | Some file =>
      if negb (PyStr.truthy (filename file))
      then Ret (Jsonify 400 (Failure UploadMissing))
      else
        '(start_page, end_page) <- lift (App.parse_page_range page_range) ;;
        with_TemporaryDirectory (fun td =>
          let pdf_path := os_path_join td (safe_or_default (filename file)) in
          call (FileSave file pdf_path) ;;
          let base_name := os_path_splitext_root (os_path_basename pdf_path) in
          let docx_path := os_path_join td (base_name ++ ".docx") in
          ok <- Pdf.convert_single_file pdf_path docx_path start_page end_page ;;
          absent <- (if negb ok then Ret true
                     else (ex <- call (OsPathExists docx_path) ;; Ret (negb ex))) ;;
          if absent : bool then Ret (Jsonify 500 (Failure ConversionFailed))
          else
            call (SendPath docx_path (base_name ++ ".docx") docx_mimetype) ;;
            Ret (SendFile (FromPath docx_path) (base_name ++ ".docx") docx_mimetype))
  | None => Ret (Jsonify 400 (Failure UploadMissing))
  end.

(** Whether the loop of [convert_batch] passes an upload over. *)
Definition skipped (f : FileStorage) : bool :=
  negb (PyStr.truthy (filename f))
  || negb (PyStr.endswith (PyStr.lower (filename f)) ".pdf").

(** The loop of [convert_batch] over the uploads. *)
Fixpoint convert_uploads (td out_dir : string) (start_page : Z)
  (end_page : option Z) (files : list FileStorage) (success : nat) : prog nat :=
  match files with
  | [] => Ret success
  | f :: rest =>
      if skipped f then convert_uploads td out_dir start_page end_page rest success
      else
        let pdf_path := os_path_join td (safe_or_default (filename f)) in
        call (FileSave f pdf_path) ;;
        let base := os_path_splitext_root (os_path_basename pdf_path) in
        let docx_path := os_path_join out_dir (base ++ ".docx") in
        ok <- Pdf.convert_single_file pdf_path docx_path start_page end_page ;;
        convert_uploads td out_dir start_page end_page rest
          (if ok : bool then S success else success)
  end.

(** The loop that fills the archive. *)
Fixpoint zip_names (zf : handle) (out_dir : string) (names : list string)
  : prog unit :=
  match names with
  | [] => Ret tt
  | name :: rest =>
      let full_path := os_path_join out_dir name in
      is_file <- call (OsPathIsfile full_path) ;;
      (if is_file : bool then call (ZipWrite zf full_path name) else Ret tt) ;;
      zip_names zf out_dir rest
  end.

(** What [convert_batch] does once the uploads are converted. *)
Definition respond_batch (out_dir : string) (success : nat) : prog response :=
  if (success =? 0)%nat then Ret (Jsonify 500 (Failure NothingConverted))
  else
    zip_buffer <- call BytesIO ;;
    (zf <- call (ZipFileOpen zip_buffer) ;;
     try_finally
       (names <- call (OsListdir out_dir) ;;
        zip_names zf out_dir names)
       (call (ZipFileClose zf))) ;;
    call (BufferSeek zip_buffer 0) ;;
    call (SendBuffer zip_buffer "converted_docx.zip" "application/zip") ;;
    Ret (SendFile (FromBuffer zip_buffer) "converted_docx.zip" "application/zip").

Definition convert_batch (r : request) : prog response :=
  let files := files_pdfs r in
  let page_range := form_get_range r in
  match files with
  | [] => Ret (Jsonify 400 (Failure UploadsMissing))
  | _ =>
      '(start_page, end_page) <- lift (App.parse_page_range page_range) ;;
      with_TemporaryDirectory (fun td =>
        let out_dir := os_path_join td "out" in
        call (OsMakedirs out_dir) ;;
        success <- convert_uploads td out_dir start_page end_page files 0 ;;
        respond_batch out_dir success)
  end.

End WithPlatform.
End Http.

(* ===================================================================== *)
(** ** Notions the statements about the adapter use *)

Section Pieces.
Context `{Platform}.
Local Open Scope prog_scope.

(** The steps of [convert_single_file] before the library is called:
    [true] when the source exists and the directory of the destination is
    there or was created. *)
Definition prepare (pdf_path docx_path : string) : prog bool :=
  call ImportConverter ;;
  pdf_exists <- call (OsPathExists pdf_path) ;;
  if negb pdf_exists then
    log ERROR (PdfMissing pdf_path) ;;
    Ret false
  else
    let output_dir := os_path_dirname docx_path in
    missing <- (if PyStr.truthy output_dir
                then (ex <- call (OsPathExists output_dir) ;; Ret (negb ex))
                else Ret false) ;;
    (if missing : bool
     then (call (OsMakedirs output_dir) ;;
           log INFO (OutputDirCreated output_dir))
     else Ret tt) ;;
    log INFO (ConversionStarted (os_path_basename pdf_path)) ;;
    Ret true.

(** The three calls to the library. *)
Definition library_call (pdf_path docx_path : string)
  (start_page : Z) (end_page : option Z) : prog unit :=
  cv <- call (Converter pdf_path) ;;
  call (ConverterConvert cv docx_path start_page end_page) ;;
  call (ConverterClose cv).

(** The check of the output after the library has returned. *)
Definition check_output (docx_path : string) : prog bool :=
  docx_exists <- call (OsPathExists docx_path) ;;
  if docx_exists : bool then
    size <- call (OsPathGetsize docx_path) ;;
    log INFO (ConversionSucceeded (os_path_basename docx_path)) ;;
    log INFO (FileSizeReport size) ;;
    log INFO ElapsedReport ;;
    Ret true
  else
    log ERROR OutputNotCreated ;;
    Ret false.

End Pieces.

(** The upload of [pdf_info] written to a temporary file: the [with]
    block of the handler, which gives the name of the file. *)
Definition materialize (file : FileStorage) : prog string :=
  (tmp <- call (NamedTemporaryFile ".pdf") ;;
   try_finally
     (call (FileSave file tmp) ;; Ret tmp)
     (call (CloseTemporaryFile tmp)))%prog.

(** Calls to the conversion library. *)
Definition invokes_converter (ev : event) : bool :=
  match ev with
  | Called (Converter _) _ => true
  | Called (ConverterConvert _ _ _ _) _ => true
  | Called (ConverterClose _) _ => true
  | _ => false
  end.

(** Calls that create a directory. *)
Definition makes_directory (ev : event) : bool :=
  match ev with
  | Called (OsMakedirs _) _ => true
  | Called (PathMkdir _) _ => true
  | _ => false
  end.

(** Calls that build or send an archive. *)
Definition builds_archive (ev : event) : bool :=
  match ev with
  | Called BytesIO _ => true
  | Called (ZipFileOpen _) _ => true
  | Called (ZipWrite _ _ _) _ => true
  | Called (ZipFileClose _) _ => true
  | Called (SendBuffer _ _ _) _ => true
  | _ => false
  end.


(** The calls that fill and send an archive. *)
Definition archive_step (ev : event) : bool :=
  match ev with
  | Called (OsListdir _) _ => true
  | Called (OsPathIsfile _) _ => true
  | Called (BufferSeek _ _) _ => true
  | _ => builds_archive ev
  end.

(** The upload a call saves, if it is a call to [save]. *)
Definition saved_upload (ev : event) : option FileStorage :=
  match ev with
  | Called (FileSave f _) _ => Some f
  | _ => None
  end.

(** The prompts for an overwrite decision, and the sources handed to the
    library, in the order of a trace. *)
Definition overwrite_prompt (ev : event) : option string :=
  match ev with
  | Called (Input (AskOverwrite name)) _ => Some name
  | _ => None
  end.

Definition opened_source (ev : event) : option string :=
  match ev with
  | Called (Converter pdf_path) _ => Some pdf_path
  | _ => None
  end.

(** The log line of a conversion that succeeded. *)
Definition succeeded (ev : event) : bool :=
  match ev with
  | Put (LogLine INFO (ConversionSucceeded _)) => true
  | _ => false
  end.

Definition count {A} (f : A -> bool) (l : list A) : nat :=
  length (filter f l).

Definition printed_line (ev : event) : option printed :=
  match ev with
  | Put (PrintLine line) => Some line
  | _ => None
  end.

Fixpoint pick {A B} (f : A -> option B) (l : list A) : list B :=
  match l with
  | [] => []
  | x :: r => match f x with
              | Some y => y :: pick f r
              | None => pick f r
              end
  end.

(** The pages handed to the library in a trace. *)
Definition converted_pages (ev : event) : option (Z * option Z) :=
  match ev with
  | Called (ConverterConvert _ _ s e) _ => Some (s, e)
  | _ => None
  end.

(* ===================================================================== *)
(** ** A small closed world, to evaluate the programs on *)

Module Toy.

(** Cut a string at the last occurrence of [ch]. *)
Fixpoint rcut (ch : ascii) (s : string) : option (string * string) :=
  match s with
  | EmptyString => None
  | String c r =>
      match rcut ch r with
      | Some (a, b) => Some (String c a, b)
      | None => if Ascii.eqb c ch then Some (EmptyString, r) else None
      end
  end.

Definition dirname (p : string) : string :=
  match rcut "/" p with Some (a, _) => a | None => "" end.

Definition basename (p : string) : string :=
  match rcut "/" p with Some (_, b) => b | None => p end.

Definition join (a b : string) : string := a ++ "/" ++ b.

Definition splitext_root (p : string) : string :=
  match rcut "." p with Some (a, _) => a | None => p end.

#[global] Instance posix : Platform := {|
  os_path_dirname := dirname;
  os_path_basename := basename;
  os_path_join := join;
  os_path_splitext_root := splitext_root;
  path_stem := fun p => splitext_root (basename p);
  path_name := basename;
  path_join := join;
  secure_filename := fun name => name;
  format_megabytes := fun _ => "0.00 MB"
|}.

(** The paths that exist, the lines the operator will type, what a
    directory listing answers, and whether the library writes its output. *)
Record world : Type := mkWorld {
  paths : list string;
  stdin : list string;
  listing : list string;
  library_writes : bool
}.

Definition present (p : string) (w : world) : bool := PyStr.mem p (paths w).

Definition add (p : string) (w : world) : world :=
  mkWorld (p :: paths w) (stdin w) (listing w) (library_writes w).

Definition del (p : string) (w : world) : world :=
  mkWorld (filter (fun q => negb (String.eqb q p)) (paths w))
          (stdin w) (listing w) (library_writes w).

Definition handle_op : handler world :=
  fun X (o : op X) (w : world) =>
    match o in op X return outcome X * world with
    | OsPathExists p => (Returned (present p w), w)
    | OsPathIsfile p => (Returned (present p w), w)
    | OsPathGetsize p =>
        (if present p w then Returned 2048 else Raised (OSError "no such file"), w)
    | OsMakedirs p => (Returned tt, add p w)
    | OsRemove p =>
        if present p w then (Returned tt, del p w)
        else (Raised (OSError "no such file"), w)
    | OsListdir p => (Returned (listing w), w)
    | PathMkdir p => (Returned tt, add p w)
    | PathGlob dir pattern => (Returned (listing w), w)
    | NamedTemporaryFile suffix =>
        (Returned ("/tmp/upload" ++ suffix), add ("/tmp/upload" ++ suffix) w)
    | CloseTemporaryFile name => (Returned tt, w)
    | TemporaryDirectory => (Returned "/tmp/td", add "/tmp/td" w)
    | CleanupTemporaryDirectory td => (Returned tt, del td w)
    | FileSave f dst => (Returned tt, add dst w)
    | SendPath _ _ _ => (Returned tt, w)
    | SendBuffer _ _ _ => (Returned tt, w)
    | BytesIO => (Returned 0%nat, w)
    | ZipFileOpen _ => (Returned 1%nat, w)
    | ZipWrite _ _ _ => (Returned tt, w)
    | ZipFileClose _ => (Returned tt, w)
    | BufferSeek _ _ => (Returned tt, w)
    | ImportConverter => (Returned tt, w)
    | Converter pdf_path =>
        (if present pdf_path w then Returned 7%nat
         else Raised (OtherError "FileNotFoundError" "no such file"), w)
    | ConverterConvert cv docx_path s e =>
        if library_writes w then (Returned tt, add docx_path w)
        else (Raised (OtherError "ConversionException" "conversion failed"), w)
    | ConverterClose cv => (Returned tt, w)
    | ImportFitz => (Returned tt, w)
    | FitzOpen pdf_path =>
        (if library_writes w then Returned 9%nat
         else Raised (OtherError "FileDataError" "cannot open"), w)
    | DocPageCount doc => (Returned 3, w)
    | DocMetadataGet doc key default => (Returned (PyStr default), w)
    | DocClose doc => (Returned tt, w)
    | Input p =>
        match stdin w with
        | line :: rest =>
            (Returned line, mkWorld (paths w) rest (listing w) (library_writes w))
        | [] => (Raised EOFError, w)
        end
    end.

End Toy.

(* ===================================================================== *)
(** ** Composing runs *)

(** A run followed by another that starts where the first returned. *)
Definition and_then {World A B} (r : run_result World A)
  (f : A -> World -> run_result World B) : run_result World B :=
  match result r with
  | Returned a =>
      let r' := f a (final r) in
      mkRun (trace r ++ trace r') (result r') (final r')
  | Raised e => mkRun (trace r) (Raised e) (final r)
  end.

(** A run followed by a handler that starts where the first raised. *)
Definition or_else {World A} (r : run_result World A)
  (g : exn -> World -> run_result World A) : run_result World A :=
  match result r with
  | Returned a => r
  | Raised e =>
      let r' := g e (final r) in
      mkRun (trace r ++ trace r') (result r') (final r')
  end.

(** A run followed by a finalizer: the finalizer's exception wins. *)
Definition and_finally {World A} (r : run_result World A)
  (rf : run_result World unit) : run_result World A :=
  mkRun (trace r ++ trace rf)
        (match result rf with
         | Returned _ => result r
         | Raised e => Raised e
         end)
        (final rf).

(* ===================================================================== *)
(** ** Contracts of the operating system

    Two statements rely on what the operating system promises. *)

(** The size of a path that exists can be read. *)
Definition getsize_contract {World} (h : handler World) : Prop :=
  forall (p : string) (w : World),
    answer h (OsPathExists p) w = Returned true ->
    exists n, answer h (OsPathGetsize p) (world_after h (OsPathExists p) w)
              = Returned n.

(** Once [os.remove(p)] has been called, no file is left at [p]. *)
Definition remove_contract {World} (h : handler World) : Prop :=
  forall (p : string) (w : World),
    answer h (OsPathExists p) (world_after h (OsRemove p) w) = Returned false.

(* ===================================================================== *)
(** ** Further notions, for the statements beyond the claims *)

(** One list inside another, in order. *)
Inductive subseq {A : Type} : list A -> list A -> Prop :=
| subseq_nil : subseq [] []
| subseq_skip (x : A) (l1 l2 : list A) : subseq l1 l2 -> subseq l1 (x :: l2)
| subseq_take (x : A) (l1 l2 : list A) : subseq l1 l2 -> subseq (x :: l1) (x :: l2).

(** What a trace shows, call by call. *)
Definition asks (ev : event) : bool :=
  match ev with
  | Called (Input _) _ => true
  | _ => false
  end.

Definition made_dir (ev : event) : option string :=
  match ev with
  | Called (OsMakedirs p) _ => Some p
  | Called (PathMkdir p) _ => Some p
  | _ => None
  end.

(** The existence check of [d] answered [False]. *)
Definition found_missing (d : string) (ev : event) : bool :=
  match ev with
  | Called (OsPathExists p) (Returned false) => String.eqb p d
  | _ => false
  end.

Definition convert_raised (ev : event) : bool :=
  match ev with
  | Called (ConverterConvert _ _ _ _) (Raised _) => true
  | _ => false
  end.

Definition open_raised (ev : event) : bool :=
  match ev with
  | Called (Converter _) (Raised _) => true
  | _ => false
  end.

Definition converter_closed (ev : event) : bool :=
  match ev with
  | Called (ConverterClose _) _ => true
  | _ => false
  end.

Definition converter_converts (ev : event) : bool :=
  match ev with
  | Called (ConverterConvert _ _ _ _) _ => true
  | _ => false
  end.

(** The destination handed to the library. *)
Definition converted_target (ev : event) : option string :=
  match ev with
  | Called (ConverterConvert _ docx_path _ _) _ => Some docx_path
  | _ => None
  end.

Definition error_logged (ev : event) : bool :=
  match ev with
  | Put (LogLine ERROR _) => true
  | _ => false
  end.

Definition doc_opened (ev : event) : bool :=
  match ev with
  | Called (FitzOpen _) (Returned _) => true
  | _ => false
  end.

(** [doc.close()] was called and returned. *)
Definition doc_closed (ev : event) : bool :=
  match ev with
  | Called (DocClose _) (Returned _) => true
  | _ => false
  end.

Definition globbed (ev : event) : option (list string) :=
  match ev with
  | Called (PathGlob _ _) (Returned l) => Some l
  | _ => None
  end.

Definition removes (ev : event) : bool :=
  match ev with
  | Called (OsRemove _) _ => true
  | _ => false
  end.

Definition closed_temporary (ev : event) : option string :=
  match ev with
  | Called (CloseTemporaryFile name) _ => Some name
  | _ => None
  end.

(** The path and the archive name of a file written to the archive. *)
Definition zip_written (ev : event) : option (string * string) :=
  match ev with
  | Called (ZipWrite _ path arcname) _ => Some (path, arcname)
  | _ => None
  end.

(** The lines typed at the prompts of the interactive conversion. *)
Definition typed_range (ev : event) : option string :=
  match ev with
  | Called (Input AskPageRange) (Returned line) => Some line
  | _ => None
  end.

Definition typed_docx (ev : event) : option (string * string) :=
  match ev with
  | Called (Input (AskDocxPath default)) (Returned line) => Some (default, line)
  | _ => None
  end.

Definition typed_pdf (ev : event) : option string :=
  match ev with
  | Called (Input AskPdfPath) (Returned line) => Some line
  | _ => None
  end.

(** The output [batch_convert] derives for a source. *)
Definition batch_output `{Platform} (output_dir pdf_file : string) : string :=
  path_join output_dir (path_stem pdf_file ++ ".docx").

(** What the loop of [batch_convert] does with the file at hand once it
    converts it: the conversion, the line of progress, the rest. *)
Definition converts_then {World} (h : handler World) `{Platform}
  (output_dir : string) (total : nat)
  (pdf_file : string) (rest : list string) (i n : nat) (w : World)
  : run_result World nat :=
  and_then
    (run h (Pdf.convert_single_file pdf_file (batch_output output_dir pdf_file)
              0 None) w)
    (fun ok w' =>
       let n' := if ok : bool then S n else n in
       after (Put (LogLine INFO (ProgressReport i total n')))
         (run h (Pdf.batch_loop output_dir total rest (S i) n') w')).

(** The existence check of one of [paths] answered [True]. *)
Definition found_existing (paths : list string) (ev : event) : bool :=
  match ev with
  | Called (OsPathExists p) (Returned true) => PyStr.mem p paths
  | _ => false
  end.

(** Every prompt for an overwrite decision directly follows an existence
    check that answered [True], of a path with the name the prompt shows;
    [prev] is the event before the trace. *)
Fixpoint prompts_checked `{Platform} (prev : option event) (tr : list event)
  : bool :=
  match tr with
  | [] => true
  | ev :: rest =>
      match overwrite_prompt ev with
      | Some name =>
          match prev with
          | Some (Called (OsPathExists p) (Returned true)) =>
              String.eqb (path_name p) name
          | _ => false
          end
      | None => true
      end && prompts_checked (Some ev) rest
  end.

(** The output directory [batch_convert] works in. *)
Definition batch_output_dir (input_dir : string) (output_dir : option string)
  : string :=
  match output_dir with
  | None => input_dir ++ "_converted"
  | Some d => d
  end.

Definition warned_invalid_range (ev : event) : bool :=
  match ev with
  | Put (PrintLine InvalidRangeAllPages) => true
  | _ => false
  end.

(** Calls that send a file to the client. *)
Definition sends (ev : event) : bool :=
  match ev with
  | Called (SendPath _ _ _) _ => true
  | Called (SendBuffer _ _ _) _ => true
  | _ => false
  end.

(** The closed world with a disk that refuses uploads: saving raises. *)
Definition save_fails : handler Toy.world :=
  fun X (o : op X) (w : Toy.world) =>
    match o in op X return outcome X * Toy.world with
    | FileSave _ _ => (Raised (OSError "no space left on device"), w)
    | o' => Toy.handle_op _ o' w
    end.

(* ===================================================================== *)
(** * Properties of the string layer *)

Example int_examples :
  PyInt.int " 42 " = Returned 42 /\ PyInt.int "-7" = Returned (-7) /\
  PyInt.int "1_000" = Returned 1000 /\ PyInt.int "007" = Returned 7 /\
  PyInt.int "+5" = Returned 5 /\
  (exists e, PyInt.int "" = Raised e) /\ (exists e, PyInt.int "1__0" = Raised e) /\
  (exists e, PyInt.int "_1" = Raised e) /\ (exists e, PyInt.int "1_" = Raised e) /\
  (exists e, PyInt.int "- 3" = Raised e) /\ (exists e, PyInt.int "x" = Raised e) /\
  PyInt.str 1205 = "1205" /\ PyInt.str (-30) = "-30" /\ PyInt.str 0 = "0".
Proof. repeat split; try reflexivity; eexists; reflexivity. Qed.

Example str_examples :
  PyStr.strip "  1-5 " = "1-5" /\ PyStr.split "-" "1-2-3" = ["1"; "2"; "3"] /\
  PyStr.split1 "-" "1-2-3" = ["1"; "2-3"] /\ PyStr.split1 "-" "-3" = [""; "3"] /\
  PyStr.lower "A.PdF" = "a.pdf" /\ PyStr.endswith "a.pdf" ".pdf" = true /\
  PyStr.endswith "pdf" ".pdf" = false /\ PyStr.split "-" "5-" = ["5"; ""].
Proof. repeat split; reflexivity. Qed.

Example parse_examples :
  App.parse_page_range "1-5" = Returned (0, Some 5) /\
  App.parse_page_range "3" = Returned (2, Some 3) /\
  App.parse_page_range "5-2" = Returned (4, Some 2) /\
  App.parse_page_range "5-x" = Returned (0, None) /\
  App.parse_page_range "1--5" = Returned (0, Some (-5)) /\
  App.parse_page_range "0" = Returned (0, Some 1) /\
  Cli.interactive_page_range "1-5" = Returned (0, Some 5) /\
  Cli.interactive_page_range "5-x" = Returned (4, None) /\
  Cli.interactive_page_range "5-" = Returned (4, None) /\
  Cli.interactive_page_range "1--5" = Returned (0, None) /\
  Cli.interactive_page_range "0" = Returned (-1, Some 0) /\
  Cli.interactive_page_range "-3" = Returned (0, None).
Proof. repeat split; reflexivity. Qed.

Section Strings.

Lemma append_empty_r (s : string) : s ++ "" = s.
Proof. induction s as [|c s IH]; simpl; [reflexivity | now rewrite IH]. Qed.

Lemma append_assoc' (s t u : string) : (s ++ t) ++ u = s ++ (t ++ u).
Proof. induction s as [|c s IH]; simpl; [reflexivity | now rewrite IH]. Qed.

(** A digit is none of the characters the parsers treat specially. *)
Lemma digit_code (c : ascii) :
  PyInt.is_digit c = true -> (48 <= PyStr.code c <= 57)%N.
Proof.
  unfold PyInt.is_digit; intros H.
  apply andb_true_iff in H as [H1 H2].
  apply N.leb_le in H1, H2; lia.
Qed.

Lemma digit_not_space (c : ascii) :
  PyInt.is_digit c = true -> PyStr.isspace c = false /\ PyInt.int_space c = false.
Proof.
  intros H; apply digit_code in H.
  unfold PyStr.isspace, PyInt.int_space.
  repeat match goal with
         | |- context [(?a <=? ?b)%N] => destruct (N.leb_spec a b)
         | |- context [(?a =? ?b)%N] => destruct (N.eqb_spec a b)
         end; simpl; try (split; reflexivity); lia.
Qed.

Lemma digit_not_char (c ch : ascii) :
  PyInt.is_digit c = true -> PyInt.is_digit ch = false -> Ascii.eqb c ch = false.
Proof.
  intros Hc Hch; destruct (Ascii.eqb_spec c ch) as [->|]; [congruence | reflexivity].
Qed.

Lemma lstrip_digits (s : string) :
  all_digits s = true -> PyStr.lstrip s = s.
Proof.
  destruct s as [|c s]; simpl; [reflexivity|].
  intros H; apply andb_true_iff in H as [Hc _].
  now destruct (digit_not_space c Hc) as [-> _].
Qed.

Lemma rstrip_digits (s : string) :
  all_digits s = true -> PyStr.rstrip s = s.
Proof.
  induction s as [|c s IH]; simpl; [reflexivity|].
  intros H; apply andb_true_iff in H as [Hc Hs].
  rewrite (IH Hs). destruct (digit_not_space c Hc) as [-> _].
  now destruct s.
Qed.

(** Stripping on the right looks at the end of the string only. *)
Lemma rstrip_append (s t : string) :
  t <> "" -> PyStr.rstrip t = t -> PyStr.rstrip (s ++ t) = s ++ t.
Proof.
  intros Ht Hr; induction s as [|c s IH]; simpl; [exact Hr|].
  rewrite IH. destruct (s ++ t) eqn:E; [|reflexivity].
  destruct s; simpl in E; [congruence | discriminate].
Qed.

Lemma contains_append (ch : ascii) (s t : string) :
  PyStr.contains ch (s ++ t) = PyStr.contains ch s || PyStr.contains ch t.
Proof.
  induction s as [|c s IH]; simpl; [reflexivity|].
  now destruct (Ascii.eqb c ch).
Qed.

Lemma contains_digits (ch : ascii) (s : string) :
  PyInt.is_digit ch = false -> all_digits s = true -> PyStr.contains ch s = false.
Proof.
  intros Hch; induction s as [|c s IH]; simpl; [reflexivity|].
  intros H; apply andb_true_iff in H as [Hc Hs].
  now rewrite (digit_not_char c ch Hc Hch), IH.
Qed.

(** [split1] cuts at the first occurrence. *)
Lemma split1_at (ch : ascii) (s t : string) :
  PyStr.contains ch s = false ->
  PyStr.split1 ch (s ++ String ch t) = [s; t].
Proof.
  induction s as [|c s IH]; simpl.
  - now rewrite Ascii.eqb_refl.
  - destruct (Ascii.eqb c ch); [discriminate|].
    intros H; now rewrite (IH H).
Qed.

Lemma split_absent (ch : ascii) (s : string) :
  PyStr.contains ch s = false -> PyStr.split ch s = [s].
Proof.
  induction s as [|c s IH]; simpl; [reflexivity|].
  destruct (Ascii.eqb c ch); [discriminate|].
  intros H; now rewrite (IH H).
Qed.

Lemma split_at (ch : ascii) (s t : string) :
  PyStr.contains ch s = false ->
  PyStr.split ch (s ++ String ch t) = s :: PyStr.split ch t.
Proof.
  induction s as [|c s IH]; simpl.
  - now rewrite Ascii.eqb_refl.
  - destruct (Ascii.eqb c ch); [discriminate|].
    intros H; now rewrite (IH H).
Qed.

Lemma split_nonempty (ch : ascii) (s : string) : PyStr.split ch s <> [].
Proof.
  destruct s as [|c s]; simpl; [discriminate|].
  destruct (Ascii.eqb c ch); [discriminate|].
  destruct (PyStr.split ch s); discriminate.
Qed.

(** A string that holds [ch] decomposes at its first occurrence. *)
Lemma contains_decompose (ch : ascii) (s : string) :
  PyStr.contains ch s = true ->
  exists a b, s = a ++ String ch b /\ PyStr.contains ch a = false.
Proof.
  induction s as [|c s IH]; simpl; [discriminate|].
  destruct (Ascii.eqb_spec c ch) as [->|Hne].
  - intros _; exists "", s; split; reflexivity.
  - intros H; destruct (IH H) as (a & b & -> & Ha).
    exists (String c a), b; split; [reflexivity|].
    simpl. destruct (Ascii.eqb_spec c ch); [contradiction | exact Ha].
Qed.

End Strings.


Section Numerals.

Lemma digit_char_spec (d : Z) :
  0 <= d < 10 ->
  PyInt.is_digit (PyInt.digit_char d) = true /\
  PyInt.digit_value (PyInt.digit_char d) = d.
Proof.
  intros H.
  assert (d = 0 \/ d = 1 \/ d = 2 \/ d = 3 \/ d = 4 \/ d = 5 \/ d = 6 \/
          d = 7 \/ d = 8 \/ d = 9) as Hd by lia.
  repeat (destruct Hd as [-> | Hd]; [split; reflexivity|]).
  subst d; split; reflexivity.
Qed.

Lemma scan_digits (s : string) (acc : Z) :
  all_digits s = true -> PyInt.scan s false acc = Some (value acc s, "").
Proof.
  revert acc; induction s as [|c s IH]; intros acc; simpl; [reflexivity|].
  intros H; apply andb_true_iff in H as [Hc Hs].
  rewrite Hc. now apply IH.
Qed.

(** Every character of a string of digits counts towards the limit. *)
Lemma count_digits_all (s : string) :
  all_digits s = true -> PyInt.count_digits s = Z.of_nat (String.length s).
Proof.
  induction s as [|c s IH]; [reflexivity|].
  cbn [all_digits PyInt.count_digits String.length].
  intros H; apply andb_true_iff in H as [-> Hs].
  rewrite (IH Hs). lia.
Qed.

Lemma value_append (a : Z) (s t : string) :
  value a (s ++ t) = value (value a s) t.
Proof.
  revert a; induction s as [|c s IH]; intros a; simpl; [reflexivity | apply IH].
Qed.

Lemma length_append (s t : string) :
  String.length (s ++ t) = (String.length s + String.length t)%nat.
Proof. induction s as [|c s IH]; cbn; [reflexivity | now rewrite IH]. Qed.

Lemma digits_append (f : nat) (n : Z) (acc : string) :
  PyInt.digits f n acc = PyInt.digits f n "" ++ acc.
Proof.
  revert n acc; induction f as [|f IH]; intros n acc; simpl; [reflexivity|].
  destruct (n / 10 =? 0); [reflexivity|].
  rewrite (IH _ (String _ acc)), (IH _ (String _ "")).
  now rewrite append_assoc'.
Qed.

Lemma digits_all (f : nat) (n : Z) (acc : string) :
  all_digits acc = true -> all_digits (PyInt.digits f n acc) = true.
Proof.
  revert n acc; induction f as [|f IH]; intros n acc Hacc; simpl; [exact Hacc|].
  assert (all_digits (String (PyInt.digit_char (n mod 10)) acc) = true) as H.
  { simpl. destruct (digit_char_spec (n mod 10)) as [-> _]; [|exact Hacc].
    apply Z.mod_pos_bound; lia. }
  destruct (n / 10 =? 0); [exact H | now apply IH].
Qed.

Lemma digits_nonempty (f : nat) (n : Z) (acc : string) :
  PyInt.digits (S f) n acc <> "".
Proof.
  rewrite digits_append. simpl.
  destruct (n / 10 =? 0); simpl; [discriminate|].
  rewrite digits_append. destruct (PyInt.digits f (n / 10) ""); discriminate.
Qed.

Lemma digits_value (f : nat) (n : Z) :
  0 <= n < 2 ^ Z.of_nat f -> value 0 (PyInt.digits f n "") = n.
Proof.
  revert n; induction f as [|f IH]; intros n Hn.
  - simpl in *. lia.
  - cbn [PyInt.digits].
    pose proof (Z.mod_pos_bound n 10 ltac:(lia)) as Hm.
    pose proof (Z.div_mod n 10 ltac:(lia)) as Hdm.
    destruct (digit_char_spec (n mod 10) Hm) as [_ Hv].
    destruct (Z.eqb_spec (n / 10) 0) as [Hz|Hz].
    + cbn [value]. rewrite Hv. lia.
    + rewrite digits_append, value_append. cbn [value]. rewrite Hv.
      rewrite IH; [lia|].
      rewrite Nat2Z.inj_succ, Z.pow_succ_r in Hn by lia.
      split; [apply Z.div_pos; lia|].
      apply Z.div_lt_upper_bound; lia.
Qed.

(** A number below [10 ^ (k + 1)] is written with [k + 1] digits at
    most. *)
Lemma digits_length_le (f k : nat) (n : Z) (acc : string) :
  0 <= n < 10 ^ Z.of_nat (S k) ->
  (String.length (PyInt.digits f n acc) <= S k + String.length acc)%nat.
Proof.
  revert k n acc; induction f as [|f IH]; intros k n acc Hn;
    cbn [PyInt.digits]; [lia|].
  destruct (Z.eqb_spec (n / 10) 0) as [Hz|Hz]; [cbn [String.length]; lia|].
  rewrite Nat2Z.inj_succ, Z.pow_succ_r in Hn by lia.
  destruct k as [|k].
  - exfalso. apply Hz. apply Z.div_small. cbn in Hn. lia.
  - specialize (IH k (n / 10) (String (PyInt.digit_char (n mod 10)) acc)).
    cbn [String.length] in IH.
    assert (0 <= n / 10 < 10 ^ Z.of_nat (S k)) as Hq.
    { split; [apply Z.div_pos; lia|]. apply Z.div_lt_upper_bound; lia. }
    specialize (IH Hq). lia.
Qed.

(** A number from [10 ^ k] on is written with more than [k] digits. *)
Lemma digits_length_gt (f k : nat) (n : Z) (acc : string) :
  10 ^ Z.of_nat k <= n < 2 ^ Z.of_nat f ->
  (k + String.length acc < String.length (PyInt.digits f n acc))%nat.
Proof.
  revert k n acc; induction f as [|f IH]; intros k n acc Hn.
  - pose proof (Z.pow_pos_nonneg 10 (Z.of_nat k) ltac:(lia) ltac:(lia)).
    cbn in Hn. lia.
  - cbn [PyInt.digits].
    pose proof (Z.pow_pos_nonneg 10 (Z.of_nat k) ltac:(lia) ltac:(lia)) as Hk.
    rewrite (Nat2Z.inj_succ f), Z.pow_succ_r in Hn by lia.
    pose proof (Z.div_mod n 10 ltac:(lia)) as Hdm.
    pose proof (Z.mod_pos_bound n 10 ltac:(lia)) as Hm.
    destruct (Z.eqb_spec (n / 10) 0) as [Hz|Hz].
    + destruct k as [|k]; [cbn [String.length]; lia|].
      exfalso. rewrite Nat2Z.inj_succ, Z.pow_succ_r in Hn by lia.
      pose proof (Z.pow_pos_nonneg 10 (Z.of_nat k) ltac:(lia) ltac:(lia)).
      lia.
    + assert (0 < n / 10) as Hq.
      { assert (0 <= n / 10) by (apply Z.div_pos; lia). lia. }
      assert (n / 10 < 2 ^ Z.of_nat f) as Hf
          by (apply Z.div_lt_upper_bound; lia).
      destruct k as [|k].
      * specialize (IH 0%nat (n / 10)
                      (String (PyInt.digit_char (n mod 10)) acc)).
        cbn [String.length] in IH. cbn in IH. specialize (IH ltac:(lia)). lia.
      * specialize (IH k (n / 10)
                      (String (PyInt.digit_char (n mod 10)) acc)).
        cbn [String.length] in IH.
        rewrite Nat2Z.inj_succ, Z.pow_succ_r in Hn by lia.
        assert (10 ^ Z.of_nat k <= n / 10) as Hlow
            by (apply Z.div_le_lower_bound; lia).
        specialize (IH ltac:(lia)). lia.
Qed.

Lemma fuel_enough (n : Z) : 0 <= n -> n < 2 ^ Z.of_nat (PyInt.fuel_for n).
Proof.
  intros Hn; unfold PyInt.fuel_for.
  rewrite Nat2Z.inj_succ, Z2Nat.id by apply Z.log2_nonneg.
  destruct (Z.eq_dec n 0) as [->|Hz]; [reflexivity|].
  apply Z.log2_spec; lia.
Qed.

(** [str n] for a natural number: digits only, at least one, and they
    denote [n]. *)
Lemma str_digits (n : Z) :
  0 <= n ->
  all_digits (PyInt.str n) = true /\ PyInt.str n <> "" /\ value 0 (PyInt.str n) = n.
Proof.
  intros Hn; unfold PyInt.str.
  destruct (Z.ltb_spec n 0); [lia|].
  repeat split.
  - now apply digits_all.
  - apply digits_nonempty.
  - apply digits_value. split; [exact Hn | now apply fuel_enough].
Qed.

(** The number of digits of [str n]: at most [k] exactly when
    [n < 10 ^ k]. *)
Lemma str_length (n k : Z) :
  0 <= n -> 1 <= k ->
  (Z.of_nat (String.length (PyInt.str n)) <= k <-> n < 10 ^ k).
Proof.
  intros Hn Hk. rewrite <- (Z2Nat.id k) by lia.
  assert (1 <= Z.to_nat k)%nat as Hk' by lia.
  revert Hk'. generalize (Z.to_nat k). clear k Hk. intros k Hk.
  unfold PyInt.str.
  destruct (Z.ltb_spec n 0); [lia|].
  destruct (Z_lt_le_dec n (10 ^ Z.of_nat k)) as [Hlt|Hge].
  - split; [intros _; exact Hlt|]. intros _.
    destruct k as [|k]; [lia|].
    pose proof (digits_length_le (PyInt.fuel_for n) k n "" ltac:(lia)) as L.
    cbn [String.length] in L. lia.
  - split; [|lia]. intros L. exfalso.
    pose proof (digits_length_gt (PyInt.fuel_for n) k n ""
                  (conj Hge (fuel_enough n Hn))) as G.
    cbn [String.length] in G. lia.
Qed.

(** A number from [10 ^ k] to below [10 ^ (k + 1)] has [k + 1]
    digits. *)
Lemma str_length_exact (n k : Z) :
  1 <= k -> 10 ^ k <= n -> n < 10 ^ (k + 1) ->
  Z.of_nat (String.length (PyInt.str n)) = k + 1.
Proof.
  intros Hk Hlo Hup.
  pose proof (Z.pow_pos_nonneg 10 k ltac:(lia) ltac:(lia)) as Hp.
  pose proof (str_length n k ltac:(lia) Hk) as H1.
  pose proof (str_length n (k + 1) ltac:(lia) ltac:(lia)) as H2.
  lia.
Qed.

(** [int] on a string of digits: the number they denote, unless there
    are more of them than the limit allows. *)
Lemma int_digits (s : string) :
  all_digits s = true -> s <> "" ->
  PyInt.int s =
  if PyInt.max_str_digits <? Z.of_nat (String.length s)
  then Raised (ValueError
         "Exceeds the limit (4300 digits) for integer string conversion")
  else Returned (value 0 s).
Proof.
  destruct s as [|c r]; [congruence|]; intros H _.
  rewrite <- (count_digits_all _ H).
  simpl in H; apply andb_true_iff in H as [Hc Hr].
  unfold PyInt.int. cbn [PyInt.skip_space].
  destruct (digit_not_space c Hc) as [_ ->].
  unfold PyInt.signed, PyInt.after_sign.
  rewrite (digit_not_char c "+" Hc eq_refl), (digit_not_char c "-" Hc eq_refl).
  unfold PyInt.magnitude. rewrite Hc, (scan_digits r _ Hr).
  reflexivity.
Qed.

Lemma max_str_digits_pos : 1 <= PyInt.max_str_digits.
Proof. discriminate. Qed.

(** [int(str(n)) == n] below the limit. *)
Lemma int_str (n : Z) :
  0 <= n -> n < 10 ^ PyInt.max_str_digits ->
  PyInt.int (PyInt.str n) = Returned n.
Proof.
  intros Hn Hlim; destruct (str_digits n Hn) as (Ha & Hne & Hv).
  rewrite int_digits, Hv by assumption.
  apply (str_length n _ Hn max_str_digits_pos) in Hlim.
  destruct (Z.ltb_spec PyInt.max_str_digits
              (Z.of_nat (String.length (PyInt.str n)))); [lia | reflexivity].
Qed.

(** [int(str(n))] raises from [10 ^ 4300] on. *)
Lemma int_str_long (n : Z) :
  0 <= n -> 10 ^ PyInt.max_str_digits <= n ->
  exists msg, PyInt.int (PyInt.str n) = Raised (ValueError msg).
Proof.
  intros Hn Hlim.
  destruct (str_digits n Hn) as (Ha & Hne & Hv).
  rewrite int_digits by assumption.
  destruct (Z.ltb_spec PyInt.max_str_digits
              (Z.of_nat (String.length (PyInt.str n))))
    as [_|Hle]; [eexists; reflexivity|].
  exfalso. apply (str_length n _ Hn max_str_digits_pos) in Hle. lia.
Qed.

End Numerals.


(* ===================================================================== *)
(** * The two range parsers, case by case *)

Section ParserCases.

Lemma int_cases (s : string) :
  (exists n, PyInt.int s = Returned n) \/
  (exists msg, PyInt.int s = Raised (ValueError msg)).
Proof.
  unfold PyInt.int.
  destruct (PyInt.signed _) as [[v rest]|]; [|right; eexists; reflexivity].
  destruct (PyInt.skip_space rest); [|right; eexists; reflexivity].
  destruct (_ <? _); [right | left]; eexists; reflexivity.
Qed.

Lemma contains_truthy (ch : ascii) (s : string) :
  PyStr.contains ch s = true -> PyStr.truthy s = true.
Proof. destruct s; [discriminate | reflexivity]. Qed.

Lemma strip_truthy (s : string) :
  PyStr.truthy (PyStr.strip s) = true -> PyStr.truthy s = true.
Proof. destruct s; [discriminate | reflexivity]. Qed.

Lemma split1_contains (ch : ascii) (s : string) :
  PyStr.contains ch s = true ->
  exists a b, PyStr.split1 ch s = [a; b] /\ s = a ++ String ch b /\
              PyStr.contains ch a = false.
Proof.
  intros H; destruct (contains_decompose ch s H) as (a & b & -> & Ha).
  exists a, b; repeat split; [now apply split1_at | exact Ha].
Qed.

Lemma split_contains (ch : ascii) (s : string) :
  PyStr.contains ch s = true ->
  exists p q rest, PyStr.split ch s = p :: q :: rest.
Proof.
  intros H; destruct (contains_decompose ch s H) as (a & b & -> & Ha).
  rewrite (split_at ch a b Ha).
  destruct (PyStr.split ch b) as [|q rest] eqn:E.
  - now apply split_nonempty in E.
  - now exists a, q, rest.
Qed.

(** [parse_page_range] on a text with a dash. *)
Lemma app_range_case (page_range a b : string) :
  PyStr.split1 "-" (PyStr.strip page_range) = [a; b] ->
  PyStr.contains "-" (PyStr.strip page_range) = true ->
  App.parse_page_range page_range =
  match PyInt.int a, PyInt.int b with
  | Returned ia, Returned ib => Returned (Z.max (ia - 1) 0, Some ib)
  | _, _ => Returned (0, None)
  end.
Proof.
  intros Hs Hc. unfold App.parse_page_range, App.try_block.
  rewrite (strip_truthy _ (contains_truthy _ _ Hc)), Hc, Hs.
  cbn [negb PyStr.unpack2]. unfold lbind, eval, set_start_page, set_end_page.
  destruct (PyInt.int a) as [ia|]; [|reflexivity].
  destruct (PyInt.int b) as [ib|]; reflexivity.
Qed.

(** [parse_page_range] on a text without a dash. *)
Lemma app_single_case (page_range : string) :
  PyStr.contains "-" (PyStr.strip page_range) = false ->
  App.parse_page_range page_range =
  match PyInt.int (PyStr.strip page_range) with
  | Returned n => Returned (Z.max (n - 1) 0, Some (Z.max (n - 1) 0 + 1))
  | Raised _ => Returned (0, None)
  end.
Proof.
  intros Hc. unfold App.parse_page_range, App.try_block.
  destruct page_range as [|c r]; [reflexivity|].
  cbn [PyStr.truthy negb]. rewrite Hc.
  unfold lbind, eval, set_start_page, set_end_page, get_start_page.
  destruct (PyInt.int _) as [n|]; reflexivity.
Qed.

(** The interactive parser on a line with a dash: [a] and [b] are the
    parts before and after the first one. *)
Lemma cli_range_case (line a b : string) :
  PyStr.split1 "-" (PyStr.strip line) = [a; b] ->
  PyStr.contains "-" (PyStr.strip line) = true ->
  Cli.interactive_page_range line =
  if PyStr.contains "-" b then Returned (0, None)
  else match PyInt.int a, PyInt.int b with
       | Returned ia, Returned ib => Returned (ia - 1, Some ib)
       | Returned ia, Raised _ => Returned (ia - 1, None)
       | Raised _, _ => Returned (0, None)
       end.
Proof.
  intros Hs Hc. unfold Cli.interactive_page_range, Cli.range_block.
  rewrite (contains_truthy _ _ Hc), Hc.
  destruct (split1_contains _ _ Hc) as (a' & b' & Hs' & Heq & Ha).
  rewrite Hs in Hs'; injection Hs' as <- <-.
  rewrite Heq, (split_at _ _ _ Ha).
  unfold lbind, eval, set_start_page, set_end_page.
  destruct (PyStr.contains "-" b) eqn:Hb.
  - destruct (split_contains _ _ Hb) as (p & q & rest & ->). reflexivity.
  - rewrite (split_absent _ _ Hb). cbn [PyStr.unpack2].
    destruct (int_cases a) as [[ia ->]|[msg ->]]; [|reflexivity].
    destruct (int_cases b) as [[ib ->]|[msg ->]]; reflexivity.
Qed.

(** The interactive parser on a line without a dash. *)
Lemma cli_single_case (line : string) :
  PyStr.contains "-" (PyStr.strip line) = false ->
  Cli.interactive_page_range line =
  match PyInt.int (PyStr.strip line) with
  | Returned n => Returned (n - 1, Some (n - 1 + 1))
  | Raised _ => Returned (0, None)
  end.
Proof.
  intros Hc. unfold Cli.interactive_page_range, Cli.range_block.
  destruct (PyStr.strip line) as [|c r] eqn:E; [reflexivity|].
  cbn [PyStr.truthy]. rewrite Hc.
  unfold lbind, eval, set_start_page, set_end_page, get_start_page.
  destruct (int_cases (String c r)) as [[n ->]|[msg ->]]; reflexivity.
Qed.

(** Every text falls in one of the two cases. *)
Lemma dash_or_not (s : string) :
  (PyStr.contains "-" s = false) \/
  (exists a b, PyStr.split1 "-" s = [a; b] /\ PyStr.contains "-" s = true).
Proof.
  destruct (PyStr.contains "-" s) eqn:E; [right | now left].
  destruct (split1_contains _ _ E) as (a & b & H & _); now exists a, b.
Qed.

End ParserCases.


(* ===================================================================== *)
(** * The page-range parser of the HTTP front-end *)

Section HttpParser.

Lemma strip_numeral (s : string) :
  all_digits s = true -> PyStr.strip s = s.
Proof.
  intros H; unfold PyStr.strip. now rewrite (lstrip_digits s H), rstrip_digits.
Qed.

Lemma strip_numeral_range (da db : string) :
  all_digits da = true -> da <> "" -> all_digits db = true -> db <> "" ->
  PyStr.strip (da ++ String "-" db) = da ++ String "-" db.
Proof.
  intros Ha Hna Hb Hnb; unfold PyStr.strip.
  destruct da as [|c r]; [congruence|].
  simpl in Ha; apply andb_true_iff in Ha as [Hc Hr].
  cbn [append PyStr.lstrip]. destruct (digit_not_space c Hc) as [-> _].
  change (String c (r ++ String "-" db)) with (String c r ++ String "-" db).
  change (String "-" db) with ("-" ++ db).
  rewrite <- append_assoc'.
  apply rstrip_append; [exact Hnb | now apply rstrip_digits].
Qed.

(** The parser on two numerals around a dash. *)
Lemma app_numeral_range (da db : string) :
  all_digits da = true -> da <> "" -> all_digits db = true -> db <> "" ->
  App.parse_page_range (da ++ String "-" db) =
  match PyInt.int da, PyInt.int db with
  | Returned ia, Returned ib => Returned (Z.max (ia - 1) 0, Some ib)
  | _, _ => Returned (0, None)
  end.
Proof.
  intros Ha Hna Hb Hnb.
  assert (PyStr.contains "-" da = false) as Hda
      by now apply contains_digits.
  apply app_range_case.
  - rewrite strip_numeral_range by assumption. now apply split1_at.
  - rewrite strip_numeral_range by assumption.
    rewrite contains_append. simpl. apply orb_true_r.
Qed.

(** The parser on one numeral. *)
Lemma app_numeral (d : string) :
  all_digits d = true -> d <> "" ->
  App.parse_page_range d =
  match PyInt.int d with
  | Returned n => Returned (Z.max (n - 1) 0, Some (Z.max (n - 1) 0 + 1))
  | Raised _ => Returned (0, None)
  end.
Proof.
  intros Hd Hn. rewrite app_single_case; rewrite (strip_numeral d Hd).
  - reflexivity.
  - now apply contains_digits.
Qed.

Lemma limit_pos : 0 < 10 ^ PyInt.max_str_digits.
Proof. apply Z.pow_pos_nonneg; [reflexivity | discriminate]. Qed.

(** The parser on the text of two integers around a dash, when both are
    below [10 ^ 4300]. *)
Lemma app_range_within_limit (a b : Z) :
  1 <= a -> a <= b -> b < 10 ^ PyInt.max_str_digits ->
  App.parse_page_range (PyInt.str a ++ "-" ++ PyInt.str b)
  = Returned (a - 1, Some b).
Proof.
  intros Ha Hab Hb.
  destruct (str_digits a ltac:(lia)) as (Da & Na & _).
  destruct (str_digits b ltac:(lia)) as (Db & Nb & _).
  change ("-" ++ PyInt.str b) with (String "-" (PyInt.str b)).
  rewrite app_numeral_range by assumption.
  rewrite !int_str by lia. do 2 f_equal. lia.
Qed.

(** The same when the right integer has more digits than [int] takes. *)
Lemma app_range_beyond_limit (a b : Z) :
  1 <= a -> a <= b -> 10 ^ PyInt.max_str_digits <= b ->
  App.parse_page_range (PyInt.str a ++ "-" ++ PyInt.str b) = Returned (0, None).
Proof.
  intros Ha Hab Hb.
  destruct (str_digits a ltac:(lia)) as (Da & Na & _).
  destruct (str_digits b ltac:(lia)) as (Db & Nb & _).
  change ("-" ++ PyInt.str b) with (String "-" (PyInt.str b)).
  rewrite app_numeral_range by assumption.
  destruct (int_str_long b ltac:(lia) Hb) as [msg ->].
  now destruct (PyInt.int (PyInt.str a)).
Qed.

(** The parser on the text of one integer below [10 ^ 4300]. *)
Lemma app_single_within_limit (n : Z) :
  1 <= n -> n < 10 ^ PyInt.max_str_digits ->
  App.parse_page_range (PyInt.str n) = Returned (n - 1, Some n).
Proof.
  intros Hn Hlim.
  destruct (str_digits n ltac:(lia)) as (Dn & Nn & _).
  rewrite app_numeral by assumption.
  rewrite int_str by lia. do 2 f_equal; [lia | f_equal; lia].
Qed.

(** The parser on the text of one integer from [10 ^ 4300] on. *)
Lemma app_single_beyond_limit (n : Z) :
  10 ^ PyInt.max_str_digits <= n ->
  App.parse_page_range (PyInt.str n) = Returned (0, None).
Proof.
  intros Hlim. pose proof limit_pos as Hp.
  destruct (str_digits n ltac:(lia)) as (Dn & Nn & _).
  rewrite app_numeral by assumption.
  now destruct (int_str_long n ltac:(lia) Hlim) as [msg ->].
Qed.

(** A page number of one digit is far below the limit. *)
Lemma small_within_limit (n : Z) :
  n < 10 -> n < 10 ^ PyInt.max_str_digits.
Proof.
  intros Hn. apply (Z.lt_le_trans _ (10 ^ 1)); [exact Hn|].
  apply Z.pow_le_mono_r; [reflexivity | discriminate].
Qed.

(** What the parser returns when its [try] block raises. *)
Lemma app_failure_falls_back (page_range : string) (e : exn) (l : locals) :
  App.try_block page_range whole_document = (Raised e, l) ->
  App.parse_page_range page_range = Returned (0, None).
Proof.
  intros H; unfold App.parse_page_range. rewrite H.
  now destruct (negb _).
Qed.

(** The parser returns on every text, and its start page is not negative. *)
Lemma app_start_nonneg (page_range : string) :
  exists st en, App.parse_page_range page_range = Returned (st, en) /\ 0 <= st.
Proof.
  destruct (dash_or_not (PyStr.strip page_range)) as [Hc | (a & b & Hs & Hc)].
  - rewrite (app_single_case _ Hc).
    destruct (PyInt.int _) as [n|]; eexists; eexists; (split; [reflexivity | lia]).
  - rewrite (app_range_case _ a b Hs Hc).
    destruct (PyInt.int a) as [ia|]; [destruct (PyInt.int b) as [ib|]|];
      eexists; eexists; (split; [reflexivity | lia]).
Qed.

(** The interactive parser returns on every line. *)
Lemma cli_parse_returns (line : string) :
  exists r, Cli.interactive_page_range line = Returned r.
Proof.
  destruct (dash_or_not (PyStr.strip line)) as [Hc | (a & b & Hs & Hc)].
  - rewrite (cli_single_case _ Hc).
    destruct (PyInt.int _) as [n|]; eexists; reflexivity.
  - rewrite (cli_range_case _ a b Hs Hc).
    destruct (PyStr.contains "-" b); [eexists; reflexivity|].
    destruct (PyInt.int a) as [ia|]; [destruct (PyInt.int b) as [ib|]|];
      eexists; reflexivity.
Qed.

(** C2, as the claim states it, fails: [10 ^ 4300] is an integer
    [n >= 1] whose text has 4301 digits, one more than [int] converts.
    On that text [int] raises [ValueError], and the parser answers with
    the whole document, [(0, None)], not with [(n - 1, n)]; so it does on
    the range from 1 to [n]. *)
Lemma parse_page_range_refuses_long_number :
  let n := 10 ^ 4300 in
  1 <= n /\
  Z.of_nat (String.length (PyInt.str n)) = 4301 /\
  App.parse_page_range (PyInt.str n) = Returned (0, None) /\
  App.parse_page_range (PyInt.str n) <> Returned (n - 1, Some n) /\
  App.parse_page_range (PyInt.str 1 ++ "-" ++ PyInt.str n) = Returned (0, None) /\
  App.parse_page_range (PyInt.str 1 ++ "-" ++ PyInt.str n)
  <> Returned (1 - 1, Some n).
Proof.
  intros n.
  assert (10 ^ PyInt.max_str_digits <= n) as Hn by apply Z.le_refl.
  assert (1 <= n) as Hp by exact (proj2 (Z.le_succ_l 0 n) limit_pos).
  assert (Z.of_nat (String.length (PyInt.str n)) = 4301) as Hlen.
  { apply (str_length_exact n 4300); [discriminate | apply Z.le_refl|].
    apply Z.pow_lt_mono_r; [reflexivity | discriminate | reflexivity]. }
  clearbody n.
  rewrite (app_single_beyond_limit n Hn).
  rewrite (app_range_beyond_limit 1 n (Z.le_refl 1) Hp Hn).
  repeat split; try discriminate; assumption.
Qed.

(** C2, amended: for integers [1 <= a <= b] with [b] below [10 ^ 4300]
    the text [a-b] parses to [(a-1, b)]; for an integer [n >= 1] below
    [10 ^ 4300] the text [n] parses to [(n-1, n)]; from [10 ^ 4300] on,
    where the text has more digits than [int] converts, both parse to
    [(0, None)]; the empty text and the blank parse to [(0, None)]. *)
Theorem parse_page_range_valid_amended :
  (forall a b : Z, 1 <= a -> a <= b -> b < 10 ^ PyInt.max_str_digits ->
     App.parse_page_range (PyInt.str a ++ "-" ++ PyInt.str b)
     = Returned (a - 1, Some b)) /\
  (forall n : Z, 1 <= n -> n < 10 ^ PyInt.max_str_digits ->
     App.parse_page_range (PyInt.str n) = Returned (n - 1, Some n)) /\
  (forall a b : Z, 1 <= a -> a <= b -> 10 ^ PyInt.max_str_digits <= b ->
     App.parse_page_range (PyInt.str a ++ "-" ++ PyInt.str b)
     = Returned (0, None)) /\
  (forall n : Z, 10 ^ PyInt.max_str_digits <= n ->
     App.parse_page_range (PyInt.str n) = Returned (0, None)) /\
  App.parse_page_range "" = Returned (0, None) /\
  App.parse_page_range " " = Returned (0, None).
Proof.
  split; [exact app_range_within_limit|].
  split; [exact app_single_within_limit|].
  split; [exact app_range_beyond_limit|].
  split; [exact app_single_beyond_limit|].
  split; reflexivity.
Qed.

Lemma parse_page_range_valid_amended_witness :
  (1 <= 2 /\ 2 <= 5 /\ 5 < 10 ^ PyInt.max_str_digits /\
   App.parse_page_range "2-5" = Returned (1, Some 5)) /\
  (1 <= 3 /\ 3 < 10 ^ PyInt.max_str_digits /\
   App.parse_page_range "3" = Returned (2, Some 3)).
Proof.
  split.
  - split; [lia|]. split; [lia|].
    split; [apply small_within_limit; lia|].
    apply (proj1 parse_page_range_valid_amended 2 5);
      [lia | lia | apply small_within_limit; lia].
  - split; [lia|]. split; [apply small_within_limit; lia|].
    apply (proj1 (proj2 parse_page_range_valid_amended) 3);
      [lia | apply small_within_limit; lia].
Defined.

(** C4, as the claim states it, fails: on [5-2] the parser returns
    [(4, Some 2)], whose start is not below its end. *)
Lemma parse_page_range_breaks_invariant :
  App.parse_page_range "5-2" = Returned (4, Some 2) /\
  ~ page_range_invariant (4, Some 2).
Proof.
  split; [reflexivity|]. unfold page_range_invariant; simpl. lia.
Qed.

(** C4, amended: the start of every pair the parser returns is not
    negative.  When the end is bounded, a text without a dash gives
    [end = start + 1]; a text with a dash gives the two numbers [ia] and
    [ib] it holds, and [start < end] exactly when [ia <= ib] and
    [1 <= ib]: the parser does not compare the two. *)
Theorem parse_page_range_invariant_amended
  (page_range : string) (st : Z) (en : option Z) :
  App.parse_page_range page_range = Returned (st, en) ->
  0 <= st /\
  forall e, en = Some e ->
    (PyStr.contains "-" (PyStr.strip page_range) = false -> e = st + 1) /\
    (PyStr.contains "-" (PyStr.strip page_range) = true ->
     exists a b ia ib,
       PyStr.split1 "-" (PyStr.strip page_range) = [a; b] /\
       PyInt.int a = Returned ia /\ PyInt.int b = Returned ib /\
       st = Z.max (ia - 1) 0 /\ e = ib /\
       (st < e <-> ia <= ib /\ 1 <= ib)).
Proof.
  intros H.
  destruct (dash_or_not (PyStr.strip page_range)) as [Hc | (a & b & Hs & Hc)].
  - rewrite (app_single_case _ Hc) in H.
    destruct (PyInt.int _) as [n|ex]; injection H as <- <-;
      (split; [lia|]); intros e He; try discriminate.
    injection He as <-. split; [reflexivity | congruence].
  - rewrite (app_range_case _ a b Hs Hc) in H.
    destruct (PyInt.int a) as [ia|ex] eqn:Ea;
      [destruct (PyInt.int b) as [ib|ex] eqn:Eb|];
      injection H as <- <-; (split; [lia|]); intros e He; try discriminate.
    injection He as <-. split; [congruence|]. intros _.
    exists a, b, ia, ib. repeat split; try assumption; lia.
Qed.

Lemma parse_page_range_invariant_amended_witness :
  App.parse_page_range "5-2" = Returned (4, Some 2) /\
  0 <= 4 /\
  forall e, Some 2 = Some e ->
    (PyStr.contains "-" (PyStr.strip "5-2") = false -> e = 4 + 1) /\
    (PyStr.contains "-" (PyStr.strip "5-2") = true ->
     exists a b ia ib,
       PyStr.split1 "-" (PyStr.strip "5-2") = [a; b] /\
       PyInt.int a = Returned ia /\ PyInt.int b = Returned ib /\
       4 = Z.max (ia - 1) 0 /\ e = ib /\
       (4 < e <-> ia <= ib /\ 1 <= ib)).
Proof.
  split; [reflexivity|].
  apply (parse_page_range_invariant_amended "5-2" 4 (Some 2)).
  reflexivity.
Defined.

End HttpParser.


(* ===================================================================== *)
(** * The two parsers compared *)

Section TwoParsers.

(** C9, as the claim states it, fails: on [0-5] the HTTP parser clamps
    the start page to [0], the interactive one hands on [-1]. *)
Lemma parsers_differ_on_zero_start :
  App.parse_page_range "0-5" = Returned (0, Some 5) /\
  Cli.interactive_page_range "0-5" = Returned (-1, Some 5) /\
  Cli.interactive_page_range "0-5" <> App.parse_page_range "0-5".
Proof. repeat split; try reflexivity. discriminate. Qed.

(** C9, amended: the two parsers compute the same pair
    - on a text without a dash that is no number, or a number [n >= 1];
    - on a text with a dash whose left part is no number;
    - on a text with a dash whose right part holds a further dash and is
      no number;
    - on a text with one dash, a left number [ia >= 1] and a right
      number.
    ([s] is the stripped text, [a] and [b] its parts before and after the
    first dash.) *)
Theorem parsers_agree_on_common_domain (line : string) :
  let s := PyStr.strip line in
  (PyStr.contains "-" s = false ->
     ((forall n, PyInt.int s <> Returned n) ->
        Cli.interactive_page_range line = App.parse_page_range line) /\
     (forall n, PyInt.int s = Returned n -> 1 <= n ->
        Cli.interactive_page_range line = App.parse_page_range line)) /\
  (forall a b, PyStr.split1 "-" s = [a; b] -> PyStr.contains "-" s = true ->
     ((forall ia, PyInt.int a <> Returned ia) ->
        Cli.interactive_page_range line = App.parse_page_range line) /\
     (PyStr.contains "-" b = true -> (forall ib, PyInt.int b <> Returned ib) ->
        Cli.interactive_page_range line = App.parse_page_range line) /\
     (forall ia ib, PyInt.int a = Returned ia -> PyInt.int b = Returned ib ->
        1 <= ia -> PyStr.contains "-" b = false ->
        Cli.interactive_page_range line = App.parse_page_range line)).
Proof.
  intros s; subst s; split.
  - intros Hc. rewrite (cli_single_case _ Hc), (app_single_case _ Hc). split.
    + intros Hn. destruct (PyInt.int _) as [n|ex]; [now elim (Hn n) | reflexivity].
    + intros n -> Hn. do 2 f_equal; [lia | f_equal; lia].
  - intros a b Hs Hc.
    rewrite (cli_range_case _ a b Hs Hc), (app_range_case _ a b Hs Hc).
    repeat split.
    + intros Ha. destruct (PyInt.int a) as [ia|ex]; [now elim (Ha ia)|].
      now destruct (PyStr.contains "-" b).
    + intros -> Hb. destruct (PyInt.int b) as [ib|ex]; [now elim (Hb ib)|].
      now destruct (PyInt.int a).
    + intros ia ib -> -> Hia ->. do 2 f_equal. lia.
Qed.

Lemma parsers_agree_on_common_domain_witness :
  Cli.interactive_page_range "2-5" = App.parse_page_range "2-5" /\
  Cli.interactive_page_range "3" = App.parse_page_range "3" /\
  Cli.interactive_page_range "abc" = App.parse_page_range "abc" /\
  Cli.interactive_page_range "x-5" = App.parse_page_range "x-5" /\
  Cli.interactive_page_range "1-2-3" = App.parse_page_range "1-2-3".
Proof.
  refine (conj _ (conj _ (conj _ (conj _ _)))).
  - destruct (proj2 (parsers_agree_on_common_domain "2-5") "2" "5"
                eq_refl eq_refl) as (_ & _ & H).
    apply (H 2 5); [reflexivity | reflexivity | lia | reflexivity].
  - destruct (proj1 (parsers_agree_on_common_domain "3") eq_refl) as (_ & H).
    apply (H 3); [reflexivity | lia].
  - destruct (proj1 (parsers_agree_on_common_domain "abc") eq_refl) as (H & _).
    apply H. intros n Hn; vm_compute in Hn; discriminate Hn.
  - destruct (proj2 (parsers_agree_on_common_domain "x-5") "x" "5"
                eq_refl eq_refl) as (H & _).
    apply H. intros n Hn; vm_compute in Hn; discriminate Hn.
  - destruct (proj2 (parsers_agree_on_common_domain "1-2-3") "1" "2-3"
                eq_refl eq_refl) as (_ & H & _).
    apply H; [reflexivity|]. intros n Hn; vm_compute in Hn; discriminate Hn.
Defined.

End TwoParsers.

(* ===================================================================== *)
(** * Running programs: the laws of composition *)

Section Running.
Context {World : Type} (h : handler World).

Lemma run_eta {A} (r : run_result World A) :
  mkRun (trace r) (result r) (final r) = r.
Proof. now destruct r. Qed.

Lemma run_call {X A} (o : op X) (k : outcome X -> prog A) (w : World) :
  run h (Call o k) w =
  after (Called o (answer h o w)) (run h (k (answer h o w)) (world_after h o w)).
Proof.
  cbn [run]. unfold answer, world_after. now destruct (h X o w).
Qed.

Lemma run_emit {A} (out : output) (k : prog A) (w : World) :
  run h (Emit out k) w = after (Put out) (run h k w).
Proof. reflexivity. Qed.

Lemma run_bind {A B} (p : prog A) (f : A -> prog B) (w : World) :
  run h (bind p f) w = and_then (run h p w) (fun a w' => run h (f a) w').
Proof.
  revert w; induction p as [a | e | X o k IH | out k IH]; intros w.
  - unfold and_then; cbn. now rewrite run_eta.
  - reflexivity.
  - cbn [bind]. rewrite !run_call, IH.
    destruct (run h (k _) _) as [t [a|e] wf]; reflexivity.
  - cbn [bind run]. rewrite IH.
    destruct (run h k w) as [t [a|e] wf]; reflexivity.
Qed.

Lemma run_try_except {A} (p : prog A) (g : exn -> prog A) (w : World) :
  run h (try_except p g) w = or_else (run h p w) (fun e w' => run h (g e) w').
Proof.
  revert w; induction p as [a | e | X o k IH | out k IH]; intros w.
  - reflexivity.
  - unfold or_else; cbn. now rewrite run_eta.
  - cbn [try_except]. rewrite !run_call, IH.
    destruct (run h (k _) _) as [t [a|e] wf]; reflexivity.
  - cbn [try_except run]. rewrite IH.
    destruct (run h k w) as [t [a|e] wf]; reflexivity.
Qed.

Lemma run_try_finally {A} (p : prog A) (fin : prog unit) (w : World) :
  run h (try_finally p fin) w =
  and_finally (run h p w) (run h fin (final (run h p w))).
Proof.
  revert w; induction p as [a | e | X o k IH | out k IH]; intros w.
  - cbn [try_finally]. rewrite run_bind.
    unfold and_then, and_finally; cbn.
    destruct (result _); cbn; now rewrite ?app_nil_r.
  - cbn [try_finally]. rewrite run_bind.
    unfold and_then, and_finally; cbn.
    destruct (result _); cbn; now rewrite ?app_nil_r.
  - cbn [try_finally]. rewrite !run_call, IH. reflexivity.
  - cbn [try_finally run]. rewrite IH. reflexivity.
Qed.

Lemma and_then_ext {A B} (r : run_result World A)
  (f g : A -> World -> run_result World B) :
  (forall a w, f a w = g a w) -> and_then r f = and_then r g.
Proof. intros E; unfold and_then. destruct (result r); [now rewrite E | reflexivity]. Qed.

(** A handler that always returns makes the whole [try] return. *)
Lemma try_except_returns {A} (p : prog A) (g : exn -> prog A) (w : World) :
  (forall e w', exists a, result (run h (g e) w') = Returned a) ->
  exists a, result (run h (try_except p g) w) = Returned a.
Proof.
  intros Hg. rewrite run_try_except. unfold or_else.
  destruct (result (run h p w)) as [a|e] eqn:E; [now exists a|].
  cbn. apply Hg.
Qed.

End Running.

(* ===================================================================== *)
(** * The conversion adapter *)

Section Adapter.
Context {World : Type} (h : handler World) `{Platform}.

(** Symbolic execution: take the next call, split on what it did. *)
Ltac exec :=
  cbn;
  repeat (match goal with
          | |- context [h ?X ?o ?w] =>
              is_var w; destruct (h X o w) as [[?|?] ?] eqn:?
          | |- context [if negb ?b then _ else _] => destruct b eqn:?
          | |- context [if ?b then _ else _] => destruct b eqn:?
          end; cbn).

(** [convert_single_file] is its three pieces under one handler. *)
Lemma run_convert_single_file
  (pdf_path docx_path : string) (s : Z) (e : option Z) (w : World) :
  run h (Pdf.convert_single_file pdf_path docx_path s e) w =
  or_else
    (and_then (run h (prepare pdf_path docx_path) w) (fun ok w1 =>
       if ok : bool
       then and_then (run h (library_call pdf_path docx_path s e) w1)
                     (fun _ w2 => run h (check_output docx_path) w2)
       else mkRun [] (Returned false) w1))
    (fun err w' => mkRun [Put (LogLine ERROR (ConversionError err))]
                         (Returned false) w').
Proof.
  unfold Pdf.convert_single_file, prepare, library_call, check_output,
    and_then, or_else.
  exec; reflexivity.
Qed.

Lemma check_output_true (docx_path : string) (w : World) :
  getsize_contract h ->
  (result (run h (check_output docx_path) w) = Returned true <->
   answer h (OsPathExists docx_path) w = Returned true).
Proof.
  intros Hsize. pose proof (Hsize docx_path w) as Hs.
  unfold answer, world_after in *. unfold check_output. cbn.
  destruct (h bool (OsPathExists docx_path) w) as [[[|]|err] w1]; cbn in *.
  - destruct (Hs eq_refl) as [n Hn].
    destruct (h Z (OsPathGetsize docx_path) w1) as [[m|err] w2]; cbn in *;
      [tauto | discriminate].
  - split; discriminate.
  - split; discriminate.
Qed.

(** C3: [convert_single_file] returns a boolean on every call: no
    exception leaves it.  It returns [True] exactly when its preparation
    passed, the three calls to the library returned, and the destination
    exists in the world the library left.  When the library raises, the
    result is [False].  (The size of an existing path is assumed
    readable.) *)
Theorem convert_single_file_result
  (pdf_path docx_path : string) (s : Z) (e : option Z) (w : World) :
  getsize_contract h ->
  let r := run h (Pdf.convert_single_file pdf_path docx_path s e) w in
  (exists b, result r = Returned b) /\
  (result r = Returned true <->
   exists t1 w1 t2 w2,
     run h (prepare pdf_path docx_path) w = mkRun t1 (Returned true) w1 /\
     run h (library_call pdf_path docx_path s e) w1 = mkRun t2 (Returned tt) w2 /\
     answer h (OsPathExists docx_path) w2 = Returned true) /\
  (forall t1 w1 t2 w2 err,
     run h (prepare pdf_path docx_path) w = mkRun t1 (Returned true) w1 ->
     run h (library_call pdf_path docx_path s e) w1 = mkRun t2 (Raised err) w2 ->
     result r = Returned false /\ final r = w2 /\
     trace r = (t1 ++ t2 ++ [Put (LogLine ERROR (ConversionError err))])%list).
Proof.
  intros Hsize r; subst r. rewrite run_convert_single_file.
  destruct (run h (prepare pdf_path docx_path) w) as [t1 [[|]|e1] w1];
    cbn [and_then result final trace].
  - pose proof (check_output_true docx_path) as Hchk.
    destruct (run h (library_call pdf_path docx_path s e) w1)
      as [t2 [[]|e2] w2] eqn:Elib; cbn [and_then result final trace].
    + specialize (Hchk w2 Hsize).
      destruct (run h (check_output docx_path) w2) as [t3 [b|e3] w3];
        cbn [or_else result final trace] in *.
      * split; [now eexists|]. split.
        -- split.
           ++ intros Hb. exists t1, w1, t2, w2. rewrite Elib.
              repeat split. now apply Hchk.
           ++ intros (t1' & w1' & t2' & w2' & Hp & Hl & Hex).
              injection Hp as <- <-. rewrite Elib in Hl.
              injection Hl as <- <-. now apply Hchk.
        -- intros t1' w1' t2' w2' err Hp Hl.
           injection Hp as <- <-. rewrite Elib in Hl. discriminate.
      * split; [now eexists|]. split.
        -- split; [discriminate|].
           intros (t1' & w1' & t2' & w2' & Hp & Hl & Hex).
           injection Hp as <- <-. rewrite Elib in Hl.
           injection Hl as <- <-. apply Hchk in Hex. discriminate.
        -- intros t1' w1' t2' w2' err Hp Hl.
           injection Hp as <- <-. rewrite Elib in Hl. discriminate.
    + cbn [or_else result final trace]. split; [now eexists|].
      split; [split; [discriminate|]|].
      * intros (t1' & w1' & t2' & w2' & Hp & Hl & _).
        injection Hp as <- <-. rewrite Elib in Hl. discriminate.
      * intros t1' w1' t2' w2' err Hp Hl.
        injection Hp as <- <-. rewrite Elib in Hl.
        injection Hl as <- <- <-.
        repeat split. now rewrite <- app_assoc.
  - cbn [or_else result final trace app]. split; [now eexists|].
    split; [split; [discriminate | intros (?&?&?&?&?&_); discriminate]|].
    intros; discriminate.
  - cbn [or_else result final trace app]. split; [now eexists|].
    split; [split; [discriminate | intros (?&?&?&?&?&_); discriminate]|].
    intros; discriminate.
Qed.

(** C7: when the source path does not exist, [convert_single_file]
    returns [False]; the trace holds no call to the library and no call
    that creates a directory, and the world is the one it started in: no
    output file, no directory.  (Importing the library and asking whether
    a path exists change nothing.) *)
Theorem convert_single_file_missing_source
  (pdf_path docx_path : string) (s : Z) (e : option Z) (w : World) :
  world_after h ImportConverter w = w ->
  answer h (OsPathExists pdf_path) w = Returned false ->
  world_after h (OsPathExists pdf_path) w = w ->
  let r := run h (Pdf.convert_single_file pdf_path docx_path s e) w in
  result r = Returned false /\
  final r = w /\
  Forall (fun ev => invokes_converter ev = false /\ makes_directory ev = false)
         (trace r).
Proof.
  intros Himp Hmiss Hq r; subst r. unfold answer, world_after in *.
  unfold Pdf.convert_single_file. cbn.
  destruct (h unit ImportConverter w) as [[[]|e0] w0]; cbn in *; subst w0.
  - destruct (h bool (OsPathExists pdf_path) w) as [res w1]; cbn in *.
    subst res w1. cbn. repeat split; repeat constructor.
  - repeat split; repeat constructor.
Qed.

(** [get_pdf_info] returns on every call. *)
Lemma get_pdf_info_returns (pdf_path : string) (w : World) :
  exists info, result (run h (Pdf.get_pdf_info pdf_path) w) = Returned info.
Proof.
  unfold Pdf.get_pdf_info. apply try_except_returns.
  intros err w'. now exists None.
Qed.

(** C8: a request to [/api/pdf-info] whose upload was written to the
    temporary path [tmp] gets a response, which is [{ok: true, data}] when
    [get_pdf_info] gave the metadata and the structured failure with
    status 500 when it gave [None]; in both cases the last call of the
    handler is [os.remove(tmp)], and no file is left at [tmp]. *)
Theorem pdf_info_removes_temp
  (r : Http.request) (file : FileStorage) (tmp : string)
  (w w0 : World) (t0 : list event) :
  remove_contract h ->
  Http.files_pdf r = Some file ->
  PyStr.truthy (filename file) = true ->
  run h (materialize file) w = mkRun t0 (Returned tmp) w0 ->
  let rr := run h (Http.pdf_info r) w in
  let rg := run h (Pdf.get_pdf_info tmp) w0 in
  (exists info,
     result rg = Returned info /\
     result rr = Returned
       match info with
       | Some i => Http.Jsonify 200 (Http.Data i)
       | None => Http.Jsonify 500 (Http.Failure Http.InfoUnavailable)
       end) /\
  trace rr = (t0 ++ trace rg
              ++ [Called (OsRemove tmp) (answer h (OsRemove tmp) (final rg))])%list /\
  final rr = world_after h (OsRemove tmp) (final rg) /\
  answer h (OsPathExists tmp) (final rr) = Returned false.
Proof.
  intros Hrm Hfile Hname Hmat rr rg; subst rr rg.
  unfold Http.pdf_info. rewrite Hfile, Hname. cbn [negb].
  rewrite run_bind. change (run h (_ <- call (NamedTemporaryFile ".pdf") ;; _)%prog w)
    with (run h (materialize file) w).
  rewrite Hmat. cbn [and_then result final trace].
  rewrite run_try_finally, run_bind.
  destruct (get_pdf_info_returns tmp w0) as [info Hinfo].
  destruct (run h (Pdf.get_pdf_info tmp) w0) as [tg og wg].
  cbn [result] in Hinfo; subst og. cbn [and_then result final trace].
  assert (forall A (x : A), run h (Ret x) wg = mkRun [] (Returned x) wg) as Hret
      by reflexivity.
  assert (run h (try_except (call (OsRemove tmp)) (fun _ => Ret tt)) wg
          = mkRun [Called (OsRemove tmp) (answer h (OsRemove tmp) wg)]
                  (Returned tt) (world_after h (OsRemove tmp) wg)) as Hfin.
  { unfold answer, world_after. cbn.
    destruct (h unit (OsRemove tmp) wg) as [[[]|err] w']; reflexivity. }
  destruct info as [i|]; rewrite Hret; cbn [result final trace];
    rewrite app_nil_r, Hfin; cbn [and_finally result final trace];
    (split; [eexists; split; reflexivity|]);
    (split; [reflexivity|]); (split; [reflexivity | apply Hrm]).
Qed.

Lemma run_one_call {X} (o : op X) (w : World) :
  run h (call o) w =
  mkRun [Called o (answer h o w)] (answer h o w) (world_after h o w).
Proof.
  unfold call. rewrite run_call. now destruct (answer h o w).
Qed.

Lemma count_app {A} (f : A -> bool) (l1 l2 : list A) :
  count f (l1 ++ l2) = (count f l1 + count f l2)%nat.
Proof. unfold count. now rewrite filter_app, length_app. Qed.

Lemma pick_app {A B} (f : A -> option B) (l1 l2 : list A) :
  pick f (l1 ++ l2) = (pick f l1 ++ pick f l2)%list.
Proof.
  induction l1 as [|x l1 IH]; cbn; [reflexivity|].
  destruct (f x); cbn; now rewrite IH.
Qed.

(** What a run of [convert_single_file] leaves in the trace: the line of
    success exactly when it returns [True], no upload saved, no archive
    built, and no pages handed to the library but the ones it was given. *)
Lemma convert_single_file_trace
  (pdf_path docx_path : string) (s : Z) (e : option Z) (w : World) :
  let r := run h (Pdf.convert_single_file pdf_path docx_path s e) w in
  exists b, result r = Returned b /\
            count succeeded (trace r) = (if b : bool then 1 else 0)%nat /\
            existsb builds_archive (trace r) = false /\
            pick saved_upload (trace r) = [] /\
            Forall (fun p => p = (s, e)) (pick converted_pages (trace r)).
Proof.
  unfold Pdf.convert_single_file.
  exec; eexists; repeat split; repeat constructor.
Qed.

(* ===================================================================== *)
(** * The batch endpoint *)


(** What a run of the loop leaves in the trace: no archive, saves of
    uploads that are not skipped only, the pages it was given, and as
    many lines of success as it adds to the count. *)
Lemma convert_uploads_trace
  (td out_dir : string) (s : Z) (e : option Z)
  (files : list FileStorage) (n : nat) (w : World) :
  let r := run h (Http.convert_uploads td out_dir s e files n) w in
  existsb builds_archive (trace r) = false /\
  Forall (fun f => Http.skipped f = false) (pick saved_upload (trace r)) /\
  Forall (fun p => p = (s, e)) (pick converted_pages (trace r)) /\
  (forall k, result r = Returned k ->
             k = (n + count succeeded (trace r))%nat).
Proof.
  revert n w; induction files as [|f files IH]; intros n w r; subst r.
  - cbn. repeat split; try constructor. intros k [= <-]. now rewrite Nat.add_0_r.
  - cbn [Http.convert_uploads].
    destruct (Http.skipped f) eqn:Hs; [apply IH|].
    rewrite run_bind, run_one_call.
    destruct (answer h _ w) as [[]|err]; cbn [and_then result final trace].
    2:{ cbn. repeat split; try (repeat constructor; assumption). discriminate. }
    rewrite run_bind.
    destruct (convert_single_file_trace
                (os_path_join td (Http.safe_or_default (filename f)))
                (os_path_join out_dir
                   (os_path_splitext_root
                      (os_path_basename
                         (os_path_join td (Http.safe_or_default (filename f))))
                    ++ ".docx"))
                s e (world_after h (FileSave f (os_path_join td
                       (Http.safe_or_default (filename f)))) w))
      as (b & Hb & Hc & Ha & Hp & Hq).
    destruct (run h (Pdf.convert_single_file _ _ s e) _) as [tc oc wc].
    cbn [result trace] in Hb, Hc, Ha, Hp, Hq. subst oc.
    cbn [and_then result final trace].
    destruct (IH (if b then S n else n) wc) as (Ia & Ip & Iq & Ik).
    destruct (run h (Http.convert_uploads _ _ s e files _) wc) as [tl ol wl].
    cbn [result final trace] in *.
    repeat split.
    + cbn [existsb app builds_archive]. rewrite existsb_app, Ha, Ia. reflexivity.
    + cbn [app pick saved_upload]. rewrite pick_app, Hp. cbn.
      constructor; assumption.
    + cbn [app pick converted_pages]. rewrite pick_app.
      apply Forall_app; split; assumption.
    + intros k Hk. rewrite (Ik k Hk).
      change (Called ?o ?x :: (tc ++ tl)%list) with ([Called o x] ++ (tc ++ tl))%list.
      rewrite !count_app, Hc. cbn. destruct b; lia.
Qed.


(** The run of [convert_batch] on a request with uploads, stage by
    stage. *)
Lemma run_convert_batch (r : Http.request) (w : World) (s : Z) (e : option Z) :
  Http.files_pdfs r <> [] ->
  App.parse_page_range (Http.form_get_range r) = Returned (s, e) ->
  run h (Http.convert_batch r) w =
  and_then (run h (call TemporaryDirectory) w) (fun td w1 =>
    let body :=
      and_then (run h (call (OsMakedirs (os_path_join td "out"))) w1)
        (fun _ w2 =>
           and_then (run h (Http.convert_uploads td (os_path_join td "out") s e
                              (Http.files_pdfs r) 0) w2)
             (fun k w3 => run h (Http.respond_batch (os_path_join td "out") k) w3)) in
    and_finally body
      (run h (call (CleanupTemporaryDirectory td)) (final body))).
Proof.
  intros Hf Hp. unfold Http.convert_batch. rewrite Hp.
  destruct (Http.files_pdfs r) as [|f fs]; [congruence|].
  cbn [lift bind]. unfold Http.with_TemporaryDirectory.
  rewrite run_bind. apply and_then_ext; intros td w1.
  rewrite run_try_finally.
  assert (forall w', run h
            (call (OsMakedirs (os_path_join td "out")) ;;
             success <- Http.convert_uploads td (os_path_join td "out") s e (f :: fs) 0 ;;
             Http.respond_batch (os_path_join td "out") success)%prog w'
          = and_then (run h (call (OsMakedirs (os_path_join td "out"))) w')
              (fun _ w2 =>
                 and_then (run h (Http.convert_uploads td (os_path_join td "out") s e
                                    (f :: fs) 0) w2)
                   (fun k w3 => run h (Http.respond_batch (os_path_join td "out") k) w3)))
    as Hbody.
  { intros w'. rewrite run_bind. apply and_then_ext; intros _ w2.
    now rewrite run_bind. }
  now rewrite Hbody.
Qed.

(** The next call of a program under [run]: name what it returned, or
    leave the case where it raised. *)
Tactic Notation "call_step" "as" ident(x) :=
  rewrite ?run_bind; rewrite run_one_call;
  destruct (answer h _ _) as [x|?];
  cbn [and_then and_finally result final trace].

(** Filling and sending the archive only lists the output directory and
    talks to the archive: it saves no upload and converts nothing. *)
Lemma zip_names_trace (zf : handle) (out_dir : string)
  (names : list string) (w : World) :
  Forall (fun ev => archive_step ev = true)
         (trace (run h (Http.zip_names zf out_dir names) w)).
Proof.
  revert w; induction names as [|name names IH]; intros w; [constructor|].
  cbn [Http.zip_names]. call_step as is_file; [|repeat constructor].
  constructor; [reflexivity|].
  rewrite run_bind. destruct is_file.
  - rewrite run_one_call.
    destruct (answer h _ _) as [?|?]; cbn [and_then result final trace];
      [|repeat constructor].
    constructor; [reflexivity | apply IH].
  - cbn [run and_then result final trace app]. apply IH.
Qed.

Lemma respond_batch_steps (out_dir : string) (k : nat) (w : World) :
  Forall (fun ev => archive_step ev = true)
         (trace (run h (Http.respond_batch out_dir k) w)).
Proof.
  unfold Http.respond_batch. destruct (k =? 0)%nat; [constructor|].
  call_step as zip_buffer; [|repeat constructor].
  constructor; [reflexivity|].
  rewrite run_bind.
  assert (forall w', Forall (fun ev => archive_step ev = true) (trace (run h
            (zf <- call (ZipFileOpen zip_buffer) ;;
             try_finally
               (names <- call (OsListdir out_dir) ;;
                Http.zip_names zf out_dir names)
               (call (ZipFileClose zf)))%prog w'))) as Hzip.
  { intros w'. call_step as zf; [|repeat constructor].
    constructor; [reflexivity|].
    rewrite run_try_finally, !run_one_call.
    cbn [and_finally trace]. apply Forall_app; split; [|repeat constructor].
    call_step as names; [|repeat constructor].
    constructor; [reflexivity | apply zip_names_trace]. }
  specialize (Hzip (world_after h BytesIO w)).
  destruct (run h _ (world_after h BytesIO w)) as [tz [[]|err] wz];
    cbn [and_then result final trace] in *.
  2:{ exact Hzip. }
  apply Forall_app; split; [exact Hzip|].
  call_step as sought; [|repeat constructor].
  constructor; [reflexivity|].
  call_step as sent; repeat constructor.
Qed.

Lemma pick_nothing {A B} (f : A -> option B) (l : list A) :
  Forall (fun x => f x = None) l -> pick f l = [].
Proof.
  induction 1 as [|x l Hx _ IH]; cbn; [reflexivity | now rewrite Hx].
Qed.

Lemma respond_batch_trace (out_dir : string) (k : nat) (w : World) :
  pick saved_upload (trace (run h (Http.respond_batch out_dir k) w)) = [] /\
  pick converted_pages (trace (run h (Http.respond_batch out_dir k) w)) = [].
Proof.
  pose proof (respond_batch_steps out_dir k w) as Hs.
  split; apply pick_nothing; eapply Forall_impl; [|exact Hs| |exact Hs];
    intros ev Hev; destruct ev as [X o res|out]; try discriminate;
    destruct o; try discriminate; reflexivity.
Qed.


(** The pages the HTTP handlers hand to the library never start below
    zero. *)
Lemma convert_batch_pages (r : Http.request) (w : World) :
  Forall (fun p => 0 <= fst p)
         (pick converted_pages (trace (run h (Http.convert_batch r) w))).
Proof.
  destruct (Http.files_pdfs r) as [|f fs] eqn:Hf.
  { unfold Http.convert_batch. rewrite Hf. constructor. }
  destruct (app_start_nonneg (Http.form_get_range r)) as (s & e & Hp & Hs).
  rewrite (run_convert_batch r w s e) by congruence.
  rewrite Hf, run_one_call.
  destruct (answer h TemporaryDirectory w) as [td|err];
    cbn [and_then result final trace]; [|constructor].
  set (out_dir := os_path_join td "out").
  rewrite !run_one_call.
  destruct (answer h (OsMakedirs out_dir) _) as [[]|err];
    cbn [and_then and_finally result final trace]; [|constructor].
  destruct (convert_uploads_trace td out_dir s e (f :: fs) 0
              (world_after h (OsMakedirs out_dir)
                 (world_after h TemporaryDirectory w)))
    as (_ & _ & Lq & _).
  apply (Forall_impl (fun p : Z * option Z => 0 <= fst p)) in Lq;
    [|intros p ->; exact Hs].
  destruct (run h (Http.convert_uploads td out_dir s e (f :: fs) 0) _)
    as [tl [k|err] wl]; cbn [and_then and_finally result final trace] in *.
  - cbn [pick converted_pages app].
    rewrite !pick_app, (proj2 (respond_batch_trace _ _ _)). cbn.
    now rewrite !app_nil_r.
  - cbn [pick converted_pages app]. rewrite !pick_app. cbn.
    now rewrite !app_nil_r.
Qed.

Lemma convert_single_pages (r : Http.request) (w : World) :
  Forall (fun p => 0 <= fst p)
         (pick converted_pages (trace (run h (Http.convert_single r) w))).
Proof.
  unfold Http.convert_single.
  destruct (Http.files_pdf r) as [file|]; [|constructor].
  destruct (negb _); [constructor|].
  destruct (app_start_nonneg (Http.form_get_range r)) as (s & e & Hp & Hs).
  rewrite Hp. cbn [lift bind].
  unfold Http.with_TemporaryDirectory, Pdf.convert_single_file.
  exec; repeat constructor; exact Hs.
Qed.

(* ===================================================================== *)
(** * The overwrite decision of [batch_convert] *)

(** After the answer [s] (or [skip]) to the prompt the loop is left: no
    further file is prompted for or handed to the library. *)
Lemma batch_loop_skip_all
  (output_dir : string) (total : nat) (pdf_file : string)
  (rest : list string) (i n : nat) (w : World) (response : string) :
  let docx_file := path_join output_dir (path_stem pdf_file ++ ".docx") in
  h _ (OsPathExists docx_file) w = (Returned true, w) ->
  answer h (Input (AskOverwrite (path_name docx_file))) w = Returned response ->
  PyStr.mem (PyStr.lower response) ["n"; "no"] = false ->
  PyStr.mem (PyStr.lower response) ["s"; "skip"] = true ->
  let r := run h (Pdf.batch_loop output_dir total (pdf_file :: rest) i n) w in
  result r = Returned n /\
  pick overwrite_prompt (trace r) = [path_name docx_file] /\
  pick opened_source (trace r) = [].
Proof.
  intros docx_file Hex Hin Hn Hs r; subst r docx_file.
  cbn [Pdf.batch_loop]. cbn [bind log call].
  rewrite run_emit, run_call. unfold answer, world_after in *. rewrite Hex.
  cbn [fst snd lift bind]. rewrite run_call. unfold answer, world_after.
  destruct (h string _ w) as [res w1]. cbn [fst snd] in *. subst res.
  cbn [lift bind]. rewrite Hn, Hs.
  cbn. repeat split.
Qed.

(** The answers [a] and [all] take the same branch as [y]: the file at
    hand is converted and the loop goes on with the rest, where it asks
    again. *)
Lemma batch_loop_overwrite
  (output_dir : string) (total : nat) (pdf_file : string)
  (rest : list string) (i n : nat) (w w1 : World) (response : string) :
  let docx_file := path_join output_dir (path_stem pdf_file ++ ".docx") in
  h _ (OsPathExists docx_file) w = (Returned true, w) ->
  h _ (Input (AskOverwrite (path_name docx_file))) w = (Returned response, w1) ->
  PyStr.mem (PyStr.lower response) ["n"; "no"] = false ->
  PyStr.mem (PyStr.lower response) ["s"; "skip"] = false ->
  run h (Pdf.batch_loop output_dir total (pdf_file :: rest) i n) w =
  after (Put (LogLine INFO (ProcessingFile i total (path_name pdf_file))))
    (after (Called (OsPathExists docx_file) (Returned true))
       (after (Called (Input (AskOverwrite (path_name docx_file))) (Returned response))
          (and_then (run h (Pdf.convert_single_file pdf_file docx_file 0 None) w1)
             (fun ok w2 =>
                let n' := if ok : bool then S n else n in
                after (Put (LogLine INFO (ProgressReport i total n')))
                  (run h (Pdf.batch_loop output_dir total rest (S i) n') w2))))).
Proof.
  intros docx_file Hex Hin Hn Hs; subst docx_file.
  cbn [Pdf.batch_loop]. cbn [bind log call].
  rewrite run_emit, run_call. unfold answer, world_after. rewrite Hex.
  cbn [fst snd lift bind]. rewrite run_call. unfold answer, world_after.
  rewrite Hin. cbn [fst snd lift bind]. rewrite Hn, Hs.
  do 3 f_equal.
  assert (forall p : prog nat,
            (if PyStr.mem (PyStr.lower response) ["a"; "all"] then p else p) = p)
    as Hsame.
  { intros p. destruct (PyStr.mem (PyStr.lower response) ["a"; "all"]); reflexivity. }
  rewrite Hsame, run_bind. apply and_then_ext; intros ok w2.
  reflexivity.
Qed.

End Adapter.

(* ===================================================================== *)
(** * The statements on a closed world *)

Section ToyWorld.

Lemma toy_getsize_contract : getsize_contract Toy.handle_op.
Proof.
  intros p w. unfold answer, world_after; cbn.
  intros [= ->]. now exists 2048.
Qed.

Lemma toy_absent_after_del (p : string) (l : list string) :
  PyStr.mem p (filter (fun q => negb (String.eqb q p)) l) = false.
Proof.
  induction l as [|q l IH]; cbn; [reflexivity|].
  destruct (String.eqb_spec q p) as [->|Hne]; cbn; [exact IH|].
  destruct (String.eqb_spec p q) as [->|_]; [congruence | exact IH].
Qed.

Lemma toy_remove_contract : remove_contract Toy.handle_op.
Proof.
  intros p w. unfold answer, world_after. cbn [Toy.handle_op fst snd].
  destruct (Toy.present p w) eqn:E; cbn [fst snd].
  - f_equal. unfold Toy.present, Toy.del; cbn [Toy.paths].
    apply toy_absent_after_del.
  - now rewrite E.
Qed.

End ToyWorld.

Lemma convert_single_file_result_witness :
  getsize_contract Toy.handle_op /\
  result (run Toy.handle_op
            (Pdf.convert_single_file "in/a.pdf" "out/a.docx" 0 None)
            (Toy.mkWorld ["in/a.pdf"; "in"] [] [] true)) = Returned true /\
  result (run Toy.handle_op
            (Pdf.convert_single_file "in/a.pdf" "out/a.docx" 0 None)
            (Toy.mkWorld ["in/a.pdf"; "in"] [] [] false)) = Returned false.
Proof.
  split; [exact toy_getsize_contract|]. split.
  - apply (proj1 (proj2 (convert_single_file_result Toy.handle_op
             "in/a.pdf" "out/a.docx" 0 None
             (Toy.mkWorld ["in/a.pdf"; "in"] [] [] true) toy_getsize_contract))).
    do 4 eexists. split; [reflexivity|]. split; reflexivity.
  - eapply (proj2 (proj2 (convert_single_file_result Toy.handle_op
             "in/a.pdf" "out/a.docx" 0 None
             (Toy.mkWorld ["in/a.pdf"; "in"] [] [] false) toy_getsize_contract)));
      reflexivity.
Defined.

Lemma convert_single_file_missing_source_witness :
  let r := run Toy.handle_op
             (Pdf.convert_single_file "missing.pdf" "out/a.docx" 0 None)
             (Toy.mkWorld ["in"] [] [] true) in
  result r = Returned false /\
  final r = Toy.mkWorld ["in"] [] [] true /\
  Forall (fun ev => invokes_converter ev = false /\ makes_directory ev = false)
         (trace r).
Proof.
  apply (convert_single_file_missing_source Toy.handle_op
           "missing.pdf" "out/a.docx" 0 None (Toy.mkWorld ["in"] [] [] true));
    reflexivity.
Defined.

Lemma pdf_info_removes_temp_witness :
  (let rr := run Toy.handle_op
               (Http.pdf_info (Http.mkRequest (Some (mkUpload "a.pdf" "%PDF")) [] None))
               (Toy.mkWorld [] [] [] true) in
   (exists i, result rr = Returned (Http.Jsonify 200 (Http.Data i))) /\
   answer Toy.handle_op (OsPathExists "/tmp/upload.pdf") (final rr) = Returned false) /\
  (let rr := run Toy.handle_op
               (Http.pdf_info (Http.mkRequest (Some (mkUpload "a.pdf" "junk")) [] None))
               (Toy.mkWorld [] [] [] false) in
   result rr = Returned (Http.Jsonify 500 (Http.Failure Http.InfoUnavailable)) /\
   answer Toy.handle_op (OsPathExists "/tmp/upload.pdf") (final rr) = Returned false).
Proof.
  split.
  - destruct (pdf_info_removes_temp Toy.handle_op
                (Http.mkRequest (Some (mkUpload "a.pdf" "%PDF")) [] None)
                (mkUpload "a.pdf" "%PDF") "/tmp/upload.pdf"
                (Toy.mkWorld [] [] [] true) _ _
                toy_remove_contract eq_refl eq_refl eq_refl)
      as ((info & Hg & Hr) & _ & _ & Hgone).
    split; [|exact Hgone].
    vm_compute in Hg. injection Hg as <-. eexists. exact Hr.
  - destruct (pdf_info_removes_temp Toy.handle_op
                (Http.mkRequest (Some (mkUpload "a.pdf" "junk")) [] None)
                (mkUpload "a.pdf" "junk") "/tmp/upload.pdf"
                (Toy.mkWorld [] [] [] false) _ _
                toy_remove_contract eq_refl eq_refl eq_refl)
      as ((info & Hg & Hr) & _ & _ & Hgone).
    split; [|exact Hgone].
    vm_compute in Hg. injection Hg as <-. exact Hr.
Defined.


(** C1 (the interactive side): on the line [5-x], and on [5-], the left
    number is assigned to [start_page] before the right part fails to
    parse, and the handler of the interactive parser only prints that all
    pages will be converted: the pair handed on is [(4, None)], not the
    whole-document pair [(0, None)] that [parse_page_range] returns for
    the same text.  In a run of [_interactive_single_convert] the warning
    is printed and the library is asked for the pages from 4 on. *)
Theorem cli_partial_range_keeps_start :
  Cli.interactive_page_range "5-x" = Returned (4, None) /\
  Cli.interactive_page_range "5-" = Returned (4, None) /\
  App.parse_page_range "5-x" = Returned (0, None) /\
  App.parse_page_range "5-" = Returned (0, None) /\
  let r := run Toy.handle_op Pdf._interactive_single_convert
             (Toy.mkWorld ["in/a.pdf"; "in"] ["in/a.pdf"; ""; "5-x"] [] true) in
  pick printed_line (trace r) = [InvalidRangeAllPages; ConversionDone "in/a.docx"] /\
  pick converted_pages (trace r) = [(4, None)].
Proof.
  split; [reflexivity|]. split; [reflexivity|]. split; [reflexivity|].
  split; [reflexivity|]. split; reflexivity.
Qed.

(** C5 (the answer [a]): two files whose outputs both exist, and an
    operator who answers [a] to the first prompt.  The loop asks again for
    the second file; with the answer [n] there, the second output is not
    overwritten.  With no further answer the second prompt fails, so it
    was issued.  After the answer [s] nothing more is asked or
    converted. *)
Theorem overwrite_all_asks_again :
  let files := ["in"; "in/a.pdf"; "in/b.pdf";
                "in_converted/a.docx"; "in_converted/b.docx"] in
  let found := ["in/a.pdf"; "in/b.pdf"] in
  let batch := Pdf.batch_convert "in" None "*.pdf" in
  let r1 := run Toy.handle_op batch (Toy.mkWorld files ["a"; "n"] found true) in
  let r2 := run Toy.handle_op batch (Toy.mkWorld files ["a"] found true) in
  let r3 := run Toy.handle_op batch (Toy.mkWorld files ["s"] found true) in
  (pick overwrite_prompt (trace r1) = ["a.docx"; "b.docx"] /\
   pick opened_source (trace r1) = ["in/a.pdf"] /\
   result r1 = Returned (1%nat, 2%nat)) /\
  (pick overwrite_prompt (trace r2) = ["a.docx"; "b.docx"] /\
   result r2 = Raised EOFError) /\
  (pick overwrite_prompt (trace r3) = ["a.docx"] /\
   pick opened_source (trace r3) = [] /\
   result r3 = Returned (0%nat, 2%nat)).
Proof.
  split; [|split].
  - split; [reflexivity|]. split; reflexivity.
  - split; reflexivity.
  - split; [reflexivity|]. split; reflexivity.
Qed.

(** C10: on every text the parser returns a pair whose start page is not
    negative; so is it for [0-5] and [-2-5]; and in every run of the two
    converting handlers, whatever the collaborators do, the pages handed
    to the library start at zero or above. *)
Theorem parse_page_range_start_nonneg :
  (forall page_range : string,
     exists st en, App.parse_page_range page_range = Returned (st, en) /\ 0 <= st) /\
  App.parse_page_range "0-5" = Returned (0, Some 5) /\
  App.parse_page_range "-2-5" = Returned (0, None) /\
  (forall (World : Type) (h : handler World) (P : Platform)
          (r : Http.request) (w : World),
     Forall (fun p => 0 <= fst p)
            (pick converted_pages (trace (run h (Http.convert_single r) w))) /\
     Forall (fun p => 0 <= fst p)
            (pick converted_pages (trace (run h (Http.convert_batch r) w)))).
Proof.
  split; [exact app_start_nonneg|].
  split; [reflexivity|]. split; [reflexivity|].
  intros World h P r w. split.
  - apply convert_single_pages.
  - apply convert_batch_pages.
Qed.

(* ===================================================================== *)
(** * Beyond the claims: the two parsers *)

Section ParserExtras.

Lemma lstrip_fixed (s : string) :
  PyStr.lstrip (PyStr.lstrip s) = PyStr.lstrip s.
Proof.
  induction s as [|c s IH]; cbn; [reflexivity|].
  destruct (PyStr.isspace c) eqn:E; [exact IH|]. cbn. now rewrite E.
Qed.

Lemma rstrip_fixed (s : string) :
  PyStr.rstrip (PyStr.rstrip s) = PyStr.rstrip s.
Proof.
  induction s as [|c s IH]; cbn; [reflexivity|].
  destruct (PyStr.rstrip s) as [|d r] eqn:E.
  - destruct (PyStr.isspace c) eqn:Ec; cbn; [reflexivity | now rewrite Ec].
  - change (PyStr.rstrip (String c (String d r)))
      with (match PyStr.rstrip (String d r) with
            | EmptyString =>
                if PyStr.isspace c then EmptyString else String c EmptyString
            | String x y => String c (String x y)
            end).
    now rewrite IH.
Qed.

(** Stripping on the right leaves a first character that is no blank
    where it is. *)
Lemma lstrip_rstrip (s : string) :
  PyStr.lstrip s = s -> PyStr.lstrip (PyStr.rstrip s) = PyStr.rstrip s.
Proof.
  destruct s as [|c s]; [reflexivity|]. cbn.
  destruct (PyStr.isspace c) eqn:E.
  - intros Hl. exfalso.
    assert (String.length (PyStr.lstrip s) <= String.length s)%nat as Hlen.
    { clear. induction s as [|d s IH]; cbn; [lia|].
      destruct (PyStr.isspace d); cbn; lia. }
    rewrite Hl in Hlen. cbn in Hlen. lia.
  - intros _. destruct (PyStr.rstrip s); cbn; now rewrite E.
Qed.

Lemma strip_fixed (s : string) : PyStr.strip (PyStr.strip s) = PyStr.strip s.
Proof.
  unfold PyStr.strip.
  rewrite (lstrip_rstrip (PyStr.lstrip s) (lstrip_fixed s)).
  apply rstrip_fixed.
Qed.

Lemma int_empty : exists msg, PyInt.int "" = Raised (ValueError msg).
Proof. eexists; reflexivity. Qed.

(** X1: both parsers ignore white space around the text: they compute on
    the stripped text what they compute on the text. *)
Theorem parsers_ignore_outer_space (text : string) :
  App.parse_page_range (PyStr.strip text) = App.parse_page_range text /\
  Cli.interactive_page_range (PyStr.strip text) = Cli.interactive_page_range text.
Proof.
  split.
  - destruct (dash_or_not (PyStr.strip text)) as [Hc | (a & b & Hs & Hc)].
    + rewrite (app_single_case text Hc), app_single_case;
        rewrite strip_fixed; [reflexivity | exact Hc].
    + rewrite (app_range_case text a b Hs Hc).
      apply app_range_case; now rewrite strip_fixed.
  - unfold Cli.interactive_page_range. now rewrite strip_fixed.
Qed.

(** X2: [parse_page_range] never returns a partial range: when the end
    is unbounded the start is 0, whatever part of the text was a
    number. *)
Theorem parse_page_range_unbounded_is_whole (text : string) (st : Z) :
  App.parse_page_range text = Returned (st, None) -> st = 0.
Proof.
  destruct (dash_or_not (PyStr.strip text)) as [Hc | (a & b & Hs & Hc)].
  - rewrite (app_single_case _ Hc).
    destruct (PyInt.int _); intros [= <-]; reflexivity.
  - rewrite (app_range_case _ a b Hs Hc).
    destruct (PyInt.int a); [destruct (PyInt.int b)|]; intros [= <-]; reflexivity.
Qed.

Lemma parse_page_range_unbounded_is_whole_witness :
  App.parse_page_range "7-x" = Returned (0, None) /\ 0 = 0.
Proof.
  split; [reflexivity|].
  apply (parse_page_range_unbounded_is_whole "7-x" 0). reflexivity.
Defined.

Lemma digit_value_nonneg (c : ascii) :
  PyInt.is_digit c = true -> 0 <= PyInt.digit_value c.
Proof.
  intros H; apply digit_code in H. unfold PyInt.digit_value. lia.
Qed.

Lemma scan_nonneg (s : string) (p : bool) (acc v : Z) (rest : string) :
  PyInt.scan s p acc = Some (v, rest) -> 0 <= acc -> 0 <= v.
Proof.
  revert p acc; induction s as [|c s IH]; intros p acc; cbn [PyInt.scan].
  - destruct p; [discriminate|]. intros [= <- _]. auto.
  - destruct (PyInt.is_digit c) eqn:Ed.
    + intros Hs Ha. apply (IH _ _ Hs).
      pose proof (digit_value_nonneg c Ed). lia.
    + destruct (Ascii.eqb c "_").
      * destruct p; [discriminate|]. intros Hs Ha. now apply (IH _ _ Hs).
      * destruct p; [discriminate|]. intros [= <- _]. auto.
Qed.

Lemma magnitude_nonneg (s : string) (v : Z) (rest : string) :
  PyInt.magnitude s = Some (v, rest) -> 0 <= v.
Proof.
  destruct s as [|c s]; cbn [PyInt.magnitude]; [discriminate|].
  destruct (PyInt.is_digit c) eqn:Ed; [|discriminate].
  intros Hs. apply (scan_nonneg _ _ _ _ _ Hs). now apply digit_value_nonneg.
Qed.

Lemma skip_space_contains (ch : ascii) (s : string) :
  PyStr.contains ch s = false -> PyStr.contains ch (PyInt.skip_space s) = false.
Proof.
  induction s as [|c s IH]; cbn; [auto|].
  destruct (Ascii.eqb c ch) eqn:E; [discriminate|].
  intros H. destruct (PyInt.int_space c); [now apply IH|].
  cbn. now rewrite E.
Qed.

(** A text without a minus sign is no negative number. *)
Lemma int_nonneg (s : string) (n : Z) :
  PyStr.contains "-" s = false -> PyInt.int s = Returned n -> 0 <= n.
Proof.
  intros Hc. apply (skip_space_contains "-") in Hc.
  unfold PyInt.int, PyInt.signed.
  destruct (PyInt.skip_space s) as [|c r]; [discriminate|].
  cbn in Hc. destruct (Ascii.eqb c "-") eqn:Em; [discriminate|].
  destruct (Ascii.eqb c "+").
  - destruct (PyInt.magnitude r) as [[v rest]|] eqn:M; [|discriminate].
    destruct (PyInt.skip_space rest); [|discriminate].
    destruct (_ <? _); [discriminate|].
    intros [= <-]. now apply magnitude_nonneg in M.
  - destruct (PyInt.magnitude (String c r)) as [[v rest]|] eqn:M; [|discriminate].
    destruct (PyInt.skip_space rest); [|discriminate].
    destruct (_ <? _); [discriminate|].
    intros [= <-]. now apply magnitude_nonneg in M.
Qed.

(** X3: the interactive parser returns on every line, without raising,
    and the start page it hands on is never below -1. *)
Theorem cli_start_at_least_minus_one (line : string) :
  exists st en, Cli.interactive_page_range line = Returned (st, en) /\ -1 <= st.
Proof.
  destruct (dash_or_not (PyStr.strip line)) as [Hc | (a & b & Hs & Hc)].
  - rewrite (cli_single_case _ Hc).
    destruct (PyInt.int _) as [n|] eqn:E; do 2 eexists; (split; [reflexivity|]);
      [|lia].
    apply (int_nonneg _ _ Hc) in E. lia.
  - rewrite (cli_range_case _ a b Hs Hc).
    destruct (split1_contains _ _ Hc) as (a' & b' & Hs' & _ & Ha).
    rewrite Hs in Hs'; injection Hs' as <- <-.
    destruct (PyStr.contains "-" b); [do 2 eexists; split; [reflexivity | lia]|].
    destruct (PyInt.int a) as [ia|] eqn:Ea;
      [destruct (PyInt.int b) as [ib|]|];
      do 2 eexists; (split; [reflexivity|]); try lia;
      apply (int_nonneg _ _ Ha) in Ea; lia.
Qed.

(** X4: a line with two dashes or more is never a range for the
    interactive parser: the whole document is converted. *)
Theorem cli_two_dashes_whole_document (line : string) :
  (2 < length (PyStr.split "-" (PyStr.strip line)))%nat ->
  Cli.interactive_page_range line = Returned (0, None).
Proof.
  intros Hlen.
  destruct (dash_or_not (PyStr.strip line)) as [Hc | (a & b & Hs & Hc)].
  - rewrite (split_absent _ _ Hc) in Hlen. cbn in Hlen. lia.
  - rewrite (cli_range_case _ a b Hs Hc).
    destruct (split1_contains _ _ Hc) as (a' & b' & Hs' & Heq & Ha).
    rewrite Hs in Hs'; injection Hs' as <- <-.
    rewrite Heq, (split_at _ _ _ Ha) in Hlen.
    destruct (PyStr.contains "-" b) eqn:Hb; [reflexivity|].
    rewrite (split_absent _ _ Hb) in Hlen. cbn in Hlen. lia.
Qed.

Lemma cli_two_dashes_whole_document_witness :
  (2 < length (PyStr.split "-" (PyStr.strip "3-4-5")))%nat /\
  Cli.interactive_page_range "3-4-5" = Returned (0, None).
Proof.
  split; [cbn; lia|].
  apply (cli_two_dashes_whole_document "3-4-5"). cbn. lia.
Defined.

End ParserExtras.

(* ===================================================================== *)
(** * Beyond the claims: the conversion adapter *)

Section AdapterExtras.
Context {World : Type} (h : handler World) `{Platform}.

(** Symbolic execution, as before: the next call, split on what it did. *)
Ltac exec :=
  cbn;
  repeat (match goal with
          | |- context [h ?X ?o ?w] =>
              is_var w; destruct (h X o w) as [[?|?] ?] eqn:?
          | |- context [if negb ?b then _ else _] => destruct b eqn:?
          | |- context [if ?b then _ else _] => destruct b eqn:?
          end; cbn).

Ltac leaf :=
  intros;
  repeat match goal with
         | |- _ /\ _ => split
         | |- _ <-> _ => split
         end;
  intros; try reflexivity; try discriminate; try lia;
  try (left; reflexivity); try (right; reflexivity).

(** What else a run of [convert_single_file] leaves in the trace. *)
Lemma convert_single_file_facts
  (pdf_path docx_path : string) (s : Z) (e : option Z) (w : World) :
  let r := run h (Pdf.convert_single_file pdf_path docx_path s e) w in
  exists b, result r = Returned b /\
            count succeeded (trace r) = (if b : bool then 1 else 0)%nat /\
            (pick opened_source (trace r) = [] \/
             pick opened_source (trace r) = [pdf_path]) /\
            existsb asks (trace r) = false /\
            pick overwrite_prompt (trace r) = [] /\
            pick zip_written (trace r) = [] /\
            pick globbed (trace r) = [] /\
            existsb removes (trace r) = false.
Proof.
  unfold Pdf.convert_single_file.
  exec; eexists; repeat split; auto.
Qed.

(** X5: the line of success is logged exactly when [convert_single_file]
    returns [True]; the library is opened at most once, on the source;
    and it is asked for the destination and the pages the caller gave,
    unchanged. *)
Theorem convert_single_file_observations
  (pdf_path docx_path : string) (s : Z) (e : option Z) (w : World) :
  let r := run h (Pdf.convert_single_file pdf_path docx_path s e) w in
  (result r = Returned true <-> count succeeded (trace r) = 1%nat) /\
  (pick opened_source (trace r) = [] \/
   pick opened_source (trace r) = [pdf_path]) /\
  (pick converted_pages (trace r) = [] \/
   pick converted_pages (trace r) = [(s, e)]) /\
  (pick converted_target (trace r) = [] \/
   pick converted_target (trace r) = [docx_path]).
Proof.
  unfold Pdf.convert_single_file.
  exec; leaf.
Qed.

(** X6: the directory of the destination is created at most once, and
    only when the destination has a directory part and the check of that
    directory answered that it does not exist. *)
Theorem convert_single_file_makes_missing_directory
  (pdf_path docx_path : string) (s : Z) (e : option Z) (w : World) :
  let r := run h (Pdf.convert_single_file pdf_path docx_path s e) w in
  let output_dir := os_path_dirname docx_path in
  pick made_dir (trace r) = [] \/
  (pick made_dir (trace r) = [output_dir] /\
   PyStr.truthy output_dir = true /\
   existsb (found_missing output_dir) (trace r) = true).
Proof.
  unfold Pdf.convert_single_file.
  exec; try (left; reflexivity);
    right; rewrite ?String.eqb_refl, ?orb_true_r; repeat split; auto.
Qed.

(** X7: the converter is closed only after [convert] has returned: when
    opening the source or converting raises, [close] is never called and
    the result is [False]. *)
Theorem convert_single_file_no_close_after_failure
  (pdf_path docx_path : string) (s : Z) (e : option Z) (w : World) :
  let r := run h (Pdf.convert_single_file pdf_path docx_path s e) w in
  existsb open_raised (trace r) || existsb convert_raised (trace r) = true ->
  existsb converter_closed (trace r) = false /\ result r = Returned false.
Proof.
  unfold Pdf.convert_single_file.
  exec; leaf.
Qed.

(** X8: [get_pdf_info] returns on every call.  It gives [None] exactly
    when it logged an error, which it does at most once, and exactly when
    [doc.close()] did not return: after a failure the document that was
    opened is not closed. *)
Theorem get_pdf_info_outcome (pdf_path : string) (w : World) :
  let r := run h (Pdf.get_pdf_info pdf_path) w in
  exists info, result r = Returned info /\
    (info = None <-> count error_logged (trace r) = 1%nat) /\
    (info <> None <-> count error_logged (trace r) = 0%nat) /\
    (info = None <-> existsb doc_closed (trace r) = false).
Proof.
  unfold Pdf.get_pdf_info.
  exec; eexists; leaf; congruence.
Qed.

(* ===================================================================== *)
(** * Beyond the claims: [batch_convert] *)

Lemma subseq_nil_l {A} (l : list A) : subseq [] l.
Proof. induction l; constructor; assumption. Qed.

Lemma subseq_refl {A} (l : list A) : subseq l l.
Proof. induction l; constructor; assumption. Qed.

Lemma subseq_length {A} (l1 l2 : list A) :
  subseq l1 l2 -> (length l1 <= length l2)%nat.
Proof. induction 1; cbn; lia. Qed.

(** One turn of the loop, by what the existence check and the operator
    answer. *)
Lemma run_batch_loop_cons
  (output_dir : string) (total : nat) (pdf_file : string)
  (rest : list string) (i n : nat) (w : World) :
  let docx_file := batch_output output_dir pdf_file in
  let ex := answer h (OsPathExists docx_file) w in
  let w1 := world_after h (OsPathExists docx_file) w in
  let ask := Input (AskOverwrite (path_name docx_file)) in
  run h (Pdf.batch_loop output_dir total (pdf_file :: rest) i n) w =
  after (Put (LogLine INFO (ProcessingFile i total (path_name pdf_file))))
    (after (Called (OsPathExists docx_file) ex)
       match ex with
       | Raised err => mkRun [] (Raised err) w1
       | Returned false => converts_then h output_dir total pdf_file rest i n w1
       | Returned true =>
           after (Called ask (answer h ask w1))
             match answer h ask w1 with
             | Raised err => mkRun [] (Raised err) (world_after h ask w1)
             | Returned response =>
                 if PyStr.mem (PyStr.lower response) ["n"; "no"] then
                   after (Put (LogLine INFO (SkippedFile (path_name pdf_file))))
                     (run h (Pdf.batch_loop output_dir total rest (S i) n)
                        (world_after h ask w1))
                 else if PyStr.mem (PyStr.lower response) ["s"; "skip"] then
                   after (Put (LogLine INFO SkippingAll))
                     (mkRun [] (Returned n) (world_after h ask w1))
                 else converts_then h output_dir total pdf_file rest i n
                        (world_after h ask w1)
             end
       end).
Proof.
  intros docx_file ex w1 ask; subst docx_file ex w1 ask.
  assert (forall w',
            run h (ok <- Pdf.convert_single_file pdf_file
                           (batch_output output_dir pdf_file) 0 None ;;
                   log INFO (ProgressReport i total (if ok : bool then S n else n)) ;;
                   Pdf.batch_loop output_dir total rest (S i)
                     (if ok : bool then S n else n))%prog w'
            = converts_then h output_dir total pdf_file rest i n w') as Hconv.
  { intros w'. unfold converts_then. rewrite run_bind.
    apply and_then_ext; intros ok w2. reflexivity. }
  cbn [Pdf.batch_loop]. cbn [bind log call].
  rewrite run_emit, run_call. f_equal. f_equal.
  fold (batch_output output_dir pdf_file).
  destruct (answer h (OsPathExists (batch_output output_dir pdf_file)) w)
    as [[|]|err]; cbn [lift bind].
  - rewrite run_call. f_equal.
    destruct (answer h _ _) as [response|err]; cbn [lift bind]; [|reflexivity].
    destruct (PyStr.mem (PyStr.lower response) ["n"; "no"]); [reflexivity|].
    destruct (PyStr.mem (PyStr.lower response) ["s"; "skip"]); [reflexivity|].
    destruct (PyStr.mem (PyStr.lower response) ["a"; "all"]); apply Hconv.
  - apply Hconv.
  - reflexivity.
Qed.

Ltac stop_facts :=
  repeat split;
  try (constructor; apply subseq_nil_l); try apply subseq_nil_l;
  try lia; try discriminate; try (intros ? [= <-]; lia).

(** What a run of the loop leaves in the trace. *)
Lemma batch_loop_facts
  (output_dir : string) (total : nat) (files : list string)
  (i n : nat) (w : World) :
  let r := run h (Pdf.batch_loop output_dir total files i n) w in
  pick globbed (trace r) = [] /\
  subseq (pick opened_source (trace r)) files /\
  subseq (pick overwrite_prompt (trace r))
         (map (fun f => path_name (batch_output output_dir f)) files) /\
  (count succeeded (trace r) <= length files)%nat /\
  (forall k, result r = Returned k -> k = (n + count succeeded (trace r))%nat).
Proof.
  revert i n w; induction files as [|f rest IH]; intros i n w r; subst r.
  - cbn. repeat split; try constructor. intros k [= <-]. lia.
  - assert (forall n' w',
      let r := converts_then h output_dir total f rest i n' w' in
      pick globbed (trace r) = [] /\
      subseq (pick opened_source (trace r)) (f :: rest) /\
      subseq (pick overwrite_prompt (trace r))
             (map (fun f => path_name (batch_output output_dir f)) rest) /\
      (count succeeded (trace r) <= S (length rest))%nat /\
      (forall k, result r = Returned k ->
                 k = (n' + count succeeded (trace r))%nat)) as Hconv.
    { intros n' w' r; subst r. unfold converts_then.
      destruct (convert_single_file_facts f (batch_output output_dir f) 0 None w')
        as (b & Hb & Hc & Ho & _ & Hp & _ & Hg & _).
      destruct (run h (Pdf.convert_single_file _ _ 0 None) w') as [tc oc wc].
      cbn [result trace] in *. subst oc. cbn [and_then result final trace after].
      destruct (IH (S i) (if b then S n' else n') wc) as (Ig & Io & Ip & Ic & Ik).
      destruct (run h (Pdf.batch_loop _ _ rest _ _) wc) as [tl ol wl].
      cbn [result trace final] in *.
      change (Put ?o :: tl) with ([Put o] ++ tl)%list.
      rewrite !pick_app, !count_app, Hg, Hp, Hc, Ig. cbn [pick app count filter
        length succeeded globbed overwrite_prompt opened_source Nat.add].
      repeat split.
      - destruct Ho as [-> | ->]; cbn [app]; constructor; exact Io.
      - exact Ip.
      - destruct b; lia.
      - intros k Hk. rewrite (Ik k Hk). destruct b; lia. }
    rewrite run_batch_loop_cons. cbn zeta.
    cbn [after trace result final pick globbed opened_source overwrite_prompt
           map length].
    change (count succeeded (Put ?o :: Called ?c ?a :: ?l))
      with (count succeeded l).
    destruct (answer h (OsPathExists (batch_output output_dir f)) w)
      as [[|]|err].
    + cbn [after trace result final pick globbed opened_source overwrite_prompt].
      change (count succeeded (Called ?c ?a :: ?l)) with (count succeeded l).
      destruct (answer h (Input _) _) as [response|err].
      * destruct (PyStr.mem (PyStr.lower response) ["n"; "no"]).
        { destruct (IH (S i) n (world_after h
                     (Input (AskOverwrite (path_name (batch_output output_dir f))))
                     (world_after h (OsPathExists (batch_output output_dir f)) w)))
            as (Ig & Io & Ip & Ic & Ik).
          cbn [after trace result final pick globbed opened_source overwrite_prompt].
          change (count succeeded (Put ?o :: ?l)) with (count succeeded l).
          repeat split; try assumption; try (constructor; assumption); try lia. }
        destruct (PyStr.mem (PyStr.lower response) ["s"; "skip"]).
        { cbn. stop_facts. }
        destruct (Hconv n (world_after h
                     (Input (AskOverwrite (path_name (batch_output output_dir f))))
                     (world_after h (OsPathExists (batch_output output_dir f)) w)))
          as (Cg & Co & Cp & Cc & Ck).
        repeat split; try assumption. constructor; assumption.
      * cbn. stop_facts.
    + destruct (Hconv n (world_after h (OsPathExists (batch_output output_dir f)) w))
        as (Cg & Co & Cp & Cc & Ck).
      repeat split; try assumption. constructor; assumption.
    + cbn. stop_facts.
Qed.

Ltac by_result :=
  repeat split; intros; try discriminate;
  try match goal with
      | Hr : Returned _ = Returned _ |- _ => injection Hr; intros; subst
      end;
  try reflexivity; try lia.

Tactic Notation "next_call" "as" ident(x) :=
  rewrite ?run_bind; rewrite run_one_call;
  destruct (answer h _ _) as [x|?];
  cbn [and_then and_finally result final trace].

(** What a run of [batch_convert] leaves in the trace: either the
    directory was never listed and the counts are zero, or it was listed
    once and the loop ran over the listing. *)
Lemma batch_convert_facts
  (input_dir : string) (output_dir : option string) (file_pattern : string)
  (w : World) :
  let r := run h (Pdf.batch_convert input_dir output_dir file_pattern) w in
  let out := batch_output_dir input_dir output_dir in
  (pick globbed (trace r) = [] /\
   count succeeded (trace r) = 0%nat /\
   pick opened_source (trace r) = [] /\
   pick overwrite_prompt (trace r) = [] /\
   (forall s t, result r = Returned (s, t) -> s = 0%nat /\ t = 0%nat)) \/
  (exists l,
     pick globbed (trace r) = [l] /\
     subseq (pick opened_source (trace r)) l /\
     subseq (pick overwrite_prompt (trace r))
            (map (fun f => path_name (batch_output out f)) l) /\
     (count succeeded (trace r) <= length l)%nat /\
     (forall s t, result r = Returned (s, t) ->
                  t = length l /\ s = count succeeded (trace r))).
Proof.
  intros r out; subst r. unfold Pdf.batch_convert.
  fold (batch_output_dir input_dir output_dir). fold out.
  next_call as input_exists.
  2:{ left. cbn. by_result. }
  destruct input_exists; cbn [negb].
  2:{ left. cbn. by_result. }
  next_call as made.
  2:{ left. cbn. by_result. }
  next_call as pdf_files.
  2:{ left. cbn. by_result. }
  right. exists pdf_files.
  destruct pdf_files as [|f rest].
  { cbn. by_result; constructor. }
  cbn [bind log]. rewrite !run_emit, run_bind.
  destruct (batch_loop_facts out (length (f :: rest)) (f :: rest) 1 0
              (world_after h (PathGlob input_dir file_pattern)
                 (world_after h (PathMkdir out)
                    (world_after h (OsPathExists input_dir) w))))
    as (Lg & Lo & Lp & Lc & Lk).
  destruct (run h (Pdf.batch_loop out _ (f :: rest) 1 0) _) as [tl ol wl].
  cbn [result trace final] in *.
  cbn [after trace result final app pick globbed opened_source overwrite_prompt].
  change (count succeeded (Called ?a ?b :: Called ?c ?d :: Called ?e ?g
                             :: Put ?p :: Put ?q :: ?l))
    with (count succeeded l).
  destruct ol as [k|err]; cbn [and_then result final trace].
  - cbn [run after trace result final].
    rewrite !pick_app, !count_app, Lg. cbn. rewrite !app_nil_r, Nat.add_0_r.
    rewrite (Lk k eq_refl). by_result; assumption.
  - rewrite Lg. by_result; assumption.
Qed.

(** X9: when the input directory does not exist, [batch_convert] returns
    [(0, 0)] after logging one error: it creates no directory, lists
    nothing, asks nothing and converts nothing. *)
Theorem batch_convert_missing_input
  (input_dir : string) (output_dir : option string) (file_pattern : string)
  (w : World) :
  answer h (OsPathExists input_dir) w = Returned false ->
  let r := run h (Pdf.batch_convert input_dir output_dir file_pattern) w in
  result r = Returned (0%nat, 0%nat) /\
  trace r = [Called (OsPathExists input_dir) (Returned false);
             Put (LogLine ERROR (InputDirMissing input_dir))] /\
  final r = world_after h (OsPathExists input_dir) w.
Proof.
  intros Hex r; subst r. unfold Pdf.batch_convert.
  rewrite run_bind, run_one_call, Hex. cbn. repeat split.
Qed.

(** X10: when the listing of the input directory is empty,
    [batch_convert] returns [(0, 0)] with a warning, having converted
    nothing; the output directory (by default the input directory's name
    followed by [_converted]) has been created all the same, before the
    listing. *)
Theorem batch_convert_nothing_found
  (input_dir : string) (output_dir : option string) (file_pattern : string)
  (w : World) :
  let r := run h (Pdf.batch_convert input_dir output_dir file_pattern) w in
  pick globbed (trace r) = [[]] ->
  result r = Returned (0%nat, 0%nat) /\
  pick made_dir (trace r) = [batch_output_dir input_dir output_dir] /\
  pick opened_source (trace r) = [] /\
  existsb asks (trace r) = false.
Proof.
  intros r; subst r. unfold Pdf.batch_convert.
  fold (batch_output_dir input_dir output_dir).
  next_call as input_exists; [|discriminate].
  destruct input_exists; cbn [negb]; [|discriminate].
  next_call as made; [|discriminate].
  next_call as pdf_files; [|discriminate].
  destruct pdf_files as [|f rest]; [cbn; repeat split|].
  cbn [app pick globbed]. discriminate.
Qed.

(** X11: when [batch_convert] returns [(s, t)], [s] is the number of
    lines of success it logged, [s <= t], and [t] is the number of files
    listed (0 when the directory was never listed). *)
Theorem batch_convert_counts
  (input_dir : string) (output_dir : option string) (file_pattern : string)
  (w : World) (s t : nat) :
  let r := run h (Pdf.batch_convert input_dir output_dir file_pattern) w in
  result r = Returned (s, t) ->
  s = count succeeded (trace r) /\ (s <= t)%nat /\
  ((pick globbed (trace r) = [] /\ t = 0%nat) \/
   exists l, pick globbed (trace r) = [l] /\ t = length l).
Proof.
  intros r Hr; subst r.
  destruct (batch_convert_facts input_dir output_dir file_pattern w)
    as [(Hg & Hc & _ & _ & Hz) | (l & Hg & _ & _ & Hc & Hk)].
  - destruct (Hz s t Hr) as [-> ->]. rewrite Hc.
    repeat split; [lia|]. left. now split.
  - destruct (Hk s t Hr) as [-> ->].
    repeat split; [exact Hc|]. right. now exists l.
Qed.

(** X12: [batch_convert] works through the listing in order: the sources
    it hands to the library, and the outputs it asks the operator about,
    each appear in the order of the listing, each file at most once. *)
Theorem batch_convert_in_listing_order
  (input_dir : string) (output_dir : option string) (file_pattern : string)
  (w : World) (l : list string) :
  let r := run h (Pdf.batch_convert input_dir output_dir file_pattern) w in
  let out := batch_output_dir input_dir output_dir in
  pick globbed (trace r) = [l] ->
  subseq (pick opened_source (trace r)) l /\
  subseq (pick overwrite_prompt (trace r))
         (map (fun f => path_name (batch_output out f)) l).
Proof.
  intros r out Hl; subst r out.
  destruct (batch_convert_facts input_dir output_dir file_pattern w)
    as [(Hg & _) | (l' & Hg & Ho & Hp & _)].
  - rewrite Hg in Hl. discriminate.
  - rewrite Hg in Hl. injection Hl as ->. now split.
Qed.

Lemma prompts_checked_quiet (prev : option event) (tr : list event) :
  pick overwrite_prompt tr = [] -> prompts_checked prev tr = true.
Proof.
  revert prev; induction tr as [|ev tr IH]; intros prev; cbn; [reflexivity|].
  destruct (overwrite_prompt ev); [discriminate|]. intros Hq. now apply IH.
Qed.

Lemma prompts_checked_after_quiet (prev : option event) (t1 t2 : list event) :
  pick overwrite_prompt t1 = [] ->
  (forall p, prompts_checked p t2 = true) ->
  prompts_checked prev (t1 ++ t2) = true.
Proof.
  intros Hq Ht2. revert prev Hq; induction t1 as [|ev t1 IH]; intros prev; cbn.
  - intros _. apply Ht2.
  - destruct (overwrite_prompt ev); [discriminate|]. intros Hq. now apply IH.
Qed.

Lemma prompts_checked_then_quiet (prev : option event) (t1 t2 : list event) :
  prompts_checked prev t1 = true ->
  pick overwrite_prompt t2 = [] ->
  prompts_checked prev (t1 ++ t2) = true.
Proof.
  intros Ht1 Hq. revert prev Ht1; induction t1 as [|ev t1 IH]; intros prev; cbn.
  - intros _. now apply prompts_checked_quiet.
  - intros Hc. apply andb_true_iff in Hc as [-> Hc]. now apply IH.
Qed.

(** In a run of the loop, every prompt comes right after the check that
    found its output. *)
Lemma batch_loop_prompts_checked
  (output_dir : string) (total : nat) (files : list string)
  (i n : nat) (w : World) (prev : option event) :
  prompts_checked prev (trace (run h (Pdf.batch_loop output_dir total files i n) w))
  = true.
Proof.
  revert i n w prev; induction files as [|f rest IH]; intros i n w prev.
  - reflexivity.
  - assert (forall n' w' p,
              prompts_checked p
                (trace (converts_then h output_dir total f rest i n' w')) = true)
      as Hconv.
    { intros n' w' p. unfold converts_then.
      destruct (convert_single_file_facts f (batch_output output_dir f) 0 None w')
        as (b & Hb & _ & _ & _ & Hp & _).
      destruct (run h (Pdf.convert_single_file _ _ 0 None) w') as [tc oc wc].
      cbn [result trace] in *. subst oc. cbn [and_then result final trace after].
      apply prompts_checked_after_quiet; [exact Hp|].
      intros q. cbn. apply IH. }
    rewrite run_batch_loop_cons. cbn zeta.
    cbn [after trace prompts_checked overwrite_prompt andb].
    destruct (answer h (OsPathExists (batch_output output_dir f)) w)
      as [[|]|err].
    + cbn [after trace prompts_checked overwrite_prompt andb].
      rewrite String.eqb_refl. cbn [andb].
      destruct (answer h (Input _) _) as [response|err]; [|reflexivity].
      destruct (PyStr.mem (PyStr.lower response) ["n"; "no"]).
      { cbn [after trace prompts_checked overwrite_prompt andb]. apply IH. }
      destruct (PyStr.mem (PyStr.lower response) ["s"; "skip"]);
        [reflexivity | apply Hconv].
    + apply Hconv.
    + reflexivity.
Qed.

(** X13: [batch_convert] asks the operator about an output only right
    after an existence check has answered [True] for a path with the name
    the prompt shows: every prompt in a run directly follows such a
    check. *)
Theorem batch_convert_asks_only_after_check
  (input_dir : string) (output_dir : option string) (file_pattern : string)
  (w : World) :
  prompts_checked None
    (trace (run h (Pdf.batch_convert input_dir output_dir file_pattern) w)) = true.
Proof.
  unfold Pdf.batch_convert.
  fold (batch_output_dir input_dir output_dir).
  set (out := batch_output_dir input_dir output_dir).
  next_call as input_exists; [|reflexivity].
  destruct input_exists; cbn [negb]; [|reflexivity].
  next_call as made; [|reflexivity].
  next_call as pdf_files; [|reflexivity].
  destruct pdf_files as [|f rest]; [reflexivity|].
  cbn [bind log]. rewrite !run_emit, run_bind.
  pose proof (batch_loop_prompts_checked out (length (f :: rest)) (f :: rest) 1 0
                (world_after h (PathGlob input_dir file_pattern)
                   (world_after h (PathMkdir out)
                      (world_after h (OsPathExists input_dir) w)))
                (Some (Put (LogLine INFO (OutputDirReport out))))) as Lc.
  destruct (run h (Pdf.batch_loop out _ (f :: rest) 1 0) _) as [tl ol wl].
  cbn [result trace final] in *.
  cbn [after trace app prompts_checked overwrite_prompt andb].
  destruct ol as [k|err]; cbn [and_then result final trace run after].
  - apply prompts_checked_then_quiet; [exact Lc | reflexivity].
  - exact Lc.
Qed.

(** X14: the answer [s] (or [skip], in any case) to the prompt ends the
    loop at once: it returns the count reached so far, and after the
    prompt the run only logs that the remaining files are skipped; no
    file is opened, whatever is left in the listing. *)
Theorem batch_loop_skip_stops
  (output_dir : string) (total : nat) (pdf_file : string)
  (rest : list string) (i n : nat) (w : World) (response : string) :
  let docx_file := batch_output output_dir pdf_file in
  let ask := Input (AskOverwrite (path_name docx_file)) in
  let w1 := world_after h (OsPathExists docx_file) w in
  answer h (OsPathExists docx_file) w = Returned true ->
  answer h ask w1 = Returned response ->
  PyStr.mem (PyStr.lower response) ["n"; "no"] = false ->
  PyStr.mem (PyStr.lower response) ["s"; "skip"] = true ->
  let r := run h (Pdf.batch_loop output_dir total (pdf_file :: rest) i n) w in
  result r = Returned n /\
  final r = world_after h ask w1 /\
  trace r = [Put (LogLine INFO (ProcessingFile i total (path_name pdf_file)));
             Called (OsPathExists docx_file) (Returned true);
             Called ask (Returned response);
             Put (LogLine INFO SkippingAll)].
Proof.
  intros docx_file ask w1 Hex Hin Hn Hs r; subst docx_file ask w1 r.
  rewrite run_batch_loop_cons. cbn zeta. rewrite Hex, Hin, Hn, Hs.
  repeat split.
Qed.

(** X15: every other answer to the prompt ([y], [a], [all], the empty
    line, anything that is neither [n], [no], [s] nor [skip]) has one and
    the same effect: from the prompt on, the loop runs as it does for a
    file whose output does not exist.  The answer itself is not kept, so
    the next existing output is asked about again. *)
Theorem batch_loop_other_answers_convert
  (output_dir : string) (total : nat) (pdf_file : string)
  (rest : list string) (i n : nat) (w : World) (response : string) :
  let docx_file := batch_output output_dir pdf_file in
  let ask := Input (AskOverwrite (path_name docx_file)) in
  let w1 := world_after h (OsPathExists docx_file) w in
  answer h (OsPathExists docx_file) w = Returned true ->
  answer h ask w1 = Returned response ->
  PyStr.mem (PyStr.lower response) ["n"; "no"] = false ->
  PyStr.mem (PyStr.lower response) ["s"; "skip"] = false ->
  let r := run h (Pdf.batch_loop output_dir total (pdf_file :: rest) i n) w in
  let fresh := converts_then h output_dir total pdf_file rest i n
                 (world_after h ask w1) in
  result r = result fresh /\ final r = final fresh /\
  trace r = ([Put (LogLine INFO (ProcessingFile i total (path_name pdf_file)));
              Called (OsPathExists docx_file) (Returned true);
              Called ask (Returned response)] ++ trace fresh)%list.
Proof.
  intros docx_file ask w1 Hex Hin Hn Hs r fresh; subst docx_file ask w1 r fresh.
  rewrite run_batch_loop_cons. cbn zeta. rewrite Hex, Hin, Hn, Hs.
  repeat split.
Qed.

(** X16: the answer [n] (or [no], in any case) to the prompt skips the
    file at hand only: it is not converted, the count stays, and the loop
    goes on with the rest. *)
Theorem batch_loop_skip_one
  (output_dir : string) (total : nat) (pdf_file : string)
  (rest : list string) (i n : nat) (w : World) (response : string) :
  let docx_file := batch_output output_dir pdf_file in
  let ask := Input (AskOverwrite (path_name docx_file)) in
  let w1 := world_after h (OsPathExists docx_file) w in
  answer h (OsPathExists docx_file) w = Returned true ->
  answer h ask w1 = Returned response ->
  PyStr.mem (PyStr.lower response) ["n"; "no"] = true ->
  let r := run h (Pdf.batch_loop output_dir total (pdf_file :: rest) i n) w in
  let r' := run h (Pdf.batch_loop output_dir total rest (S i) n)
              (world_after h ask w1) in
  result r = result r' /\ final r = final r' /\
  pick opened_source (trace r) = pick opened_source (trace r') /\
  count succeeded (trace r) = count succeeded (trace r') /\
  pick overwrite_prompt (trace r)
  = (path_name docx_file :: pick overwrite_prompt (trace r'))%list.
Proof.
  intros docx_file ask w1 Hex Hin Hn r r'; subst docx_file ask w1 r r'.
  rewrite run_batch_loop_cons. cbn zeta. rewrite Hex, Hin, Hn.
  repeat split.
Qed.

(* ===================================================================== *)
(** * Beyond the claims: the interactive conversion *)

(** X17: when the path the operator types does not exist, the
    interactive conversion prints that the file was not found and stops:
    it asks for nothing more and converts nothing.  The path is the line
    typed, stripped of white space and then of double quotes. *)
Theorem interactive_single_convert_missing_file (w : World) (line : string) :
  let pdf_path := Pdf.strip_quotes (PyStr.strip line) in
  answer h (Input AskPdfPath) w = Returned line ->
  answer h (OsPathExists pdf_path) (world_after h (Input AskPdfPath) w)
  = Returned false ->
  let r := run h Pdf._interactive_single_convert w in
  result r = Returned tt /\
  trace r = [Called (Input AskPdfPath) (Returned line);
             Called (OsPathExists pdf_path) (Returned false);
             Put (PrintLine (FileNotFound pdf_path))].
Proof.
  intros pdf_path Hin Hex r; subst pdf_path r.
  unfold Pdf._interactive_single_convert.
  rewrite run_bind, run_one_call, Hin. cbn [and_then result final trace].
  rewrite run_bind, run_one_call, Hex. cbn. split; reflexivity.
Qed.

(** X18: the interactive conversion hands to the library the pages that
    the interactive parser computes from the line typed at the range
    prompt, and the destination typed at the destination prompt, or the
    default shown there when that line is blank.  It prints the warning
    about the range exactly when the block that parses it raised. *)
Theorem interactive_single_convert_passes_answers (w : World) :
  let r := run h Pdf._interactive_single_convert w in
  (forall line, pick typed_range (trace r) = [line] ->
     exists p, Cli.interactive_page_range line = Returned p /\
               (pick converted_pages (trace r) = [] \/
                pick converted_pages (trace r) = [p]) /\
               (existsb warned_invalid_range (trace r) = true <->
                exists err l,
                  Cli.range_block (PyStr.strip line) whole_document
                  = (Raised err, l) /\ PyStr.truthy (PyStr.strip line) = true)) /\
  (forall default line, pick typed_docx (trace r) = [(default, line)] ->
     let typed := Pdf.strip_quotes (PyStr.strip line) in
     pick converted_target (trace r) = [] \/
     pick converted_target (trace r)
     = [if PyStr.truthy typed then typed else default]).
Proof.
  intros r; subst r.
  unfold Pdf._interactive_single_convert, Pdf.convert_single_file.
  split.
  - cbn.
    destruct (h string (Input AskPdfPath) w) as [[l1|?] w1]; cbn;
      [|intros; discriminate].
    destruct (h bool (OsPathExists _) w1) as [[[|]|?] w2]; cbn;
      try (intros; discriminate).
    destruct (h string (Input (AskDocxPath _)) w2) as [[l2|?] w3]; cbn;
      [|intros; discriminate].
    destruct (h string (Input AskPageRange) w3) as [[l3|?] w4]; cbn;
      [|intros; discriminate].
    destruct (cli_parse_returns l3) as [p Hp].
    unfold Cli.interactive_page_range in Hp.
    destruct (PyStr.truthy (PyStr.strip l3)) eqn:Et.
    + destruct (Cli.range_block (PyStr.strip l3) whole_document)
        as [[[]|err] l] eqn:Eb.
      * injection Hp as <-.
        exec; intros line [= <-]; exists (page_range_of l);
          unfold Cli.interactive_page_range; rewrite Et, Eb;
          (split; [reflexivity|]); (split; [auto|]);
          (split; [discriminate | intros (? & ? & [=] & _)]).
      * destruct (is_ValueError err) eqn:Ev; [|discriminate].
        injection Hp as <-.
        exec; intros line [= <-]; exists (page_range_of l);
          unfold Cli.interactive_page_range; rewrite Et, Eb, Ev;
          (split; [reflexivity|]); (split; [auto|]);
          (split; [intros _; exists err, l; split; reflexivity | reflexivity]).
    + injection Hp as <-.
      exec; intros line [= <-]; exists (page_range_of whole_document);
        unfold Cli.interactive_page_range; rewrite Et;
        (split; [reflexivity|]); (split; [auto|]);
        (split; [discriminate | intros (? & ? & _ & [=])]).
  - cbn.
    destruct (h string (Input AskPdfPath) w) as [[l1|?] w1]; cbn;
      [|intros; discriminate].
    destruct (h bool (OsPathExists _) w1) as [[[|]|?] w2]; cbn;
      try (intros; discriminate).
    destruct (h string (Input (AskDocxPath _)) w2) as [[l2|?] w3]; cbn;
      [|intros; discriminate].
    destruct (h string (Input AskPageRange) w3) as [[l3|?] w4]; cbn;
      [|intros ? ? [= <- <-]; left; reflexivity].
    destruct (PyStr.truthy (PyStr.strip l3)).
    + destruct (Cli.range_block (PyStr.strip l3) whole_document)
        as [[[]|err] l].
      * destruct (PyStr.truthy (Pdf.strip_quotes (PyStr.strip l2))) eqn:En;
          exec; intros ? ? [= <- <-]; rewrite En; auto.
      * destruct (is_ValueError err);
          [|cbn; intros ? ? [= <- <-]; left; reflexivity].
        destruct (PyStr.truthy (Pdf.strip_quotes (PyStr.strip l2))) eqn:En;
          exec; intros ? ? [= <- <-]; rewrite En; auto.
    + destruct (PyStr.truthy (Pdf.strip_quotes (PyStr.strip l2))) eqn:En;
        exec; intros ? ? [= <- <-]; rewrite En; auto.
Qed.

(* ===================================================================== *)
(** * Beyond the claims: the HTTP handlers *)

(** X19: a request whose field [pdf] is absent, or holds an upload with
    an empty file name, is answered by [/api/pdf-info] and by
    [/api/convert-single] with the structured failure of status 400, and
    nothing else happens: no call is made, the range is not even
    parsed. *)
Theorem single_upload_handlers_reject_missing_upload
  (r : Http.request) (w : World) :
  Http.upload_truthy (Http.files_pdf r) = false ->
  run h (Http.pdf_info r) w
  = mkRun [] (Returned (Http.Jsonify 400 (Http.Failure Http.UploadMissing))) w /\
  run h (Http.convert_single r) w
  = mkRun [] (Returned (Http.Jsonify 400 (Http.Failure Http.UploadMissing))) w.
Proof.
  unfold Http.upload_truthy, Http.pdf_info, Http.convert_single.
  destruct (Http.files_pdf r) as [file|]; [|split; reflexivity].
  intros ->. split; reflexivity.
Qed.

(** X20: when saving the upload to the temporary file raises, the
    handler of [/api/pdf-info] closes the temporary file and lets an
    exception out; it never calls [os.remove], so the temporary file it
    created stays behind. *)
Theorem pdf_info_save_failure_leaves_temp
  (r : Http.request) (file : FileStorage) (tmp : string) (err : exn)
  (w : World) :
  Http.files_pdf r = Some file ->
  PyStr.truthy (filename file) = true ->
  answer h (NamedTemporaryFile ".pdf") w = Returned tmp ->
  answer h (FileSave file tmp) (world_after h (NamedTemporaryFile ".pdf") w)
  = Raised err ->
  let rr := run h (Http.pdf_info r) w in
  (exists err', result rr = Raised err') /\
  existsb removes (trace rr) = false /\
  pick closed_temporary (trace rr) = [tmp].
Proof.
  intros Hfile Hname Htmp Hsave rr; subst rr.
  unfold Http.pdf_info. rewrite Hfile, Hname. cbn [negb].
  rewrite !run_bind, run_one_call, Htmp. cbn [and_then result final trace].
  rewrite run_try_finally, run_bind, !run_one_call, Hsave.
  cbn [and_then and_finally result final trace app].
  destruct (answer h (CloseTemporaryFile tmp) _); cbn;
    (split; [eexists; reflexivity | split; reflexivity]).
Qed.

(** X21: whatever [/api/convert-single] returns is the failure of status
    400, the failure of status 500 with nothing sent, or a file as an
    attachment whose name ends in [.docx]; the attachment is sent only
    after a conversion that logged its success, it is the file the library
    was asked to write, and it was found to exist. *)
Theorem convert_single_outcome
  (r : Http.request) (w : World) (resp : Http.response) :
  let rr := run h (Http.convert_single r) w in
  result rr = Returned resp ->
  resp = Http.Jsonify 400 (Http.Failure Http.UploadMissing) \/
  (resp = Http.Jsonify 500 (Http.Failure Http.ConversionFailed) /\
   existsb sends (trace rr) = false) \/
  (exists docx_path base_name,
     resp = Http.SendFile (Http.FromPath docx_path) (base_name ++ ".docx")
              Http.docx_mimetype /\
     count succeeded (trace rr) = 1%nat /\
     pick converted_target (trace rr) = [docx_path] /\
     existsb (found_existing [docx_path]) (trace rr) = true).
Proof.
  intros rr; subst rr. unfold Http.convert_single.
  destruct (Http.files_pdf r) as [file|]; [|intros [= <-]; now left].
  destruct (negb _); [intros [= <-]; now left|].
  destruct (app_start_nonneg (Http.form_get_range r)) as (s & e & Hp & _).
  rewrite Hp. cbn [lift bind].
  unfold Http.with_TemporaryDirectory, Pdf.convert_single_file.
  exec; intros Hr; try discriminate; injection Hr as <-;
    first [ right; left; split; reflexivity
          | right; right; do 2 eexists; (split; [reflexivity|]);
            cbn [PyStr.mem existsb]; rewrite ?String.eqb_refl;
            cbn; rewrite ?orb_true_r; repeat split ].
Qed.

(** X22: once the temporary directory of a converting handler exists,
    the handler's last call is the cleanup of that directory, on every
    exit, by a response or by an exception. *)
Theorem converting_handlers_clean_up_last
  (r : Http.request) (w : World) (td : string) :
  answer h TemporaryDirectory w = Returned td ->
  (Http.upload_truthy (Http.files_pdf r) = true ->
   exists pre out,
     trace (run h (Http.convert_single r) w)
     = (pre ++ [Called (CleanupTemporaryDirectory td) out])%list) /\
  (Http.files_pdfs r <> [] ->
   exists pre out,
     trace (run h (Http.convert_batch r) w)
     = (pre ++ [Called (CleanupTemporaryDirectory td) out])%list).
Proof.
  intros Htd.
  destruct (app_start_nonneg (Http.form_get_range r)) as (s & e & Hp & _).
  split.
  - unfold Http.upload_truthy, Http.convert_single.
    destruct (Http.files_pdf r) as [file|]; [|discriminate].
    intros ->. cbn [negb]. rewrite Hp. cbn [lift bind].
    unfold Http.with_TemporaryDirectory.
    rewrite run_bind, run_one_call, Htd. cbn [and_then result final trace].
    rewrite run_try_finally, run_one_call. cbn [and_finally trace app].
    eexists (_ :: _), _. reflexivity.
  - intros Hf. rewrite (run_convert_batch h r w s e Hf Hp).
    rewrite run_one_call, Htd. cbn [and_then result final trace].
    rewrite !run_one_call. cbn [and_finally trace app].
    eexists (_ :: _), _. reflexivity.
Qed.

Lemma archive_step_quiet (tr : list event) :
  Forall (fun ev => archive_step ev = true) tr ->
  count succeeded tr = 0%nat /\ existsb asks tr = false.
Proof.
  induction 1 as [|ev tr Hev _ [IHc IHa]]; [split; reflexivity|].
  destruct ev as [X o res|out]; [|discriminate].
  destruct o; try discriminate; split; assumption.
Qed.

(** What [convert_batch] answers once the uploads are converted. *)
Lemma respond_batch_result (out_dir : string) (k : nat) (w : World)
  (resp : Http.response) :
  result (run h (Http.respond_batch out_dir k) w) = Returned resp ->
  (k = 0%nat /\ resp = Http.Jsonify 500 (Http.Failure Http.NothingConverted)) \/
  (k <> 0%nat /\
   exists buffer, resp = Http.SendFile (Http.FromBuffer buffer)
                           "converted_docx.zip" "application/zip").
Proof.
  unfold Http.respond_batch. destruct (Nat.eqb_spec k 0) as [->|Hk].
  - intros [= <-]. left. split; reflexivity.
  - next_call as zip_buffer; [|discriminate].
    rewrite run_bind.
    destruct (run h _ (world_after h BytesIO w)) as [tz [[]|err] wz];
      cbn [and_then result final trace]; [|discriminate].
    next_call as sought; [|discriminate].
    next_call as sent; [|discriminate].
    cbn. intros [= <-]. right. split; [exact Hk | now exists zip_buffer].
Qed.

(** The loop over the uploads, further: the operator is never asked,
    nothing is written to an archive, and when the loop returns, every
    upload that is not skipped has been saved, in the order of the
    request. *)
Lemma convert_uploads_more
  (td out_dir : string) (s : Z) (e : option Z)
  (files : list FileStorage) (n : nat) (w : World) :
  let r := run h (Http.convert_uploads td out_dir s e files n) w in
  existsb asks (trace r) = false /\
  pick zip_written (trace r) = [] /\
  (forall k, result r = Returned k ->
     pick saved_upload (trace r)
     = filter (fun f => negb (Http.skipped f)) files).
Proof.
  revert n w; induction files as [|f files IH]; intros n w r; subst r.
  - cbn. repeat split.
  - cbn [Http.convert_uploads filter].
    destruct (Http.skipped f) eqn:Hs; cbn [negb]; [apply IH|].
    rewrite run_bind, run_one_call.
    destruct (answer h _ w) as [[]|err]; cbn [and_then result final trace].
    2:{ cbn. repeat split. discriminate. }
    rewrite run_bind.
    destruct (convert_single_file_facts
                (os_path_join td (Http.safe_or_default (filename f)))
                (os_path_join out_dir
                   (os_path_splitext_root
                      (os_path_basename
                         (os_path_join td (Http.safe_or_default (filename f))))
                    ++ ".docx"))
                s e (world_after h (FileSave f (os_path_join td
                       (Http.safe_or_default (filename f)))) w))
      as (b & Hb & _ & _ & Ha & _ & Hz & _).
    pose proof (convert_single_file_trace h
                (os_path_join td (Http.safe_or_default (filename f)))
                (os_path_join out_dir
                   (os_path_splitext_root
                      (os_path_basename
                         (os_path_join td (Http.safe_or_default (filename f))))
                    ++ ".docx"))
                s e (world_after h (FileSave f (os_path_join td
                       (Http.safe_or_default (filename f)))) w))
      as (b' & _ & _ & _ & Hsv & _).
    destruct (run h (Pdf.convert_single_file _ _ s e) _) as [tc oc wc].
    cbn [result trace] in *. subst oc.
    cbn [and_then result final trace].
    destruct (IH (if b then S n else n) wc) as (Ia & Iz & Ik).
    destruct (run h (Http.convert_uploads _ _ s e files _) wc) as [tl ol wl].
    cbn [result final trace] in *.
    cbn [app existsb asks pick zip_written saved_upload orb].
    rewrite existsb_app, !pick_app, Ha, Ia, Hz, Iz, Hsv.
    repeat split. intros k Hk. cbn [app]. now rewrite (Ik k Hk).
Qed.

(** The files written to the archive: each under the name it has in the
    output directory, which is one of the names listed, in their order. *)
Lemma zip_names_written (zf : handle) (out_dir : string)
  (names : list string) (w : World) :
  let written := pick zip_written (trace (run h (Http.zip_names zf out_dir names) w)) in
  Forall (fun pa => fst pa = os_path_join out_dir (snd pa)) written /\
  subseq (map snd written) names.
Proof.
  revert w; induction names as [|name names IH]; intros w written; subst written.
  - cbn. split; constructor.
  - cbn [Http.zip_names]. next_call as is_file.
    2:{ cbn. split; [constructor | apply subseq_nil_l]. }
    cbn [app pick zip_written]. rewrite run_bind. destruct is_file.
    + rewrite run_one_call.
      destruct (answer h _ _) as [?|?]; cbn [and_then result final trace].
      2:{ cbn. split; [repeat constructor | constructor; apply subseq_nil_l]. }
      cbn [app pick zip_written map snd].
      destruct (IH (world_after h (ZipWrite zf (os_path_join out_dir name) name)
                      (world_after h (OsPathIsfile (os_path_join out_dir name)) w)))
        as [IF IS].
      split; constructor; [reflexivity | exact IF | exact IS].
    + cbn [run and_then result final trace app].
      destruct (IH (world_after h (OsPathIsfile (os_path_join out_dir name)) w))
        as [IF IS].
      split; [exact IF | constructor; exact IS].
Qed.

Lemma respond_batch_written (out_dir : string) (k : nat) (w : World) :
  Forall (fun pa => fst pa = os_path_join out_dir (snd pa))
         (pick zip_written (trace (run h (Http.respond_batch out_dir k) w))).
Proof.
  unfold Http.respond_batch. destruct (k =? 0)%nat; [constructor|].
  next_call as zip_buffer; [|constructor].
  cbn [app pick zip_written]. rewrite run_bind.
  assert (forall w', Forall (fun pa => fst pa = os_path_join out_dir (snd pa))
            (pick zip_written (trace (run h
               (zf <- call (ZipFileOpen zip_buffer) ;;
                try_finally
                  (names <- call (OsListdir out_dir) ;;
                   Http.zip_names zf out_dir names)
                  (call (ZipFileClose zf)))%prog w')))) as Hzip.
  { intros w'. next_call as zf; [|constructor].
    cbn [app pick zip_written].
    rewrite run_try_finally, !run_one_call.
    cbn [and_finally trace]. rewrite pick_app. cbn [pick zip_written].
    rewrite app_nil_r.
    next_call as names; [|constructor].
    cbn [app pick zip_written]. apply zip_names_written. }
  specialize (Hzip (world_after h BytesIO w)).
  destruct (run h _ (world_after h BytesIO w)) as [tz [[]|err] wz];
    cbn [and_then result final trace] in *; [|exact Hzip].
  rewrite pick_app. apply Forall_app; split; [exact Hzip|].
  next_call as sought; [|constructor].
  next_call as sent; constructor.
Qed.

Lemma count_called {X} (o : op X) (x : outcome X) (l : list event) :
  count succeeded (Called o x :: l) = count succeeded l.
Proof. reflexivity. Qed.

(** One view of a run of [convert_batch] on a request with uploads. *)
Lemma convert_batch_view (r : Http.request) (w : World) :
  Http.files_pdfs r <> [] ->
  let rr := run h (Http.convert_batch r) w in
  existsb asks (trace rr) = false /\
  (forall td, answer h TemporaryDirectory w = Returned td ->
     Forall (fun pa => fst pa = os_path_join (os_path_join td "out") (snd pa))
            (pick zip_written (trace rr))) /\
  (forall resp, result rr = Returned resp ->
     pick saved_upload (trace rr)
     = filter (fun f => negb (Http.skipped f)) (Http.files_pdfs r) /\
     ((resp = Http.Jsonify 500 (Http.Failure Http.NothingConverted) /\
       count succeeded (trace rr) = 0%nat) \/
      (exists buffer,
         resp = Http.SendFile (Http.FromBuffer buffer)
                  "converted_docx.zip" "application/zip" /\
         (1 <= count succeeded (trace rr))%nat))).
Proof.
  intros Hf rr; subst rr.
  destruct (app_start_nonneg (Http.form_get_range r)) as (s & e & Hp & _).
  rewrite (run_convert_batch h r w s e Hf Hp).
  rewrite run_one_call.
  destruct (answer h TemporaryDirectory w) as [td|err];
    cbn [and_then result final trace].
  2:{ cbn. split; [reflexivity|]. split; [discriminate|]. discriminate. }
  set (out_dir := os_path_join td "out").
  rewrite !run_one_call.
  destruct (answer h (OsMakedirs out_dir) _) as [[]|err];
    cbn [and_then and_finally result final trace].
  2:{ cbn. split; [reflexivity|]. split.
      - intros td' _. constructor.
      - intros resp.
        destruct (answer h (CleanupTemporaryDirectory td) _); discriminate. }
  destruct (convert_uploads_more td out_dir s e (Http.files_pdfs r) 0
              (world_after h (OsMakedirs out_dir)
                 (world_after h TemporaryDirectory w)))
    as (Ma & Mz & Ms).
  destruct (convert_uploads_trace h td out_dir s e (Http.files_pdfs r) 0
              (world_after h (OsMakedirs out_dir)
                 (world_after h TemporaryDirectory w)))
    as (_ & _ & _ & Lk).
  destruct (run h (Http.convert_uploads td out_dir s e (Http.files_pdfs r) 0) _)
    as [tl [k|err] wl]; cbn [and_then and_finally result final trace] in *.
  2:{ cbn [app existsb asks pick zip_written orb].
      rewrite existsb_app, pick_app, Ma, Mz.
      split; [reflexivity|]. split.
      - intros td' _. constructor.
      - intros resp.
        destruct (answer h (CleanupTemporaryDirectory td) _); discriminate. }
  specialize (Lk k eq_refl). cbn in Lk. specialize (Ms k eq_refl).
  pose proof (respond_batch_steps h out_dir k wl) as Hsteps.
  destruct (archive_step_quiet _ Hsteps) as [Rc Ra].
  pose proof (respond_batch_written out_dir k wl) as Rw.
  pose proof (respond_batch_result out_dir k wl) as Rr.
  pose proof (proj1 (respond_batch_trace h out_dir k wl)) as Rs.
  destruct (run h (Http.respond_batch out_dir k) wl) as [tr orr wr].
  cbn [result final trace] in *.
  cbn [app existsb asks pick zip_written saved_upload orb].
  split; [|split].
  - rewrite !existsb_app, Ma, Ra. reflexivity.
  - intros td' [= <-]. rewrite !pick_app, Mz. cbn [app pick zip_written].
    rewrite app_nil_r. exact Rw.
  - intros resp Hr.
    destruct (answer h (CleanupTemporaryDirectory td) wr); [|discriminate].
    subst orr. split.
    + rewrite !pick_app, Rs, Ms. cbn. now rewrite !app_nil_r.
    + repeat (rewrite count_called || rewrite count_app). rewrite Rc.
      cbn [count filter succeeded length app Nat.add].
      destruct (Rr resp eq_refl) as [[Hk ->] | [Hk [buffer ->]]].
      * left. split; [reflexivity | lia].
      * right. exists buffer. split; [reflexivity | lia].
Qed.

(** X23: on a request with uploads, whatever [/api/convert-batch] returns
    is the failure of status 500, with no line of success in the trace, or
    the archive [converted_docx.zip], with at least one. *)
Theorem convert_batch_outcome
  (r : Http.request) (w : World) (resp : Http.response) :
  Http.files_pdfs r <> [] ->
  let rr := run h (Http.convert_batch r) w in
  result rr = Returned resp ->
  (resp = Http.Jsonify 500 (Http.Failure Http.NothingConverted) /\
   count succeeded (trace rr) = 0%nat) \/
  (exists buffer,
     resp = Http.SendFile (Http.FromBuffer buffer)
              "converted_docx.zip" "application/zip" /\
     (1 <= count succeeded (trace rr))%nat).
Proof.
  intros Hf rr Hr; subst rr.
  destruct (convert_batch_view r w Hf) as (_ & _ & Hv).
  exact (proj2 (Hv resp Hr)).
Qed.

(** X24: the archive is flat: every file [/api/convert-batch] writes to
    it lies directly in the output directory [td/out] and is stored under
    its bare name there. *)
Theorem convert_batch_archive_is_flat
  (r : Http.request) (w : World) (td : string) :
  Http.files_pdfs r <> [] ->
  answer h TemporaryDirectory w = Returned td ->
  Forall (fun pa => fst pa = os_path_join (os_path_join td "out") (snd pa))
         (pick zip_written (trace (run h (Http.convert_batch r) w))).
Proof.
  intros Hf Htd.
  destruct (convert_batch_view r w Hf) as (_ & Hz & _).
  exact (Hz td Htd).
Qed.

(** X25: when [/api/convert-batch] returns a response to a request with
    uploads, it has saved every upload whose name ends in [.pdf], once
    each and in the order of the request, and no other. *)
Theorem convert_batch_saves_every_pdf
  (r : Http.request) (w : World) (resp : Http.response) :
  Http.files_pdfs r <> [] ->
  let rr := run h (Http.convert_batch r) w in
  result rr = Returned resp ->
  pick saved_upload (trace rr)
  = filter (fun f => negb (Http.skipped f)) (Http.files_pdfs r).
Proof.
  intros Hf rr Hr; subst rr.
  destruct (convert_batch_view r w Hf) as (_ & _ & Hv).
  exact (proj1 (Hv resp Hr)).
Qed.

(** X26: the HTTP handlers never read from the terminal: no run of
    [/api/pdf-info], [/api/convert-single] or [/api/convert-batch] holds a
    prompt, whatever outputs exist. *)
Theorem http_handlers_never_ask (r : Http.request) (w : World) :
  existsb asks (trace (run h (Http.pdf_info r) w)) = false /\
  existsb asks (trace (run h (Http.convert_single r) w)) = false /\
  existsb asks (trace (run h (Http.convert_batch r) w)) = false.
Proof.
  split; [|split].
  - unfold Http.pdf_info, Pdf.get_pdf_info.
    destruct (Http.files_pdf r) as [file|]; [|reflexivity].
    destruct (negb _); [reflexivity|].
    exec; reflexivity.
  - unfold Http.convert_single.
    destruct (Http.files_pdf r) as [file|]; [|reflexivity].
    destruct (negb _); [reflexivity|].
    destruct (app_start_nonneg (Http.form_get_range r)) as (s & e & Hp & _).
    rewrite Hp. cbn [lift bind].
    unfold Http.with_TemporaryDirectory, Pdf.convert_single_file.
    exec; reflexivity.
  - destruct (Http.files_pdfs r) as [|f fs] eqn:Hf.
    + unfold Http.convert_batch. now rewrite Hf.
    + apply convert_batch_view. congruence.
Qed.

(** X27: a request to [/api/convert-batch] without any upload is
    answered with the structured failure of status 400 and nothing else
    happens: the range is not parsed, no temporary directory is made. *)
Theorem convert_batch_rejects_missing_uploads (r : Http.request) (w : World) :
  Http.files_pdfs r = [] ->
  run h (Http.convert_batch r) w
  = mkRun [] (Returned (Http.Jsonify 400 (Http.Failure Http.UploadsMissing))) w.
Proof.
  intros Hf. unfold Http.convert_batch. now rewrite Hf.
Qed.

End AdapterExtras.

(* ===================================================================== *)
(** * The further statements on the closed world *)

Lemma convert_single_file_no_close_after_failure_witness :
  let r := run Toy.handle_op
             (Pdf.convert_single_file "in/a.pdf" "out/a.docx" 0 None)
             (Toy.mkWorld ["in/a.pdf"; "in"] [] [] false) in
  existsb convert_raised (trace r) = true /\
  existsb converter_closed (trace r) = false /\ result r = Returned false.
Proof.
  split; [reflexivity|].
  apply (convert_single_file_no_close_after_failure Toy.handle_op
           "in/a.pdf" "out/a.docx" 0 None
           (Toy.mkWorld ["in/a.pdf"; "in"] [] [] false)).
  reflexivity.
Defined.

Lemma batch_convert_missing_input_witness :
  let r := run Toy.handle_op (Pdf.batch_convert "nowhere" None "*.pdf")
             (Toy.mkWorld ["in"] [] ["in/a.pdf"] true) in
  result r = Returned (0%nat, 0%nat) /\
  trace r = [Called (OsPathExists "nowhere") (Returned false);
             Put (LogLine ERROR (InputDirMissing "nowhere"))] /\
  final r = Toy.mkWorld ["in"] [] ["in/a.pdf"] true.
Proof.
  apply (batch_convert_missing_input Toy.handle_op "nowhere" None "*.pdf"
           (Toy.mkWorld ["in"] [] ["in/a.pdf"] true)).
  reflexivity.
Defined.

Lemma batch_convert_nothing_found_witness :
  let r := run Toy.handle_op (Pdf.batch_convert "in" None "*.pdf")
             (Toy.mkWorld ["in"] [] [] true) in
  result r = Returned (0%nat, 0%nat) /\
  pick made_dir (trace r) = ["in_converted"] /\
  pick opened_source (trace r) = [] /\
  existsb asks (trace r) = false.
Proof.
  apply (batch_convert_nothing_found Toy.handle_op "in" None "*.pdf"
           (Toy.mkWorld ["in"] [] [] true)).
  reflexivity.
Defined.

Lemma batch_convert_counts_witness :
  let r := run Toy.handle_op (Pdf.batch_convert "in" None "*.pdf")
             (Toy.mkWorld ["in"; "in/a.pdf"; "in/b.pdf"; "in_converted/b.docx"]
                ["n"] ["in/a.pdf"; "in/b.pdf"] true) in
  result r = Returned (1%nat, 2%nat) /\
  1%nat = count succeeded (trace r) /\ (1 <= 2)%nat /\
  ((pick globbed (trace r) = [] /\ 2%nat = 0%nat) \/
   exists l, pick globbed (trace r) = [l] /\ 2%nat = length l).
Proof.
  split; [reflexivity|].
  apply (batch_convert_counts Toy.handle_op "in" None "*.pdf"
           (Toy.mkWorld ["in"; "in/a.pdf"; "in/b.pdf"; "in_converted/b.docx"]
              ["n"] ["in/a.pdf"; "in/b.pdf"] true) 1 2).
  reflexivity.
Defined.

Lemma batch_convert_in_listing_order_witness :
  let r := run Toy.handle_op (Pdf.batch_convert "in" None "*.pdf")
             (Toy.mkWorld ["in"; "in/a.pdf"; "in/b.pdf"; "in_converted/b.docx"]
                ["y"] ["in/a.pdf"; "in/b.pdf"] true) in
  pick globbed (trace r) = [["in/a.pdf"; "in/b.pdf"]] /\
  subseq (pick opened_source (trace r)) ["in/a.pdf"; "in/b.pdf"] /\
  subseq (pick overwrite_prompt (trace r))
         (map (fun f => path_name (batch_output "in_converted" f))
              ["in/a.pdf"; "in/b.pdf"]).
Proof.
  split; [reflexivity|].
  apply (batch_convert_in_listing_order Toy.handle_op "in" None "*.pdf"
           (Toy.mkWorld ["in"; "in/a.pdf"; "in/b.pdf"; "in_converted/b.docx"]
              ["y"] ["in/a.pdf"; "in/b.pdf"] true) ["in/a.pdf"; "in/b.pdf"]).
  reflexivity.
Defined.

Lemma batch_loop_skip_stops_witness :
  let w := Toy.mkWorld ["in/a.pdf"; "in/b.pdf"; "out/a.docx"] ["SKIP"] [] true in
  let r := run Toy.handle_op
             (Pdf.batch_loop "out" 2 ["in/a.pdf"; "in/b.pdf"] 1 0) w in
  result r = Returned 0%nat /\
  final r = Toy.mkWorld ["in/a.pdf"; "in/b.pdf"; "out/a.docx"] [] [] true /\
  trace r = [Put (LogLine INFO (ProcessingFile 1 2 "a.pdf"));
             Called (OsPathExists "out/a.docx") (Returned true);
             Called (Input (AskOverwrite "a.docx")) (Returned "SKIP");
             Put (LogLine INFO SkippingAll)].
Proof.
  exact (batch_loop_skip_stops Toy.handle_op (H := Toy.posix)
           "out" 2 "in/a.pdf" ["in/b.pdf"] 1 0
           (Toy.mkWorld ["in/a.pdf"; "in/b.pdf"; "out/a.docx"] ["SKIP"] [] true)
           "SKIP" eq_refl eq_refl eq_refl eq_refl).
Defined.

Lemma batch_loop_other_answers_convert_witness :
  let w := Toy.mkWorld ["in/a.pdf"; "in/b.pdf"; "out/a.docx"; "out/b.docx"]
             ["All"; "n"] [] true in
  let r := run Toy.handle_op
             (Pdf.batch_loop "out" 2 ["in/a.pdf"; "in/b.pdf"] 1 0) w in
  let fresh := converts_then Toy.handle_op "out" 2 "in/a.pdf" ["in/b.pdf"] 1 0
                 (Toy.mkWorld ["in/a.pdf"; "in/b.pdf"; "out/a.docx"; "out/b.docx"]
                    ["n"] [] true) in
  (result r = result fresh /\ final r = final fresh /\
   trace r = ([Put (LogLine INFO (ProcessingFile 1 2 "a.pdf"));
               Called (OsPathExists "out/a.docx") (Returned true);
               Called (Input (AskOverwrite "a.docx")) (Returned "All")]
              ++ trace fresh)%list) /\
  pick overwrite_prompt (trace r) = ["a.docx"; "b.docx"] /\
  pick opened_source (trace r) = ["in/a.pdf"].
Proof.
  refine (conj _ (conj eq_refl eq_refl)).
  exact (batch_loop_other_answers_convert Toy.handle_op (H := Toy.posix)
           "out" 2 "in/a.pdf" ["in/b.pdf"] 1 0
           (Toy.mkWorld ["in/a.pdf"; "in/b.pdf"; "out/a.docx"; "out/b.docx"]
              ["All"; "n"] [] true)
           "All" eq_refl eq_refl eq_refl eq_refl).
Defined.

Lemma batch_loop_skip_one_witness :
  let r := run Toy.handle_op
             (Pdf.batch_loop "out" 2 ["in/a.pdf"; "in/b.pdf"] 1 0)
             (Toy.mkWorld ["in/a.pdf"; "in/b.pdf"; "out/a.docx"] ["No"] [] true) in
  let r' := run Toy.handle_op
              (Pdf.batch_loop "out" 2 ["in/b.pdf"] 2 0)
              (Toy.mkWorld ["in/a.pdf"; "in/b.pdf"; "out/a.docx"] [] [] true) in
  result r = result r' /\ final r = final r' /\
  pick opened_source (trace r) = pick opened_source (trace r') /\
  count succeeded (trace r) = count succeeded (trace r') /\
  pick overwrite_prompt (trace r) = ("a.docx" :: pick overwrite_prompt (trace r'))%list.
Proof.
  exact (batch_loop_skip_one Toy.handle_op "out" 2 "in/a.pdf" ["in/b.pdf"] 1 0
           (Toy.mkWorld ["in/a.pdf"; "in/b.pdf"; "out/a.docx"] ["No"] [] true)
           "No" eq_refl eq_refl eq_refl).
Defined.

Lemma interactive_single_convert_missing_file_witness :
  let r := run Toy.handle_op Pdf._interactive_single_convert
             (Toy.mkWorld [] [" nowhere.pdf "] [] true) in
  result r = Returned tt /\
  trace r = [Called (Input AskPdfPath) (Returned " nowhere.pdf ");
             Called (OsPathExists "nowhere.pdf") (Returned false);
             Put (PrintLine (FileNotFound "nowhere.pdf"))].
Proof.
  exact (interactive_single_convert_missing_file Toy.handle_op
           (Toy.mkWorld [] [" nowhere.pdf "] [] true) " nowhere.pdf "
           eq_refl eq_refl).
Defined.

Lemma interactive_single_convert_passes_answers_witness :
  let r := run Toy.handle_op Pdf._interactive_single_convert
             (Toy.mkWorld ["in/a.pdf"; "in"] ["in/a.pdf"; " "; "2-3"] [] true) in
  pick converted_pages (trace r) = [(1, Some 3)] /\
  pick converted_target (trace r) = ["in/a.docx"].
Proof.
  pose proof (interactive_single_convert_passes_answers Toy.handle_op
                (Toy.mkWorld ["in/a.pdf"; "in"] ["in/a.pdf"; " "; "2-3"] [] true))
    as [Hpages Htarget].
  split.
  - destruct (Hpages "2-3" eq_refl) as (p & Hp & [Hnone | Hone] & _).
    + vm_compute in Hnone. discriminate Hnone.
    + reflexivity.
  - destruct (Htarget "in/a.docx" " " eq_refl) as [Hnone | Hone].
    + vm_compute in Hnone. discriminate Hnone.
    + reflexivity.
Defined.

Lemma single_upload_handlers_reject_missing_upload_witness :
  run Toy.handle_op
    (Http.pdf_info (Http.mkRequest (Some (mkUpload "" "%PDF")) [] (Some "1-2")))
    (Toy.mkWorld [] [] [] true)
  = mkRun [] (Returned (Http.Jsonify 400 (Http.Failure Http.UploadMissing)))
      (Toy.mkWorld [] [] [] true) /\
  run Toy.handle_op
    (Http.convert_single (Http.mkRequest (Some (mkUpload "" "%PDF")) [] (Some "1-2")))
    (Toy.mkWorld [] [] [] true)
  = mkRun [] (Returned (Http.Jsonify 400 (Http.Failure Http.UploadMissing)))
      (Toy.mkWorld [] [] [] true).
Proof.
  exact (single_upload_handlers_reject_missing_upload Toy.handle_op
           (Http.mkRequest (Some (mkUpload "" "%PDF")) [] (Some "1-2"))
           (Toy.mkWorld [] [] [] true) eq_refl).
Defined.

Lemma pdf_info_save_failure_leaves_temp_witness :
  let rr := run save_fails
              (Http.pdf_info (Http.mkRequest (Some (mkUpload "a.pdf" "%PDF")) [] None))
              (Toy.mkWorld [] [] [] true) in
  (exists err', result rr = Raised err') /\
  existsb removes (trace rr) = false /\
  pick closed_temporary (trace rr) = ["/tmp/upload.pdf"] /\
  Toy.present "/tmp/upload.pdf" (final rr) = true.
Proof.
  destruct (pdf_info_save_failure_leaves_temp save_fails
              (Http.mkRequest (Some (mkUpload "a.pdf" "%PDF")) [] None)
              (mkUpload "a.pdf" "%PDF") "/tmp/upload.pdf"
              (OSError "no space left on device")
              (Toy.mkWorld [] [] [] true) eq_refl eq_refl eq_refl eq_refl)
    as (Hraised & Hrm & Hclose).
  split; [exact Hraised|]. split; [exact Hrm|]. split; [exact Hclose | reflexivity].
Defined.

Lemma convert_single_outcome_witness :
  let rr := run Toy.handle_op
              (Http.convert_single
                 (Http.mkRequest (Some (mkUpload "a.pdf" "%PDF")) [] (Some "1-2")))
              (Toy.mkWorld [] [] [] true) in
  result rr = Returned (Http.SendFile (Http.FromPath "/tmp/td/a.docx") "a.docx"
                          Http.docx_mimetype) /\
  count succeeded (trace rr) = 1%nat.
Proof.
  split; [reflexivity|].
  destruct (convert_single_outcome Toy.handle_op (H := Toy.posix)
              (Http.mkRequest (Some (mkUpload "a.pdf" "%PDF")) [] (Some "1-2"))
              (Toy.mkWorld [] [] [] true)
              (Http.SendFile (Http.FromPath "/tmp/td/a.docx") "a.docx"
                 Http.docx_mimetype)
              eq_refl)
    as [H400 | [[H500 _] | (docx & base & _ & Hc & _)]].
  - discriminate H400.
  - discriminate H500.
  - exact Hc.
Defined.

Lemma converting_handlers_clean_up_last_witness :
  (exists pre out,
     trace (run Toy.handle_op
              (Http.convert_single
                 (Http.mkRequest (Some (mkUpload "a.pdf" "%PDF")) [] None))
              (Toy.mkWorld [] [] [] false))
     = (pre ++ [Called (CleanupTemporaryDirectory "/tmp/td") out])%list) /\
  (exists pre out,
     trace (run save_fails
              (Http.convert_batch
                 (Http.mkRequest None [mkUpload "a.pdf" "%PDF"] None))
              (Toy.mkWorld [] [] [] true))
     = (pre ++ [Called (CleanupTemporaryDirectory "/tmp/td") out])%list).
Proof.
  split.
  - apply (proj1 (converting_handlers_clean_up_last Toy.handle_op
             (Http.mkRequest (Some (mkUpload "a.pdf" "%PDF")) [] None)
             (Toy.mkWorld [] [] [] false) "/tmp/td" eq_refl)).
    reflexivity.
  - apply (proj2 (converting_handlers_clean_up_last save_fails
             (Http.mkRequest None [mkUpload "a.pdf" "%PDF"] None)
             (Toy.mkWorld [] [] [] true) "/tmp/td" eq_refl)).
    discriminate.
Defined.

Lemma convert_batch_outcome_witness :
  let rr := run Toy.handle_op
              (Http.convert_batch
                 (Http.mkRequest None
                    [mkUpload "a.pdf" "%PDF"; mkUpload "b.txt" "text"] None))
              (Toy.mkWorld [] [] ["a.docx"] true) in
  result rr = Returned (Http.SendFile (Http.FromBuffer 0%nat)
                          "converted_docx.zip" "application/zip") /\
  (1 <= count succeeded (trace rr))%nat.
Proof.
  split; [reflexivity|].
  destruct (convert_batch_outcome Toy.handle_op (H := Toy.posix)
              (Http.mkRequest None
                 [mkUpload "a.pdf" "%PDF"; mkUpload "b.txt" "text"] None)
              (Toy.mkWorld [] [] ["a.docx"] true)
              (Http.SendFile (Http.FromBuffer 0%nat)
                 "converted_docx.zip" "application/zip")
              ltac:(discriminate) eq_refl)
    as [[H500 _] | (buffer & _ & Hc)].
  - discriminate H500.
  - exact Hc.
Defined.

Lemma convert_batch_archive_is_flat_witness :
  let rr := run Toy.handle_op
              (Http.convert_batch
                 (Http.mkRequest None [mkUpload "a.pdf" "%PDF"] None))
              (Toy.mkWorld [] [] ["a.docx"] true) in
  pick zip_written (trace rr) = [("/tmp/td/out/a.docx", "a.docx")] /\
  Forall (fun pa => fst pa = os_path_join (os_path_join "/tmp/td" "out") (snd pa))
         (pick zip_written (trace rr)).
Proof.
  split; [reflexivity|].
  apply (convert_batch_archive_is_flat Toy.handle_op
           (Http.mkRequest None [mkUpload "a.pdf" "%PDF"] None)
           (Toy.mkWorld [] [] ["a.docx"] true) "/tmp/td");
    [discriminate | reflexivity].
Defined.

Lemma convert_batch_saves_every_pdf_witness :
  pick saved_upload
    (trace (run Toy.handle_op
              (Http.convert_batch
                 (Http.mkRequest None
                    [mkUpload "a.pdf" "%PDF"; mkUpload "b.txt" "text";
                     mkUpload "C.PDF" "%PDF"] None))
              (Toy.mkWorld [] [] [] false)))
  = [mkUpload "a.pdf" "%PDF"; mkUpload "C.PDF" "%PDF"].
Proof.
  apply (convert_batch_saves_every_pdf Toy.handle_op
           (Http.mkRequest None
              [mkUpload "a.pdf" "%PDF"; mkUpload "b.txt" "text";
               mkUpload "C.PDF" "%PDF"] None)
           (Toy.mkWorld [] [] [] false)
           (Http.Jsonify 500 (Http.Failure Http.NothingConverted)));
    [discriminate | reflexivity].
Defined.

Lemma convert_batch_rejects_missing_uploads_witness :
  run Toy.handle_op
    (Http.convert_batch (Http.mkRequest None [] (Some "1-5")))
    (Toy.mkWorld [] [] [] true)
  = mkRun [] (Returned (Http.Jsonify 400 (Http.Failure Http.UploadsMissing)))
      (Toy.mkWorld [] [] [] true).
Proof.
  exact (convert_batch_rejects_missing_uploads Toy.handle_op (H := Toy.posix)
           (Http.mkRequest None [] (Some "1-5")) (Toy.mkWorld [] [] [] true)
           eq_refl).
Defined.
